(** * CookingSecrets backend: the document store handlers of
    [backend/server.py] and their counter and authorization properties.

    The handlers are embedded as state-passing functions over an explicit
    document store.  A MongoDB collection is a list of documents in
    insertion order; [find_one], [update_one] and [delete_one] act on the
    first document matching the filter, [delete_many] on all of them.
    The three sources of nondeterminism of the handlers are passed in as
    arguments: the value returned by [uuid.uuid4()] ([new_id]), the clock
    [datetime.utcnow()] ([now]) and the salted bcrypt digest ([hashed]).
    A bearer token is represented by the [user_id] of its decoded payload. *)

From Stdlib Require Import List String ZArith Bool Lia Floats.
Import ListNotations.

Local Open Scope string_scope.
Local Open Scope Z_scope.

(** ** Models *)

Module UserRole.
Definition ADMIN : string := "admin".
Definition MODERATOR : string := "moderator".
Definition CHEF : string := "chef".
Definition USER : string := "user".
End UserRole.

Module UserCreate.
Record t := mk {
  email : string;
  username : string;
  full_name : string;
  password : string }.
End UserCreate.

Module User.
(** The stored user document: [User.model_dump()] plus [password_hash]. *)
Record t := mk {
  email : string;
  username : string;
  full_name : string;
  id : string;
  role : string;
  bio : option string;
  profile_image : option string;
  followers_count : Z;
  following_count : Z;
  recipes_count : Z;
  created_at : Z;
  is_active : bool;
  password_hash : string }.

Definition set_role (r : string) (u : t) : t :=
  mk (email u) (username u) (full_name u) (id u) r (bio u)
     (profile_image u) (followers_count u) (following_count u)
     (recipes_count u) (created_at u) (is_active u) (password_hash u).

Definition set_is_active (b : bool) (u : t) : t :=
  mk (email u) (username u) (full_name u) (id u) (role u) (bio u)
     (profile_image u) (followers_count u) (following_count u)
     (recipes_count u) (created_at u) b (password_hash u).

Definition set_full_name (s : string) (u : t) : t :=
  mk (email u) (username u) s (id u) (role u) (bio u)
     (profile_image u) (followers_count u) (following_count u)
     (recipes_count u) (created_at u) (is_active u) (password_hash u).

Definition set_bio (s : string) (u : t) : t :=
  mk (email u) (username u) (full_name u) (id u) (role u) (Some s)
     (profile_image u) (followers_count u) (following_count u)
     (recipes_count u) (created_at u) (is_active u) (password_hash u).

Definition set_profile_image (s : string) (u : t) : t :=
  mk (email u) (username u) (full_name u) (id u) (role u) (bio u)
     (Some s) (followers_count u) (following_count u)
     (recipes_count u) (created_at u) (is_active u) (password_hash u).

(** [{"$inc": {"followers_count": d}}] and its two siblings. *)
Definition inc_followers_count (d : Z) (u : t) : t :=
  mk (email u) (username u) (full_name u) (id u) (role u) (bio u)
     (profile_image u) (followers_count u + d) (following_count u)
     (recipes_count u) (created_at u) (is_active u) (password_hash u).

Definition inc_following_count (d : Z) (u : t) : t :=
  mk (email u) (username u) (full_name u) (id u) (role u) (bio u)
     (profile_image u) (followers_count u) (following_count u + d)
     (recipes_count u) (created_at u) (is_active u) (password_hash u).

Definition inc_recipes_count (d : Z) (u : t) : t :=
  mk (email u) (username u) (full_name u) (id u) (role u) (bio u)
     (profile_image u) (followers_count u) (following_count u)
     (recipes_count u + d) (created_at u) (is_active u) (password_hash u).
End User.

Module Ingredient.
Record t := mk {
  name : string;
  amount : string;
  unit : option string }.
End Ingredient.

Module CookingStep.
Record t := mk {
  step_number : Z;
  instruction : string;
  duration_minutes : option Z }.
End CookingStep.

Module RecipeCreate.
Record t := mk {
  title : string;
  description : string;
  image : string;
  ingredients : list Ingredient.t;
  steps : list CookingStep.t;
  cooking_time_minutes : Z;
  servings : Z;
  difficulty : string;
  category : string;
  tags : list string;
  is_paid : bool;
  price : float }.
End RecipeCreate.

(** The store's encoder (BSON) holds integers in at most 64 bits and raises
    [OverflowError] on any other; the handlers do not catch it, so the
    request is answered with 500 and the write does not take place.  The
    integers a recipe payload brings are the two below and those of its
    steps. *)
Definition int64 (n : Z) : bool :=
  (- 9223372036854775808 <=? n) && (n <=? 9223372036854775807).

Definition encodable_step (s : CookingStep.t) : bool :=
  int64 (CookingStep.step_number s)
  && match CookingStep.duration_minutes s with
     | Some m => int64 m
     | None => true
     end.

Definition encodable (d : RecipeCreate.t) : bool :=
  int64 (RecipeCreate.cooking_time_minutes d)
  && int64 (RecipeCreate.servings d)
  && forallb encodable_step (RecipeCreate.steps d).

Module Recipe.
Record t := mk {
  id : string;
  author_id : string;
  author_username : string;
  author_profile_image : option string;
  author_role : string;
  title : string;
  description : string;
  image : string;
  ingredients : list Ingredient.t;
  steps : list CookingStep.t;
  cooking_time_minutes : Z;
  servings : Z;
  difficulty : string;
  category : string;
  tags : list string;
  likes_count : Z;
  comments_count : Z;
  saves_count : Z;
  is_featured : bool;
  is_approved : bool;
  is_paid : bool;
  price : float;
  created_at : Z;
  updated_at : Z }.

Definition inc_likes_count (d : Z) (r : t) : t :=
  mk (id r) (author_id r) (author_username r) (author_profile_image r)
     (author_role r) (title r) (description r) (image r) (ingredients r)
     (steps r) (cooking_time_minutes r) (servings r) (difficulty r)
     (category r) (tags r) (likes_count r + d) (comments_count r)
     (saves_count r) (is_featured r) (is_approved r) (is_paid r)
     (price r) (created_at r) (updated_at r).

Definition inc_comments_count (d : Z) (r : t) : t :=
  mk (id r) (author_id r) (author_username r) (author_profile_image r)
     (author_role r) (title r) (description r) (image r) (ingredients r)
     (steps r) (cooking_time_minutes r) (servings r) (difficulty r)
     (category r) (tags r) (likes_count r) (comments_count r + d)
     (saves_count r) (is_featured r) (is_approved r) (is_paid r)
     (price r) (created_at r) (updated_at r).

Definition inc_saves_count (d : Z) (r : t) : t :=
  mk (id r) (author_id r) (author_username r) (author_profile_image r)
     (author_role r) (title r) (description r) (image r) (ingredients r)
     (steps r) (cooking_time_minutes r) (servings r) (difficulty r)
     (category r) (tags r) (likes_count r) (comments_count r)
     (saves_count r + d) (is_featured r) (is_approved r) (is_paid r)
     (price r) (created_at r) (updated_at r).

(** [{"$set": update_data}] of [update_recipe]: [update_data] holds the
    twelve keys of [RecipeCreate.model_dump()] and [updated_at]. *)
Definition set_update_data (d : RecipeCreate.t) (now : Z) (r : t) : t :=
  mk (id r) (author_id r) (author_username r) (author_profile_image r)
     (author_role r) (RecipeCreate.title d) (RecipeCreate.description d)
     (RecipeCreate.image d) (RecipeCreate.ingredients d)
     (RecipeCreate.steps d) (RecipeCreate.cooking_time_minutes d)
     (RecipeCreate.servings d) (RecipeCreate.difficulty d)
     (RecipeCreate.category d) (RecipeCreate.tags d) (likes_count r)
     (comments_count r) (saves_count r) (is_featured r) (is_approved r)
     (RecipeCreate.is_paid d) (RecipeCreate.price d) (created_at r) now.
End Recipe.

Module Comment.
Record t := mk {
  id : string;
  recipe_id : string;
  user_id : string;
  username : string;
  user_profile_image : option string;
  text : string;
  created_at : Z }.
End Comment.

Module Like.
Record t := mk {
  id : string;
  recipe_id : string;
  user_id : string;
  created_at : Z }.
End Like.

Module Save.
Record t := mk {
  id : string;
  recipe_id : string;
  user_id : string;
  created_at : Z }.
End Save.

Module Follow.
Record t := mk {
  id : string;
  follower_id : string;
  following_id : string;
  created_at : Z }.
End Follow.

Module Purchase.
Record t := mk {
  id : string;
  user_id : string;
  recipe_id : string;
  amount : float;
  created_at : Z }.
End Purchase.

Module UpdateProfile.
Record t := mk {
  full_name : option string;
  bio : option string;
  profile_image : option string }.
End UpdateProfile.

(** ** Collections *)

Section Collection.
Context {A : Type}.

Definition find_one (q : A -> bool) (c : list A) : option A := find q c.

Definition insert_one (x : A) (c : list A) : list A := c ++ [x].

Fixpoint update_one (q : A -> bool) (upd : A -> A) (c : list A) : list A :=
  match c with
  | [] => []
  | x :: c' => if q x then upd x :: c' else x :: update_one q upd c'
  end.

Fixpoint delete_one (q : A -> bool) (c : list A) : list A :=
  match c with
  | [] => []
  | x :: c' => if q x then c' else x :: delete_one q c'
  end.

Definition delete_many (q : A -> bool) (c : list A) : list A :=
  filter (fun x => negb (q x)) c.

Definition count_documents (q : A -> bool) (c : list A) : nat :=
  List.length (filter q c).
End Collection.

(** The database handle [db] with the collections the handlers touch. *)
Record Db := mkDb {
  users : list User.t;
  recipes : list Recipe.t;
  comments : list Comment.t;
  likes : list Like.t;
  saves : list Save.t;
  follows : list Follow.t;
  purchases : list Purchase.t }.

Definition empty_db : Db := mkDb [] [] [] [] [] [] [].

Definition with_users (f : list User.t -> list User.t) (db : Db) : Db :=
  mkDb (f (users db)) (recipes db) (comments db) (likes db) (saves db)
       (follows db) (purchases db).
Definition with_recipes (f : list Recipe.t -> list Recipe.t) (db : Db) : Db :=
  mkDb (users db) (f (recipes db)) (comments db) (likes db) (saves db)
       (follows db) (purchases db).
Definition with_comments (f : list Comment.t -> list Comment.t) (db : Db) : Db :=
  mkDb (users db) (recipes db) (f (comments db)) (likes db) (saves db)
       (follows db) (purchases db).
Definition with_likes (f : list Like.t -> list Like.t) (db : Db) : Db :=
  mkDb (users db) (recipes db) (comments db) (f (likes db)) (saves db)
       (follows db) (purchases db).
Definition with_saves (f : list Save.t -> list Save.t) (db : Db) : Db :=
  mkDb (users db) (recipes db) (comments db) (likes db) (f (saves db))
       (follows db) (purchases db).
Definition with_follows (f : list Follow.t -> list Follow.t) (db : Db) : Db :=
  mkDb (users db) (recipes db) (comments db) (likes db) (saves db)
       (f (follows db)) (purchases db).
Definition with_purchases (f : list Purchase.t -> list Purchase.t) (db : Db) : Db :=
  mkDb (users db) (recipes db) (comments db) (likes db) (saves db)
       (follows db) (f (purchases db)).

(** ** Handlers run in a state monad over [Db] that can raise *)

Record HTTPException := mkHTTP { status_code : Z; detail : string }.

Inductive Result (A : Type) : Type :=
| Ok (a : A)
| Raised (e : HTTPException).
Arguments Ok {A} a.
Arguments Raised {A} e.

Definition M (A : Type) : Type := Db -> Result A * Db.

Definition ret {A} (a : A) : M A := fun db => (Ok a, db).

Definition bind {A B} (m : M A) (k : A -> M B) : M B :=
  fun db =>
    match m db with
    | (Ok a, db') => k a db'
    | (Raised e, db') => (Raised e, db')
    end.

Definition raise {A} (code : Z) (msg : string) : M A :=
  fun db => (Raised (mkHTTP code msg), db).

(** A read of the store ([await db.c.find_one(...)], [count_documents]). *)
Definition query {A} (f : Db -> A) : M A := fun db => (Ok (f db), db).

(** A write to the store ([insert_one], [update_one], [delete_one], ...). *)
Definition store (f : Db -> Db) : M unit := fun db => (Ok tt, f db).

Notation "x <- m ;; k" := (bind m (fun x => k))
  (at level 61, m at next level, right associativity).
Notation "m ;;; k" := (bind m (fun _ => k))
  (at level 61, right associativity).

Definition eqs (a b : string) : bool := String.eqb a b.

(** [role not in [UserRole.ADMIN, UserRole.MODERATOR]] is [negb] of this. *)
Definition role_in (role : string) (allowed : list string) : bool :=
  existsb (eqs role) allowed.

Definition get_current_user (token_user_id : string) : M User.t :=
  user <- query (fun db => find_one (fun u => eqs (User.id u) token_user_id) (users db)) ;;
  match user with
  | None => raise 404 "User not found"
  | Some u => ret u
  end.

Definition require_role (allowed_roles : list string) (token_user_id : string)
  : M User.t :=
  current_user <- get_current_user token_user_id ;;
  if negb (role_in (User.role current_user) allowed_roles)
  then raise 403 "Insufficient permissions"
  else ret current_user.

(** ** Auth and user routes *)

Definition register (new_id : string) (now : Z) (hashed : string)
    (user_data : UserCreate.t) : M User.t :=
  existing_email <- query (fun db =>
    find_one (fun u => eqs (User.email u) (UserCreate.email user_data)) (users db)) ;;
  match existing_email with
  | Some _ => raise 400 "Email already registered"
  | None =>
    existing_username <- query (fun db =>
      find_one (fun u => eqs (User.username u) (UserCreate.username user_data))
               (users db)) ;;
    match existing_username with
    | Some _ => raise 400 "Username already taken"
    | None =>
      let user :=
        User.mk (UserCreate.email user_data) (UserCreate.username user_data)
                (UserCreate.full_name user_data) new_id UserRole.USER
                (Some "") None 0 0 0 now true hashed in
      user_count <- query (fun db => count_documents (fun _ => true) (users db)) ;;
      let user_dict :=
        if Nat.eqb user_count 0 then User.set_role UserRole.ADMIN user else user in
      store (with_users (insert_one user_dict)) ;;;
      ret user_dict
    end
  end.

Definition valid_roles : list string :=
  [UserRole.ADMIN; UserRole.MODERATOR; UserRole.CHEF; UserRole.USER].

(** [result.modified_count] of a [$set] of the role: one when a document
    matched and its role was different, zero otherwise. *)
Definition role_modified_count (user_id role : string) (db : Db) : nat :=
  match find_one (fun u => eqs (User.id u) user_id) (users db) with
  | Some u => if eqs (User.role u) role then 0%nat else 1%nat
  | None => 0%nat
  end.

Definition update_user_role (user_id role : string) (token : string)
  : M User.t :=
  _ <- require_role [UserRole.ADMIN] token ;;
  if negb (role_in role valid_roles) then raise 400 "Invalid role"
  else
    modified_count <- query (role_modified_count user_id role) ;;
    store (with_users
      (update_one (fun u => eqs (User.id u) user_id) (User.set_role role))) ;;;
    if Nat.eqb modified_count 0 then raise 404 "User not found"
    else
      user <- query (fun db =>
        find_one (fun u => eqs (User.id u) user_id) (users db)) ;;
      match user with
      | Some u => ret u
      | None => raise 500 "Internal Server Error"
      end.

(** [update_fields] collects the keys that are not [None]; the [$set]
    writes exactly those. *)
Definition set_update_fields (p : UpdateProfile.t) (u : User.t) : User.t :=
  let u1 := match UpdateProfile.full_name p with
            | Some s => User.set_full_name s u | None => u end in
  let u2 := match UpdateProfile.bio p with
            | Some s => User.set_bio s u1 | None => u1 end in
  match UpdateProfile.profile_image p with
  | Some s => User.set_profile_image s u2 | None => u2 end.

Definition has_update_fields (p : UpdateProfile.t) : bool :=
  match UpdateProfile.full_name p, UpdateProfile.bio p,
        UpdateProfile.profile_image p with
  | None, None, None => false
  | _, _, _ => true
  end.

Definition update_profile (profile_data : UpdateProfile.t) (token : string)
  : M User.t :=
  current_user <- get_current_user token ;;
  (if has_update_fields profile_data
   then store (with_users
          (update_one (fun u => eqs (User.id u) (User.id current_user))
                      (set_update_fields profile_data)))
   else ret tt) ;;;
  user <- query (fun db =>
    find_one (fun u => eqs (User.id u) (User.id current_user)) (users db)) ;;
  match user with
  | Some u => ret u
  | None => raise 500 "Internal Server Error"
  end.

Definition toggle_user_active (user_id : string) (token : string) : M string :=
  _ <- require_role [UserRole.ADMIN] token ;;
  user <- query (fun db =>
    find_one (fun u => eqs (User.id u) user_id) (users db)) ;;
  match user with
  | None => raise 404 "User not found"
  | Some u =>
    let new_status := negb (User.is_active u) in
    store (with_users
      (update_one (fun u => eqs (User.id u) user_id)
                  (User.set_is_active new_status))) ;;;
    ret (if new_status then "User activated successfully"
         else "User deactivated successfully")
  end.

(** ** Recipe routes *)

Definition create_recipe (new_id : string) (now : Z)
    (recipe_data : RecipeCreate.t) (token : string) : M Recipe.t :=
  current_user <- get_current_user token ;;
  let recipe :=
    Recipe.mk new_id (User.id current_user) (User.username current_user)
      (User.profile_image current_user) (User.role current_user)
      (RecipeCreate.title recipe_data) (RecipeCreate.description recipe_data)
      (RecipeCreate.image recipe_data) (RecipeCreate.ingredients recipe_data)
      (RecipeCreate.steps recipe_data)
      (RecipeCreate.cooking_time_minutes recipe_data)
      (RecipeCreate.servings recipe_data) (RecipeCreate.difficulty recipe_data)
      (RecipeCreate.category recipe_data) (RecipeCreate.tags recipe_data)
      0 0 0
      (eqs (User.role current_user) UserRole.CHEF)
      true
      (RecipeCreate.is_paid recipe_data)
      (if RecipeCreate.is_paid recipe_data
       then RecipeCreate.price recipe_data else 0%float)
      now now in
  if negb (encodable recipe_data)
  then raise 500 "Internal Server Error"
  else
    store (with_recipes (insert_one recipe)) ;;;
    store (with_users
      (update_one (fun u => eqs (User.id u) (User.id current_user))
                  (User.inc_recipes_count 1))) ;;;
    ret recipe.

Definition get_recipe (recipe_id : string) : M Recipe.t :=
  recipe <- query (fun db =>
    find_one (fun r => eqs (Recipe.id r) recipe_id) (recipes db)) ;;
  match recipe with
  | None => raise 404 "Recipe not found"
  | Some r => ret r
  end.

Definition elevated : list string := [UserRole.ADMIN; UserRole.MODERATOR].

Definition update_recipe (now : Z) (recipe_id : string)
    (recipe_data : RecipeCreate.t) (token : string) : M Recipe.t :=
  current_user <- get_current_user token ;;
  recipe <- query (fun db =>
    find_one (fun r => eqs (Recipe.id r) recipe_id) (recipes db)) ;;
  match recipe with
  | None => raise 404 "Recipe not found"
  | Some recipe =>
    if negb (eqs (Recipe.author_id recipe) (User.id current_user))
       && negb (role_in (User.role current_user) elevated)
    then raise 403 "Not authorized to edit this recipe"
    else if negb (encodable recipe_data)
    then raise 500 "Internal Server Error"
    else
      store (with_recipes
        (update_one (fun r => eqs (Recipe.id r) recipe_id)
                    (Recipe.set_update_data recipe_data now))) ;;;
      updated_recipe <- query (fun db =>
        find_one (fun r => eqs (Recipe.id r) recipe_id) (recipes db)) ;;
      match updated_recipe with
      | Some r => ret r
      | None => raise 500 "Internal Server Error"
      end
  end.

Definition delete_recipe (recipe_id : string) (token : string) : M string :=
  current_user <- get_current_user token ;;
  recipe <- query (fun db =>
    find_one (fun r => eqs (Recipe.id r) recipe_id) (recipes db)) ;;
  match recipe with
  | None => raise 404 "Recipe not found"
  | Some recipe =>
    if negb (eqs (Recipe.author_id recipe) (User.id current_user))
       && negb (role_in (User.role current_user) elevated)
    then raise 403 "Not authorized to delete this recipe"
    else
      store (with_recipes (delete_one (fun r => eqs (Recipe.id r) recipe_id))) ;;;
      store (with_comments
        (delete_many (fun c => eqs (Comment.recipe_id c) recipe_id))) ;;;
      store (with_likes
        (delete_many (fun l => eqs (Like.recipe_id l) recipe_id))) ;;;
      store (with_saves
        (delete_many (fun s => eqs (Save.recipe_id s) recipe_id))) ;;;
      store (with_users
        (update_one (fun u => eqs (User.id u) (Recipe.author_id recipe))
                    (User.inc_recipes_count (-1)))) ;;;
      ret "Recipe deleted successfully"
  end.

(** ** Like and save routes: the returned pair is the flag
    (["liked"], ["saved"], ["following"], ["purchased"]) and the message. *)

Definition like_recipe (new_id : string) (now : Z) (recipe_id : string)
    (token : string) : M (bool * string) :=
  current_user <- get_current_user token ;;
  existing <- query (fun db =>
    find_one (fun l => eqs (Like.recipe_id l) recipe_id
                       && eqs (Like.user_id l) (User.id current_user))
             (likes db)) ;;
  match existing with
  | Some existing =>
    store (with_likes (delete_one (fun l => eqs (Like.id l) (Like.id existing)))) ;;;
    store (with_recipes
      (update_one (fun r => eqs (Recipe.id r) recipe_id)
                  (Recipe.inc_likes_count (-1)))) ;;;
    ret (false, "Recipe unliked")
  | None =>
    let like := Like.mk new_id recipe_id (User.id current_user) now in
    store (with_likes (insert_one like)) ;;;
    store (with_recipes
      (update_one (fun r => eqs (Recipe.id r) recipe_id)
                  (Recipe.inc_likes_count 1))) ;;;
    ret (true, "Recipe liked")
  end.

Definition check_liked (recipe_id : string) (token : string) : M bool :=
  current_user <- get_current_user token ;;
  existing <- query (fun db =>
    find_one (fun l => eqs (Like.recipe_id l) recipe_id
                       && eqs (Like.user_id l) (User.id current_user))
             (likes db)) ;;
  ret (match existing with Some _ => true | None => false end).

Definition save_recipe (new_id : string) (now : Z) (recipe_id : string)
    (token : string) : M (bool * string) :=
  current_user <- get_current_user token ;;
  existing <- query (fun db =>
    find_one (fun s => eqs (Save.recipe_id s) recipe_id
                       && eqs (Save.user_id s) (User.id current_user))
             (saves db)) ;;
  match existing with
  | Some existing =>
    store (with_saves (delete_one (fun s => eqs (Save.id s) (Save.id existing)))) ;;;
    store (with_recipes
      (update_one (fun r => eqs (Recipe.id r) recipe_id)
                  (Recipe.inc_saves_count (-1)))) ;;;
    ret (false, "Recipe unsaved")
  | None =>
    let save := Save.mk new_id recipe_id (User.id current_user) now in
    store (with_saves (insert_one save)) ;;;
    store (with_recipes
      (update_one (fun r => eqs (Recipe.id r) recipe_id)
                  (Recipe.inc_saves_count 1))) ;;;
    ret (true, "Recipe saved")
  end.

Definition check_saved (recipe_id : string) (token : string) : M bool :=
  current_user <- get_current_user token ;;
  existing <- query (fun db =>
    find_one (fun s => eqs (Save.recipe_id s) recipe_id
                       && eqs (Save.user_id s) (User.id current_user))
             (saves db)) ;;
  ret (match existing with Some _ => true | None => false end).

(** ** Comment routes *)

Definition create_comment (new_id : string) (now : Z) (recipe_id : string)
    (text : string) (token : string) : M Comment.t :=
  current_user <- get_current_user token ;;
  let comment :=
    Comment.mk new_id recipe_id (User.id current_user)
      (User.username current_user) (User.profile_image current_user)
      text now in
  store (with_comments (insert_one comment)) ;;;
  store (with_recipes
    (update_one (fun r => eqs (Recipe.id r) recipe_id)
                (Recipe.inc_comments_count 1))) ;;;
  ret comment.

Definition delete_comment (comment_id : string) (token : string) : M string :=
  current_user <- get_current_user token ;;
  comment <- query (fun db =>
    find_one (fun c => eqs (Comment.id c) comment_id) (comments db)) ;;
  match comment with
  | None => raise 404 "Comment not found"
  | Some comment =>
    if negb (eqs (Comment.user_id comment) (User.id current_user))
       && negb (role_in (User.role current_user) elevated)
    then raise 403 "Not authorized to delete this comment"
    else
      store (with_comments
        (delete_one (fun c => eqs (Comment.id c) comment_id))) ;;;
      store (with_recipes
        (update_one (fun r => eqs (Recipe.id r) (Comment.recipe_id comment))
                    (Recipe.inc_comments_count (-1)))) ;;;
      ret "Comment deleted successfully"
  end.

(** ** Follow routes *)

Definition follow_user (new_id : string) (now : Z) (user_id : string)
    (token : string) : M (bool * string) :=
  current_user <- get_current_user token ;;
  if eqs user_id (User.id current_user)
  then raise 400 "Cannot follow yourself"
  else
    existing <- query (fun db =>
      find_one (fun f => eqs (Follow.follower_id f) (User.id current_user)
                         && eqs (Follow.following_id f) user_id)
               (follows db)) ;;
    match existing with
    | Some existing =>
      store (with_follows
        (delete_one (fun f => eqs (Follow.id f) (Follow.id existing)))) ;;;
      store (with_users
        (update_one (fun u => eqs (User.id u) (User.id current_user))
                    (User.inc_following_count (-1)))) ;;;
      store (with_users
        (update_one (fun u => eqs (User.id u) user_id)
                    (User.inc_followers_count (-1)))) ;;;
      ret (false, "Unfollowed")
    | None =>
      let follow := Follow.mk new_id (User.id current_user) user_id now in
      store (with_follows (insert_one follow)) ;;;
      store (with_users
        (update_one (fun u => eqs (User.id u) (User.id current_user))
                    (User.inc_following_count 1))) ;;;
      store (with_users
        (update_one (fun u => eqs (User.id u) user_id)
                    (User.inc_followers_count 1))) ;;;
      ret (true, "Following")
    end.

Definition check_following (user_id : string) (token : string) : M bool :=
  current_user <- get_current_user token ;;
  existing <- query (fun db =>
    find_one (fun f => eqs (Follow.follower_id f) (User.id current_user)
                       && eqs (Follow.following_id f) user_id)
             (follows db)) ;;
  ret (match existing with Some _ => true | None => false end).

(** ** Purchase routes *)

Definition purchase_recipe (new_id : string) (now : Z) (recipe_id : string)
    (token : string) : M (bool * string) :=
  current_user <- get_current_user token ;;
  recipe <- query (fun db =>
    find_one (fun r => eqs (Recipe.id r) recipe_id) (recipes db)) ;;
  match recipe with
  | None => raise 404 "Recipe not found"
  | Some recipe =>
    if negb (Recipe.is_paid recipe) then raise 400 "This recipe is free"
    else
      existing <- query (fun db =>
        find_one (fun p => eqs (Purchase.user_id p) (User.id current_user)
                           && eqs (Purchase.recipe_id p) recipe_id)
                 (purchases db)) ;;
      match existing with
      | Some _ => ret (true, "Already purchased")
      | None =>
        let purchase :=
          Purchase.mk new_id (User.id current_user) recipe_id
                      (Recipe.price recipe) now in
        store (with_purchases (insert_one purchase)) ;;;
        ret (true, "Recipe purchased successfully")
      end
  end.

(** ** Requests and runs *)

Inductive Op : Type :=
| OpRegister (new_id : string) (now : Z) (hashed : string)
    (user_data : UserCreate.t)
| OpUpdateUserRole (user_id role token : string)
| OpUpdateProfile (profile_data : UpdateProfile.t) (token : string)
| OpToggleUserActive (user_id token : string)
| OpCreateRecipe (new_id : string) (now : Z) (recipe_data : RecipeCreate.t)
    (token : string)
| OpUpdateRecipe (now : Z) (recipe_id : string) (recipe_data : RecipeCreate.t)
    (token : string)
| OpDeleteRecipe (recipe_id token : string)
| OpLikeRecipe (new_id : string) (now : Z) (recipe_id token : string)
| OpSaveRecipe (new_id : string) (now : Z) (recipe_id token : string)
| OpCreateComment (new_id : string) (now : Z) (recipe_id text token : string)
| OpDeleteComment (comment_id token : string)
| OpFollowUser (new_id : string) (now : Z) (user_id token : string)
| OpPurchaseRecipe (new_id : string) (now : Z) (recipe_id token : string).

(** The store after the request has been served (whatever it answered). *)
Definition handle (op : Op) (db : Db) : Db :=
  match op with
  | OpRegister i now h d => snd (register i now h d db)
  | OpUpdateUserRole u r t => snd (update_user_role u r t db)
  | OpUpdateProfile p t => snd (update_profile p t db)
  | OpToggleUserActive u t => snd (toggle_user_active u t db)
  | OpCreateRecipe i now d t => snd (create_recipe i now d t db)
  | OpUpdateRecipe now r d t => snd (update_recipe now r d t db)
  | OpDeleteRecipe r t => snd (delete_recipe r t db)
  | OpLikeRecipe i now r t => snd (like_recipe i now r t db)
  | OpSaveRecipe i now r t => snd (save_recipe i now r t db)
  | OpCreateComment i now r x t => snd (create_comment i now r x t db)
  | OpDeleteComment c t => snd (delete_comment c t db)
  | OpFollowUser i now u t => snd (follow_user i now u t db)
  | OpPurchaseRecipe i now r t => snd (purchase_recipe i now r t db)
  end.

Definition is_some {A} (o : option A) : bool :=
  match o with Some _ => true | None => false end.

(** Every identifier the store holds, as a document id or as a reference. *)
Definition ids_in (db : Db) : list string :=
  map User.id (users db)
  ++ map Recipe.id (recipes db) ++ map Recipe.author_id (recipes db)
  ++ map Comment.id (comments db) ++ map Comment.recipe_id (comments db)
  ++ map Comment.user_id (comments db)
  ++ map Like.id (likes db) ++ map Like.recipe_id (likes db)
  ++ map Like.user_id (likes db)
  ++ map Save.id (saves db) ++ map Save.recipe_id (saves db)
  ++ map Save.user_id (saves db)
  ++ map Follow.id (follows db) ++ map Follow.follower_id (follows db)
  ++ map Follow.following_id (follows db)
  ++ map Purchase.id (purchases db) ++ map Purchase.user_id (purchases db)
  ++ map Purchase.recipe_id (purchases db).

(** What [uuid.uuid4()] is relied on for: the identifier it returns occurs
    nowhere in the store. *)
Definition fresh (db : Db) (i : string) : bool :=
  negb (existsb (eqs i) (ids_in db)).

(** The identifier the handler draws from [uuid.uuid4()] when it serves
    [op] in [db], if it gets as far as building a new document. *)
Definition mints (op : Op) (db : Db) : option string :=
  let user t := find_one (fun u => eqs (User.id u) t) (users db) in
  match op with
  | OpRegister i _ _ d =>
    if is_some (find_one (fun u => eqs (User.email u) (UserCreate.email d))
                         (users db))
       || is_some (find_one
                     (fun u => eqs (User.username u) (UserCreate.username d))
                     (users db))
    then None else Some i
  | OpCreateRecipe i _ _ t | OpCreateComment i _ _ _ t =>
    if is_some (user t) then Some i else None
  | OpLikeRecipe i _ r t =>
    match user t with
    | Some u =>
      if is_some (find_one (fun l => eqs (Like.recipe_id l) r
                                     && eqs (Like.user_id l) (User.id u))
                           (likes db))
      then None else Some i
    | None => None
    end
  | OpSaveRecipe i _ r t =>
    match user t with
    | Some u =>
      if is_some (find_one (fun s => eqs (Save.recipe_id s) r
                                     && eqs (Save.user_id s) (User.id u))
                           (saves db))
      then None else Some i
    | None => None
    end
  | OpFollowUser i _ x t =>
    match user t with
    | Some u =>
      if eqs x (User.id u)
         || is_some (find_one (fun f => eqs (Follow.follower_id f) (User.id u)
                                        && eqs (Follow.following_id f) x)
                              (follows db))
      then None else Some i
    | None => None
    end
  | OpPurchaseRecipe i _ r t =>
    match user t, find_one (fun x => eqs (Recipe.id x) r) (recipes db) with
    | Some u, Some x =>
      if negb (Recipe.is_paid x)
         || is_some (find_one (fun p => eqs (Purchase.user_id p) (User.id u)
                                        && eqs (Purchase.recipe_id p) r)
                              (purchases db))
      then None else Some i
    | _, _ => None
    end
  | _ => None
  end.

Definition admissible (op : Op) (db : Db) : bool :=
  match mints op db with
  | Some i => fresh db i
  | None => true
  end.

(** The stores the service can be in: it starts empty and serves requests
    one at a time, each new identifier being fresh. *)
Inductive reachable : Db -> Prop :=
| reachable_empty : reachable empty_db
| reachable_handle db op :
    reachable db -> admissible op db = true -> reachable (handle op db).

Fixpoint run (ops : list Op) (db : Db) : Db :=
  match ops with
  | [] => db
  | op :: ops' => run ops' (handle op db)
  end.

Fixpoint admissible_run (ops : list Op) (db : Db) : bool :=
  match ops with
  | [] => true
  | op :: ops' => admissible op db && admissible_run ops' (handle op db)
  end.

(** ** The properties of the store the handlers are meant to maintain *)

(** The authorization predicate in the words of the design: the actor owns
    the resource or has an elevated role.  The handlers inline its negation. *)
Definition canMutate (actingUser : User.t) (resourceOwnerId : string) : bool :=
  eqs (User.id actingUser) resourceOwnerId
  || role_in (User.role actingUser) elevated.

Definition is_ok {A} (r : Result A) : bool :=
  match r with Ok _ => true | Raised _ => false end.

(** Number of documents of [c] whose field [key] is [k]. *)
Definition count_by {A} (key : A -> string) (k : string) (c : list A) : Z :=
  Z.of_nat (count_documents (fun x => eqs (key x) k) c).

Definition recipe_counters_ok (db : Db) (r : Recipe.t) : Prop :=
  Recipe.likes_count r = count_by Like.recipe_id (Recipe.id r) (likes db)
  /\ Recipe.comments_count r
     = count_by Comment.recipe_id (Recipe.id r) (comments db)
  /\ Recipe.saves_count r = count_by Save.recipe_id (Recipe.id r) (saves db).

Definition user_counters_ok (db : Db) (u : User.t) : Prop :=
  User.followers_count u = count_by Follow.following_id (User.id u) (follows db)
  /\ User.following_count u
     = count_by Follow.follower_id (User.id u) (follows db)
  /\ User.recipes_count u = count_by Recipe.author_id (User.id u) (recipes db).

Definition counters_consistent (db : Db) : Prop :=
  Forall (recipe_counters_ok db) (recipes db)
  /\ Forall (user_counters_ok db) (users db).

Definition like_key (l : Like.t) : string * string :=
  (Like.recipe_id l, Like.user_id l).
Definition save_key (s : Save.t) : string * string :=
  (Save.recipe_id s, Save.user_id s).
Definition follow_key (f : Follow.t) : string * string :=
  (Follow.follower_id f, Follow.following_id f).
Definition purchase_key (p : Purchase.t) : string * string :=
  (Purchase.user_id p, Purchase.recipe_id p).

(** Structural invariants of the store: identifiers are unique within a
    collection, a relation holds at most one row per pair, and every recipe
    has its author among the users. *)
Record well_formed (db : Db) : Prop := mk_wf {
  wf_user_ids : NoDup (map User.id (users db));
  wf_recipe_ids : NoDup (map Recipe.id (recipes db));
  wf_like_ids : NoDup (map Like.id (likes db));
  wf_save_ids : NoDup (map Save.id (saves db));
  wf_follow_ids : NoDup (map Follow.id (follows db));
  wf_like_keys : NoDup (map like_key (likes db));
  wf_save_keys : NoDup (map save_key (saves db));
  wf_follow_keys : NoDup (map follow_key (follows db));
  wf_purchase_keys : NoDup (map purchase_key (purchases db));
  wf_authors :
    incl (map Recipe.author_id (recipes db)) (map User.id (users db)) }.

(** What every reachable store is shown to satisfy. *)
Definition invariant (db : Db) : Prop :=
  well_formed db /\ counters_consistent db.

(** The three toggles, as requests. *)
Inductive Toggle : Type := TLike | TSave | TFollow.

Definition toggle_op (k : Toggle) (target token : string) (oracle : string * Z)
  : Op :=
  match k with
  | TLike => OpLikeRecipe (fst oracle) (snd oracle) target token
  | TSave => OpSaveRecipe (fst oracle) (snd oracle) target token
  | TFollow => OpFollowUser (fst oracle) (snd oracle) target token
  end.

(** Whether the relation row of [(token, target)] exists: what
    [check_liked], [check_saved] and [check_following] look up. *)
Definition active (k : Toggle) (target token : string) (db : Db) : bool :=
  match k with
  | TLike => is_some (find_one (fun l => eqs (Like.recipe_id l) target
                                         && eqs (Like.user_id l) token)
                               (likes db))
  | TSave => is_some (find_one (fun s => eqs (Save.recipe_id s) target
                                         && eqs (Save.user_id s) token)
                               (saves db))
  | TFollow => is_some (find_one (fun f => eqs (Follow.follower_id f) token
                                           && eqs (Follow.following_id f) target)
                                 (follows db))
  end.

(** ** A small run used to exercise the statements *)

Definition alice : UserCreate.t :=
  UserCreate.mk "alice@example.com" "alice" "Alice" "pw-a".
Definition bob : UserCreate.t :=
  UserCreate.mk "bob@example.com" "bob" "Bob" "pw-b".

Definition soup : RecipeCreate.t :=
  RecipeCreate.mk "Soup" "A soup" "img" [Ingredient.mk "water" "1" (Some "l")]
    [CookingStep.mk 1 "Boil" (Some 10)] 10 2 "easy" "Soup" ["hot"]
    false 0%float.
Definition cake : RecipeCreate.t :=
  RecipeCreate.mk "Cake" "A cake" "img" [Ingredient.mk "flour" "200" (Some "g")]
    [CookingStep.mk 1 "Bake" (Some 40)] 60 8 "medium" "Dessert" []
    true 5%float.

Definition demo_ops : list Op :=
  [ OpRegister "u-alice" 1 "h1" alice;
    OpRegister "u-bob" 2 "h2" bob;
    OpCreateRecipe "r-soup" 3 soup "u-alice";
    OpCreateRecipe "r-cake" 4 cake "u-alice";
    OpLikeRecipe "l-1" 5 "r-soup" "u-bob";
    OpSaveRecipe "s-1" 6 "r-cake" "u-bob";
    OpCreateComment "c-1" 7 "r-soup" "Nice" "u-bob";
    OpFollowUser "f-1" 8 "u-alice" "u-bob" ].

Definition demo_db : Db := Eval vm_compute in run demo_ops empty_db.

Definition demo_alice : User.t :=
  Eval vm_compute in nth 0 (users demo_db) (User.mk "" "" "" "" "" None None 0 0 0 0 false "").
Definition demo_bob : User.t :=
  Eval vm_compute in nth 1 (users demo_db) (User.mk "" "" "" "" "" None None 0 0 0 0 false "").
Definition demo_soup : Recipe.t :=
  Eval vm_compute in
    nth 0 (recipes demo_db)
        (Recipe.mk "" "" "" None "" "" "" "" [] [] 0 0 "" "" [] 0 0 0
                   false false false 0%float 0 0).
Definition demo_cake : Recipe.t :=
  Eval vm_compute in
    nth 1 (recipes demo_db)
        (Recipe.mk "" "" "" None "" "" "" "" [] [] 0 0 "" "" [] 0 0 0
                   false false false 0%float 0 0).

(** ** Login and the read-only routes *)

Module UserLogin.
Record t := mk {
  email : string;
  password : string }.
End UserLogin.

(** [find(...)] followed by [to_list(n)]: the first [n] matching documents. *)
Definition find_many {A} (q : A -> bool) (c : list A) : list A := filter q c.
Definition to_list {A} (n : nat) (c : list A) : list A := firstn n c.

(** [{"id": {"$in": ids}}]. *)
Definition id_in (ids : list string) (i : string) : bool := existsb (eqs i) ids.

(** [verify_password] is [bcrypt.checkpw]; the library call is an argument.
    The handlers answer with a [UserResponse] built from the stored
    document; the model returns that document. *)
Definition login (verify_password : string -> string -> bool)
    (login_data : UserLogin.t) : M User.t :=
  user <- query (fun db =>
    find_one (fun u => eqs (User.email u) (UserLogin.email login_data))
             (users db)) ;;
  match user with
  | None => raise 401 "Invalid credentials"
  | Some user =>
    if negb (verify_password (UserLogin.password login_data)
                             (User.password_hash user))
    then raise 401 "Invalid credentials"
    else if negb (User.is_active user)
    then raise 403 "Account is deactivated"
    else ret user
  end.

Definition get_me (token : string) : M User.t := get_current_user token.

Definition get_users (token : string) : M (list User.t) :=
  _ <- require_role [UserRole.ADMIN; UserRole.MODERATOR] token ;;
  query (fun db => to_list 1000 (users db)).

Definition get_user (user_id : string) : M User.t :=
  user <- query (fun db =>
    find_one (fun u => eqs (User.id u) user_id) (users db)) ;;
  match user with
  | None => raise 404 "User not found"
  | Some u => ret u
  end.

Definition get_user_by_username (username : string) : M User.t :=
  user <- query (fun db =>
    find_one (fun u => eqs (User.username u) username) (users db)) ;;
  match user with
  | None => raise 404 "User not found"
  | Some u => ret u
  end.

Definition get_saved_recipes (user_id : string) (token : string)
  : M (list Recipe.t) :=
  current_user <- get_current_user token ;;
  if negb (eqs user_id (User.id current_user))
  then raise 403 "Can only view your own saved recipes"
  else
    saves <- query (fun db =>
      to_list 1000 (find_many (fun s => eqs (Save.user_id s) user_id)
                              (saves db))) ;;
    let recipe_ids := map Save.recipe_id saves in
    query (fun db =>
      to_list 1000 (find_many (fun r => id_in recipe_ids (Recipe.id r))
                              (recipes db))).

Definition get_followers (user_id : string) : M (list User.t) :=
  follows <- query (fun db =>
    to_list 1000 (find_many (fun f => eqs (Follow.following_id f) user_id)
                            (follows db))) ;;
  let follower_ids := map Follow.follower_id follows in
  query (fun db =>
    to_list 1000 (find_many (fun u => id_in follower_ids (User.id u))
                            (users db))).

Definition get_following (user_id : string) : M (list User.t) :=
  follows <- query (fun db =>
    to_list 1000 (find_many (fun f => eqs (Follow.follower_id f) user_id)
                            (follows db))) ;;
  let following_ids := map Follow.following_id follows in
  query (fun db =>
    to_list 1000 (find_many (fun u => id_in following_ids (User.id u))
                            (users db))).

Module AdminStats.
Record t := mk {
  users_count : nat;
  recipes_count : nat;
  comments_count : nat;
  role_admin : nat;
  role_moderator : nat;
  role_chef : nat;
  role_user : nat }.
End AdminStats.

Definition get_admin_stats (token : string) : M AdminStats.t :=
  _ <- require_role [UserRole.ADMIN] token ;;
  users_count <- query (fun db => count_documents (fun _ => true) (users db)) ;;
  recipes_count <- query (fun db =>
    count_documents (fun _ => true) (recipes db)) ;;
  comments_count <- query (fun db =>
    count_documents (fun _ => true) (comments db)) ;;
  admin <- query (fun db =>
    count_documents (fun u => eqs (User.role u) UserRole.ADMIN) (users db)) ;;
  moderator <- query (fun db =>
    count_documents (fun u => eqs (User.role u) UserRole.MODERATOR)
                    (users db)) ;;
  chef <- query (fun db =>
    count_documents (fun u => eqs (User.role u) UserRole.CHEF) (users db)) ;;
  user <- query (fun db =>
    count_documents (fun u => eqs (User.role u) UserRole.USER) (users db)) ;;
  ret (AdminStats.mk users_count recipes_count comments_count
                     admin moderator chef user).

(** The answer is the pair of ["purchased"] and ["is_free"]. *)
Definition check_purchased (recipe_id : string) (token : string)
  : M (bool * bool) :=
  current_user <- get_current_user token ;;
  recipe <- query (fun db =>
    find_one (fun r => eqs (Recipe.id r) recipe_id) (recipes db)) ;;
  match recipe with
  | None => raise 404 "Recipe not found"
  | Some recipe =>
    if negb (Recipe.is_paid recipe)
       || eqs (Recipe.author_id recipe) (User.id current_user)
    then ret (true, negb (Recipe.is_paid recipe))
    else if role_in (User.role current_user) elevated
    then ret (true, false)
    else
      existing <- query (fun db =>
        find_one (fun p => eqs (Purchase.user_id p) (User.id current_user)
                           && eqs (Purchase.recipe_id p) recipe_id)
                 (purchases db)) ;;
      ret (is_some existing, false)
  end.

Definition get_user_purchases (user_id : string) (token : string)
  : M (list Recipe.t) :=
  current_user <- get_current_user token ;;
  if negb (eqs user_id (User.id current_user))
     && negb (eqs (User.role current_user) UserRole.ADMIN)
  then raise 403 "Can only view your own purchases"
  else
    purchases <- query (fun db =>
      to_list 1000 (find_many (fun p => eqs (Purchase.user_id p) user_id)
                              (purchases db))) ;;
    let recipe_ids := map Purchase.recipe_id purchases in
    query (fun db =>
      to_list 1000 (find_many (fun r => id_in recipe_ids (Recipe.id r))
                              (recipes db))).

(** ** What a request answers *)

Definition raised {A} (r : Result A) : option HTTPException :=
  match r with Ok _ => None | Raised e => Some e end.

(** The exception a request is answered with, if any. *)
Definition outcome (op : Op) (db : Db) : option HTTPException :=
  match op with
  | OpRegister i now h d => raised (fst (register i now h d db))
  | OpUpdateUserRole u r t => raised (fst (update_user_role u r t db))
  | OpUpdateProfile p t => raised (fst (update_profile p t db))
  | OpToggleUserActive u t => raised (fst (toggle_user_active u t db))
  | OpCreateRecipe i now d t => raised (fst (create_recipe i now d t db))
  | OpUpdateRecipe now r d t => raised (fst (update_recipe now r d t db))
  | OpDeleteRecipe r t => raised (fst (delete_recipe r t db))
  | OpLikeRecipe i now r t => raised (fst (like_recipe i now r t db))
  | OpSaveRecipe i now r t => raised (fst (save_recipe i now r t db))
  | OpCreateComment i now r x t => raised (fst (create_comment i now r x t db))
  | OpDeleteComment c t => raised (fst (delete_comment c t db))
  | OpFollowUser i now u t => raised (fst (follow_user i now u t db))
  | OpPurchaseRecipe i now r t => raised (fst (purchase_recipe i now r t db))
  end.

(** The bearer of the request; registration is the one open mutation. *)
Definition op_token (op : Op) : option string :=
  match op with
  | OpRegister _ _ _ _ => None
  | OpUpdateUserRole _ _ t | OpUpdateProfile _ t | OpToggleUserActive _ t
  | OpCreateRecipe _ _ _ t | OpUpdateRecipe _ _ _ t | OpDeleteRecipe _ t
  | OpLikeRecipe _ _ _ t | OpSaveRecipe _ _ _ t | OpCreateComment _ _ _ _ t
  | OpDeleteComment _ t | OpFollowUser _ _ _ t | OpPurchaseRecipe _ _ _ t =>
    Some t
  end.

(** Access to a recipe's content in the words of the design: the recipe is
    free, or the actor is its author, or has an elevated role, or holds a
    purchase row for it. *)
Definition isAccessible (db : Db) (actor : User.t) (recipe : Recipe.t) : bool :=
  negb (Recipe.is_paid recipe)
  || eqs (Recipe.author_id recipe) (User.id actor)
  || role_in (User.role actor) elevated
  || is_some (find_one (fun p => eqs (Purchase.user_id p) (User.id actor)
                                 && eqs (Purchase.recipe_id p)
                                        (Recipe.id recipe))
                       (purchases db)).

(** Further properties of reachable stores: unique credentials, roles from
    the closed set, no self-follow row, and every relation row, comment and
    purchase made by a user who exists. *)
Record coherent (db : Db) : Prop := mk_coherent {
  co_emails : NoDup (map User.email (users db));
  co_usernames : NoDup (map User.username (users db));
  co_roles :
    Forall (fun u => role_in (User.role u) valid_roles = true) (users db);
  co_no_self_follow :
    Forall (fun f => Follow.follower_id f <> Follow.following_id f)
           (follows db);
  co_like_users : incl (map Like.user_id (likes db)) (map User.id (users db));
  co_save_users : incl (map Save.user_id (saves db)) (map User.id (users db));
  co_comment_users :
    incl (map Comment.user_id (comments db)) (map User.id (users db));
  co_follow_users :
    incl (map Follow.follower_id (follows db)) (map User.id (users db));
  co_purchase_users :
    incl (map Purchase.user_id (purchases db)) (map User.id (users db)) }.

(** ** Facts about strings and collections *)

Lemma eqs_refl (a : string) : eqs a a = true.
Proof. apply String.eqb_refl. Qed.

Lemma eqs_true (a b : string) : eqs a b = true -> a = b.
Proof. apply String.eqb_eq. Qed.

Lemma eqs_false (a b : string) : eqs a b = false -> a <> b.
Proof. apply String.eqb_neq. Qed.

Lemma eqs_neq (a b : string) : a <> b -> eqs a b = false.
Proof. apply String.eqb_neq. Qed.

Lemma eqs_sym (a b : string) : eqs a b = eqs b a.
Proof. apply String.eqb_sym. Qed.

Section CollectionFacts.
Context {A : Type}.
Implicit Types (q : A -> bool) (upd : A -> A) (c : list A).

Lemma find_one_in q c x : find_one q c = Some x -> In x c /\ q x = true.
Proof. apply find_some. Qed.

Lemma find_one_insert_one q c x :
  find_one q (insert_one x c)
  = match find_one q c with
    | Some y => Some y
    | None => if q x then Some x else None
    end.
Proof.
  unfold find_one, insert_one.
  induction c as [|y c IH]; simpl; [reflexivity|].
  destruct (q y); [reflexivity | exact IH].
Qed.

Lemma update_one_none q upd c : find_one q c = None -> update_one q upd c = c.
Proof.
  unfold find_one.
  induction c as [|y c IH]; simpl; [reflexivity|].
  destruct (q y); [discriminate|]. intros H. now rewrite IH.
Qed.

Lemma find_one_update_one q upd c :
  (forall x, q (upd x) = q x) ->
  find_one q (update_one q upd c) = option_map upd (find_one q c).
Proof.
  intros Hq. unfold find_one.
  induction c as [|y c IH]; simpl; [reflexivity|].
  destruct (q y) eqn:E; simpl.
  - now rewrite Hq, E.
  - now rewrite E.
Qed.

Lemma map_update_one {B} (g : A -> B) q upd c :
  (forall x, g (upd x) = g x) -> map g (update_one q upd c) = map g c.
Proof.
  intros Hg. induction c as [|y c IH]; simpl; [reflexivity|].
  destruct (q y); simpl; [now rewrite Hg | now rewrite IH].
Qed.

Lemma length_update_one q upd c :
  List.length (update_one q upd c) = List.length c.
Proof.
  induction c as [|y c IH]; simpl; [reflexivity|].
  destruct (q y); simpl; [reflexivity | now rewrite IH].
Qed.

Lemma update_one_update_one q upd1 upd2 c :
  (forall x, q (upd1 x) = q x) ->
  update_one q upd2 (update_one q upd1 c)
  = update_one q (fun x => upd2 (upd1 x)) c.
Proof.
  intros Hq. induction c as [|y c IH]; simpl; [reflexivity|].
  destruct (q y) eqn:E; simpl.
  - now rewrite Hq, E.
  - now rewrite E, IH.
Qed.

Lemma update_one_id q upd c :
  (forall x, upd x = x) -> update_one q upd c = c.
Proof.
  intros Hu. induction c as [|y c IH]; simpl; [reflexivity|].
  destruct (q y); [now rewrite Hu | now rewrite IH].
Qed.

Lemma update_one_ext q upd1 upd2 c :
  (forall x, upd1 x = upd2 x) -> update_one q upd1 c = update_one q upd2 c.
Proof.
  intros Hu. induction c as [|y c IH]; simpl; [reflexivity|].
  destruct (q y); [now rewrite Hu | now rewrite IH].
Qed.

(** With unique keys, updating the first match is updating every match. *)
Lemma update_one_by_key (key : A -> string) k upd c :
  NoDup (map key c) ->
  update_one (fun x => eqs (key x) k) upd c
  = map (fun x => if eqs (key x) k then upd x else x) c.
Proof.
  induction c as [|y c IH]; simpl; intros Hnd; [reflexivity|].
  inversion Hnd as [|? ? Hy Hc]; subst.
  destruct (eqs (key y) k) eqn:E.
  - f_equal. apply eqs_true in E. subst k.
    rewrite <- (map_id c) at 1. apply map_ext_in.
    intros x Hx. destruct (eqs (key x) (key y)) eqn:E'; [|reflexivity].
    exfalso. apply Hy. apply eqs_true in E'. rewrite <- E'.
    now apply in_map.
  - f_equal. now apply IH.
Qed.

Lemma delete_one_incl q c x : In x (delete_one q c) -> In x c.
Proof.
  induction c as [|y c IH]; simpl; [tauto|].
  destruct (q y); simpl; intuition.
Qed.

Lemma NoDup_map_delete_one {K} (key : A -> K) q c :
  NoDup (map key c) -> NoDup (map key (delete_one q c)).
Proof.
  induction c as [|y c IH]; simpl; intros Hnd; [constructor|].
  inversion Hnd as [|? ? Hy Hc]; subst.
  destruct (q y); [assumption|]. simpl. constructor; [|now apply IH].
  intros Hin. apply Hy. apply in_map_iff in Hin as (x & Hx & Hin).
  apply in_map_iff. exists x. split; [assumption|].
  now apply delete_one_incl in Hin.
Qed.

Lemma NoDup_map_delete_many {K} (key : A -> K) q c :
  NoDup (map key c) -> NoDup (map key (delete_many q c)).
Proof.
  unfold delete_many.
  induction c as [|y c IH]; simpl; intros Hnd; [constructor|].
  inversion Hnd as [|? ? Hy Hc]; subst.
  destruct (negb (q y)); [|now apply IH]. simpl.
  constructor; [|now apply IH].
  intros Hin. apply Hy. apply in_map_iff in Hin as (x & Hx & Hin).
  apply in_map_iff. exists x. split; [assumption|].
  now apply filter_In in Hin.
Qed.

Lemma NoDup_map_insert_one {K} (key : A -> K) x c :
  NoDup (map key c) -> ~ In (key x) (map key c) ->
  NoDup (map key (insert_one x c)).
Proof.
  intros Hnd Hx. unfold insert_one. rewrite map_app. simpl.
  apply NoDup_app; [assumption | |].
  - constructor; [simpl; tauto | constructor].
  - intros a Ha [<-|[]]. contradiction.
Qed.

(** Deleting by the identifier of the document a query found deletes the
    document the query finds. *)
Lemma delete_one_found (key : A -> string) q c e :
  NoDup (map key c) -> find_one q c = Some e ->
  delete_one (fun x => eqs (key x) (key e)) c = delete_one q c.
Proof.
  unfold find_one.
  induction c as [|y c IH]; simpl; intros Hnd Hf; [discriminate|].
  inversion Hnd as [|? ? Hy Hc]; subst.
  destruct (q y) eqn:E.
  - injection Hf as ->. now rewrite eqs_refl.
  - destruct (eqs (key y) (key e)) eqn:E'.
    + exfalso. apply Hy. apply eqs_true in E'. rewrite E'.
      apply in_map. now apply find_some in Hf.
    + f_equal. now apply IH.
Qed.

Lemma find_one_delete_one {K} (key : A -> K) (p : K) q c :
  (forall x, q x = true -> key x = p) ->
  NoDup (map key c) -> find_one q (delete_one q c) = None.
Proof.
  intros Hq. unfold find_one.
  induction c as [|y c IH]; simpl; intros Hnd; [reflexivity|].
  inversion Hnd as [|? ? Hy Hc]; subst.
  destruct (q y) eqn:E.
  - destruct (find q c) as [z|] eqn:F; [|reflexivity].
    exfalso. apply find_some in F as [Hin Hz]. apply Hy.
    rewrite (Hq _ E), <- (Hq _ Hz). now apply in_map.
  - simpl. rewrite E. now apply IH.
Qed.

Lemma delete_one_insert_one q c x :
  find_one q c = None -> q x = true -> delete_one q (insert_one x c) = c.
Proof.
  unfold find_one, insert_one.
  induction c as [|y c IH]; simpl; intros Hf Hx.
  - now rewrite Hx.
  - destruct (q y); [discriminate|]. f_equal. now apply IH.
Qed.

Lemma find_one_none_key {K} (key : A -> K) (p : K) q c :
  (forall x, key x = p -> q x = true) ->
  find_one q c = None -> ~ In p (map key c).
Proof.
  intros Hq Hf Hin. apply in_map_iff in Hin as (x & Hx & Hin).
  apply (find_none _ _ Hf) in Hin. rewrite (Hq _ Hx) in Hin. discriminate.
Qed.

(** *** Counting *)

Lemma count_by_insert_one (key : A -> string) k x c :
  count_by key k (insert_one x c)
  = count_by key k c + (if eqs (key x) k then 1 else 0).
Proof.
  unfold count_by, count_documents, insert_one.
  rewrite filter_app, length_app. simpl.
  destruct (eqs (key x) k); simpl; lia.
Qed.

Lemma count_by_update_one (key : A -> string) k q upd c :
  (forall x, key (upd x) = key x) ->
  count_by key k (update_one q upd c) = count_by key k c.
Proof.
  intros Hk. unfold count_by, count_documents. f_equal.
  induction c as [|y c IH]; simpl; [reflexivity|].
  destruct (q y); simpl.
  - rewrite Hk. now destruct (eqs (key y) k).
  - destruct (eqs (key y) k); simpl; now rewrite IH.
Qed.

Lemma count_by_delete_many (key : A -> string) k k0 c :
  count_by key k (delete_many (fun x => eqs (key x) k0) c)
  = if eqs k0 k then 0 else count_by key k c.
Proof.
  unfold count_by, count_documents, delete_many.
  destruct (eqs k0 k) eqn:E.
  - apply eqs_true in E. subst k0.
    induction c as [|y c IH]; simpl; [reflexivity|].
    destruct (eqs (key y) k) eqn:E'; simpl; [exact IH|].
    rewrite E'. exact IH.
  - f_equal. apply eqs_false in E.
    induction c as [|y c IH]; simpl; [reflexivity|].
    destruct (eqs (key y) k0) eqn:E0; simpl.
    + destruct (eqs (key y) k) eqn:E'; [|exact IH].
      apply eqs_true in E0, E'. congruence.
    + destruct (eqs (key y) k); simpl; now rewrite IH.
Qed.

Lemma count_by_delete_one (key : A -> string) k q c e :
  find_one q c = Some e ->
  count_by key k (delete_one q c)
  = count_by key k c - (if eqs (key e) k then 1 else 0).
Proof.
  unfold count_by, count_documents, find_one.
  induction c as [|y c IH]; simpl; intros Hf; [discriminate|].
  destruct (q y) eqn:E.
  - injection Hf as ->.
    destruct (eqs (key e) k); cbn [List.length]; lia.
  - specialize (IH Hf). cbn [filter].
    destruct (eqs (key y) k); cbn [List.length]; lia.
Qed.

Lemma count_by_absent (key : A -> string) k c :
  ~ In k (map key c) -> count_by key k c = 0.
Proof.
  unfold count_by, count_documents.
  induction c as [|y c IH]; simpl; intros Hn; [reflexivity|].
  destruct (eqs (key y) k) eqn:E.
  - exfalso. apply Hn. left. now apply eqs_true.
  - apply IH. tauto.
Qed.

Lemma count_by_nonneg (key : A -> string) k c : 0 <= count_by key k c.
Proof. unfold count_by. lia. Qed.
End CollectionFacts.

Arguments eqs : simpl never.
Arguments find_one : simpl never.
Arguments insert_one : simpl never.
Arguments update_one : simpl never.
Arguments delete_one : simpl never.
Arguments delete_many : simpl never.
Arguments count_documents : simpl never.
Arguments role_in : simpl never.
Arguments int64 : simpl never.
Arguments encodable : simpl never.

Ltac unfold_monad :=
  unfold get_current_user, require_role, bind, query, store, raise, ret.

(** Serve a request whose token resolves to the user named by [Hu]. *)
Ltac as_user Hu := unfold_monad; cbn; rewrite Hu; cbn.

Lemma find_one_update_other {A} (key : A -> string) k k0 upd (c : list A) :
  (forall x, key (upd x) = key x) -> k <> k0 ->
  find_one (fun x => eqs (key x) k) (update_one (fun x => eqs (key x) k0) upd c)
  = find_one (fun x => eqs (key x) k) c.
Proof.
  intros Hk Hne. unfold find_one, update_one.
  induction c as [|y c IH]; [reflexivity|]. fold (update_one (A:=A)) in *.
  destruct (eqs (key y) k0) eqn:E0; cbn.
  - rewrite Hk. apply eqs_true in E0. subst k0.
    now rewrite (eqs_neq (key y) k) by congruence.
  - destruct (eqs (key y) k); [reflexivity | exact IH].
Qed.

Lemma canMutate_guard (u : User.t) (owner : string) :
  negb (eqs owner (User.id u)) && negb (role_in (User.role u) elevated)
  = negb (canMutate u owner).
Proof.
  unfold canMutate. rewrite (eqs_sym owner). now rewrite negb_orb.
Qed.

(** ** Authorization gate *)

(** C3. For an authenticated actor and an existing resource, editing a
    recipe, deleting a recipe and deleting a comment are refused with 403,
    the store left as it was, exactly when the actor neither owns the
    resource nor has role admin or moderator.  When the actor does, the
    two deletions succeed, and the edit succeeds for every payload the
    store can encode (it is answered with 500, never with 403, for one
    it cannot). *)
Theorem mutation_permitted_iff_canMutate (db : Db) (token : string) (u : User.t) :
  find_one (fun x => eqs (User.id x) token) (users db) = Some u ->
  (forall now rid d r,
      find_one (fun x => eqs (Recipe.id x) rid) (recipes db) = Some r ->
      (fst (update_recipe now rid d token db)
       = Raised (mkHTTP 403 "Not authorized to edit this recipe")
       <-> canMutate u (Recipe.author_id r) = false)
      /\ (forall e, fst (update_recipe now rid d token db) = Raised e ->
                    status_code e = 403 ->
                    canMutate u (Recipe.author_id r) = false)
      /\ (encodable d = true ->
          is_ok (fst (update_recipe now rid d token db))
          = canMutate u (Recipe.author_id r))
      /\ (canMutate u (Recipe.author_id r) = false ->
          update_recipe now rid d token db
          = (Raised (mkHTTP 403 "Not authorized to edit this recipe"), db)))
  /\ (forall rid r,
      find_one (fun x => eqs (Recipe.id x) rid) (recipes db) = Some r ->
      is_ok (fst (delete_recipe rid token db))
      = canMutate u (Recipe.author_id r)
      /\ (canMutate u (Recipe.author_id r) = false ->
          delete_recipe rid token db
          = (Raised (mkHTTP 403 "Not authorized to delete this recipe"), db)))
  /\ (forall cid c,
      find_one (fun x => eqs (Comment.id x) cid) (comments db) = Some c ->
      is_ok (fst (delete_comment cid token db))
      = canMutate u (Comment.user_id c)
      /\ (canMutate u (Comment.user_id c) = false ->
          delete_comment cid token db
          = (Raised (mkHTTP 403 "Not authorized to delete this comment"), db))).
Proof.
  intros Hu. split; [|split].
  - intros now rid d r Hr. unfold update_recipe. as_user Hu. rewrite Hr.
    cbn. rewrite canMutate_guard.
    destruct (canMutate u (Recipe.author_id r)); cbn;
      [destruct (encodable d); cbn;
       rewrite ?find_one_update_one by reflexivity; rewrite ?Hr; cbn|];
      repeat split; intros; try discriminate; try reflexivity;
      match goal with
      | H : Raised _ = Raised _ |- _ =>
        injection H as <-; cbn in *; discriminate
      end.
  - intros rid r Hr. unfold delete_recipe. as_user Hu. rewrite Hr. cbn.
    rewrite canMutate_guard.
    destruct (canMutate u (Recipe.author_id r)); cbn;
      (split; [reflexivity | try discriminate; reflexivity]).
  - intros cid c Hc. unfold delete_comment. as_user Hu. rewrite Hc. cbn.
    rewrite canMutate_guard.
    destruct (canMutate u (Comment.user_id c)); cbn;
      (split; [reflexivity | try discriminate; reflexivity]).
Qed.

(** ** Self-follow *)

(** C5. A follow request of an authenticated user for their own id raises
    400 "Cannot follow yourself" whatever the follows collection holds (the
    comparison precedes the lookup of the relation row), and the store,
    with its follow rows and its counters, is unchanged. *)
Theorem self_follow_rejected (db : Db) (new_id : string) (now : Z)
    (token : string) (u : User.t) :
  find_one (fun x => eqs (User.id x) token) (users db) = Some u ->
  follow_user new_id now (User.id u) token db
  = (Raised (mkHTTP 400 "Cannot follow yourself"), db)
  /\ forall rows,
       fst (follow_user new_id now (User.id u) token
              (with_follows (fun _ => rows) db))
       = Raised (mkHTTP 400 "Cannot follow yourself").
Proof.
  intros Hu. split; [|intros rows]; unfold follow_user; as_user Hu;
    now rewrite eqs_refl.
Qed.

(** ** Recipe update frame *)

(** C9. For an existing recipe, an authorized actor and a payload whose
    integers fit the store's 64 bits, [update_recipe] succeeds and rewrites
    that one document only: the approval and feature
    flags, the three counters, the identity, the author fields and the
    creation time are kept; the twelve payload fields are taken from the
    request and [updated_at] from the clock.  No other recipe and no other
    collection changes. *)
Theorem update_recipe_frame (db : Db) (now : Z) (rid : string)
    (d : RecipeCreate.t) (token : string) (u : User.t) (r : Recipe.t) :
  find_one (fun x => eqs (User.id x) token) (users db) = Some u ->
  find_one (fun x => eqs (Recipe.id x) rid) (recipes db) = Some r ->
  canMutate u (Recipe.author_id r) = true ->
  encodable d = true ->
  exists r' db',
    update_recipe now rid d token db = (Ok r', db')
    /\ find_one (fun x => eqs (Recipe.id x) rid) (recipes db') = Some r'
    /\ (Recipe.is_approved r' = Recipe.is_approved r
        /\ Recipe.is_featured r' = Recipe.is_featured r
        /\ Recipe.likes_count r' = Recipe.likes_count r
        /\ Recipe.comments_count r' = Recipe.comments_count r
        /\ Recipe.saves_count r' = Recipe.saves_count r)
    /\ (Recipe.id r' = Recipe.id r
        /\ Recipe.author_id r' = Recipe.author_id r
        /\ Recipe.author_username r' = Recipe.author_username r
        /\ Recipe.author_profile_image r' = Recipe.author_profile_image r
        /\ Recipe.author_role r' = Recipe.author_role r
        /\ Recipe.created_at r' = Recipe.created_at r)
    /\ (Recipe.title r' = RecipeCreate.title d
        /\ Recipe.description r' = RecipeCreate.description d
        /\ Recipe.image r' = RecipeCreate.image d
        /\ Recipe.ingredients r' = RecipeCreate.ingredients d
        /\ Recipe.steps r' = RecipeCreate.steps d
        /\ Recipe.cooking_time_minutes r' = RecipeCreate.cooking_time_minutes d
        /\ Recipe.servings r' = RecipeCreate.servings d
        /\ Recipe.difficulty r' = RecipeCreate.difficulty d
        /\ Recipe.category r' = RecipeCreate.category d
        /\ Recipe.tags r' = RecipeCreate.tags d
        /\ Recipe.is_paid r' = RecipeCreate.is_paid d
        /\ Recipe.price r' = RecipeCreate.price d
        /\ Recipe.updated_at r' = now)
    /\ (forall k, k <> rid ->
          find_one (fun x => eqs (Recipe.id x) k) (recipes db')
          = find_one (fun x => eqs (Recipe.id x) k) (recipes db))
    /\ List.length (recipes db') = List.length (recipes db)
    /\ users db' = users db /\ comments db' = comments db
    /\ likes db' = likes db /\ saves db' = saves db
    /\ follows db' = follows db /\ purchases db' = purchases db.
Proof.
  intros Hu Hr Hc Henc.
  exists (Recipe.set_update_data d now r).
  exists (with_recipes
            (update_one (fun x => eqs (Recipe.id x) rid)
                        (Recipe.set_update_data d now)) db).
  assert (Hf : find_one (fun x => eqs (Recipe.id x) rid)
                 (update_one (fun x => eqs (Recipe.id x) rid)
                             (Recipe.set_update_data d now) (recipes db))
               = Some (Recipe.set_update_data d now r)).
  { rewrite find_one_update_one by reflexivity. now rewrite Hr. }
  split.
  { unfold update_recipe. as_user Hu. rewrite Hr. cbn.
    rewrite canMutate_guard, Hc. cbn. rewrite Henc. cbn. now rewrite Hf. }
  split; [exact Hf|].
  split; [repeat split|]. split; [repeat split|]. split; [repeat split|].
  split.
  { intros k Hk. cbn.
    now apply (find_one_update_other Recipe.id). }
  split; [cbn; apply length_update_one | repeat split].
Qed.

(** ** Comments on any recipe id *)

(** C10. For an authenticated user, [create_comment] succeeds for every
    [recipe_id]: it appends a comment carrying that [recipe_id], and when
    no recipe has that id the counter update matches nothing, so the
    recipes are unchanged and the comment refers to no recipe. *)
Theorem create_comment_never_checks_recipe (db : Db) (new_id : string)
    (now : Z) (rid text token : string) (u : User.t) :
  find_one (fun x => eqs (User.id x) token) (users db) = Some u ->
  exists c db',
    create_comment new_id now rid text token db = (Ok c, db')
    /\ Comment.recipe_id c = rid
    /\ Comment.id c = new_id
    /\ Comment.user_id c = User.id u
    /\ comments db' = insert_one c (comments db)
    /\ (find_one (fun x => eqs (Recipe.id x) rid) (recipes db) = None ->
        recipes db' = recipes db
        /\ find_one (fun x => eqs (Recipe.id x) rid) (recipes db') = None).
Proof.
  intros Hu. unfold create_comment. as_user Hu.
  eexists. eexists. split; [reflexivity|]. cbn.
  repeat split; try reflexivity.
  - now apply update_one_none.
  - now rewrite update_one_none.
Qed.

Lemma mutation_permitted_iff_canMutate_witness :
  find_one (fun x => eqs (User.id x) "u-bob") (users demo_db) = Some demo_bob
  /\ is_ok (fst (delete_recipe "r-soup" "u-bob" demo_db))
     = canMutate demo_bob (Recipe.author_id demo_soup)
  /\ update_recipe 9 "r-soup" cake "u-bob" demo_db
     = (Raised (mkHTTP 403 "Not authorized to edit this recipe"), demo_db)
  /\ is_ok (fst (update_recipe 9 "r-soup" cake "u-alice" demo_db)) = true.
Proof.
  split; [reflexivity|].
  destruct (mutation_permitted_iff_canMutate demo_db "u-bob" demo_bob eq_refl)
    as (Hedit & Hdel & _).
  split; [apply (Hdel "r-soup" demo_soup); reflexivity|].
  split.
  - apply (Hedit 9 "r-soup" cake demo_soup); reflexivity.
  - destruct (mutation_permitted_iff_canMutate demo_db "u-alice" demo_alice
                eq_refl) as (Halice & _).
    destruct (Halice 9 "r-soup" cake demo_soup eq_refl) as (_ & _ & Hok & _).
    exact (Hok eq_refl).
Defined.

Lemma self_follow_rejected_witness :
  find_one (fun x => eqs (User.id x) "u-bob") (users demo_db) = Some demo_bob
  /\ follow_user "f-2" 9 (User.id demo_bob) "u-bob" demo_db
     = (Raised (mkHTTP 400 "Cannot follow yourself"), demo_db).
Proof.
  split; [reflexivity|].
  apply (self_follow_rejected demo_db "f-2" 9 "u-bob" demo_bob). reflexivity.
Defined.

Lemma update_recipe_frame_witness :
  exists r' db',
    update_recipe 9 "r-soup" cake "u-alice" demo_db = (Ok r', db')
    /\ Recipe.is_approved r' = Recipe.is_approved demo_soup
    /\ Recipe.likes_count r' = 1.
Proof.
  destruct (update_recipe_frame demo_db 9 "r-soup" cake "u-alice"
              demo_alice demo_soup eq_refl eq_refl eq_refl eq_refl)
    as (r' & db' & Hrun & _ & (Ha & _ & Hl & _) & _).
  exists r', db'. split; [exact Hrun|]. split; [exact Ha|]. exact Hl.
Defined.

Lemma create_comment_never_checks_recipe_witness :
  exists c db',
    create_comment "c-9" 9 "r-none" "Hello?" "u-bob" demo_db = (Ok c, db')
    /\ Comment.recipe_id c = "r-none"
    /\ recipes db' = recipes demo_db.
Proof.
  destruct (create_comment_never_checks_recipe demo_db "c-9" 9 "r-none"
              "Hello?" "u-bob" demo_bob eq_refl)
    as (c & db' & Hrun & Hrid & _ & _ & _ & Hnone).
  exists c, db'. split; [exact Hrun|]. split; [exact Hrid|].
  apply Hnone. reflexivity.
Defined.

(** ** Deleting a comment *)

(** C6, as the handler behaves: for an authenticated actor,
    [delete_comment] raises 404 exactly when no comment has the given id;
    the parent recipe is never looked up.  When the comment exists the
    request succeeds if and only if the actor is its owner or has an
    elevated role (403 otherwise); on success the comment is removed, the
    parent recipe's [comments_count] goes down by one if that recipe
    exists, and no recipe changes if it does not. *)
Theorem delete_comment_outcomes (db : Db) (cid token : string) (u : User.t) :
  find_one (fun x => eqs (User.id x) token) (users db) = Some u ->
  match find_one (fun x => eqs (Comment.id x) cid) (comments db) with
  | None =>
    delete_comment cid token db
    = (Raised (mkHTTP 404 "Comment not found"), db)
  | Some c =>
    if canMutate u (Comment.user_id c) then
      exists db',
        delete_comment cid token db = (Ok "Comment deleted successfully", db')
        /\ comments db'
           = delete_one (fun x => eqs (Comment.id x) cid) (comments db)
        /\ find_one (fun x => eqs (Recipe.id x) (Comment.recipe_id c))
                    (recipes db')
           = option_map (Recipe.inc_comments_count (-1))
               (find_one (fun x => eqs (Recipe.id x) (Comment.recipe_id c))
                         (recipes db))
        /\ (find_one (fun x => eqs (Recipe.id x) (Comment.recipe_id c))
                     (recipes db) = None ->
            recipes db' = recipes db)
    else
      delete_comment cid token db
      = (Raised (mkHTTP 403 "Not authorized to delete this comment"), db)
  end.
Proof.
  intros Hu. unfold delete_comment. as_user Hu.
  destruct (find_one (fun x => eqs (Comment.id x) cid) (comments db))
    as [c|] eqn:Hc; cbn; [|reflexivity].
  rewrite canMutate_guard.
  destruct (canMutate u (Comment.user_id c)); cbn; [|reflexivity].
  eexists. split; [reflexivity|]. cbn. split; [reflexivity|]. split.
  - now apply find_one_update_one.
  - now apply update_one_none.
Qed.

Lemma delete_comment_outcomes_witness :
  find_one (fun x => eqs (User.id x) "u-alice") (users demo_db)
  = Some demo_alice
  /\ exists db',
       delete_comment "c-1" "u-alice" demo_db
       = (Ok "Comment deleted successfully", db')
       /\ comments db' = [].
Proof.
  split; [reflexivity|].
  pose proof (delete_comment_outcomes demo_db "c-1" "u-alice" demo_alice
                eq_refl) as H.
  cbn in H. destruct H as (db' & Hrun & Hc & _).
  exists db'. split; [exact Hrun | exact Hc].
Defined.

(** C6 as stated fails: a comment written under a recipe id that matches
    no recipe can be deleted by its author; the handler answers with the
    success message, not with 404. *)
Lemma delete_comment_missing_recipe_succeeds :
  let db := run [ OpRegister "u-1" 1 "h" alice;
                  OpCreateComment "c-1" 2 "r-none" "Hello?" "u-1" ] empty_db in
  is_some (find_one (fun x => eqs (Comment.id x) "c-1") (comments db)) = true
  /\ find_one (fun x => eqs (Recipe.id x) "r-none") (recipes db) = None
  /\ fst (delete_comment "c-1" "u-1" db) = Ok "Comment deleted successfully"
  /\ ~ (exists e, fst (delete_comment "c-1" "u-1" db) = Raised e).
Proof.
  vm_compute. repeat split. intros [e He]. discriminate He.
Qed.

(** ** Purchases *)

Lemma count_documents_found {A} (q : A -> bool) (c : list A) (x : A) :
  find_one q c = Some x -> (1 <= count_documents q c)%nat.
Proof.
  unfold find_one, count_documents.
  induction c as [|y c IH]; cbn; [discriminate|].
  destruct (q y); cbn; [lia | exact IH].
Qed.

Lemma count_documents_not_found {A} (q : A -> bool) (c : list A) :
  find_one q c = None -> count_documents q c = 0%nat.
Proof.
  unfold find_one, count_documents.
  induction c as [|y c IH]; cbn; [reflexivity|].
  destruct (q y); [discriminate | exact IH].
Qed.

Lemma count_documents_insert_one {A} (q : A -> bool) (c : list A) (x : A) :
  count_documents q (insert_one x c)
  = (count_documents q c + if q x then 1 else 0)%nat.
Proof.
  unfold count_documents, insert_one. rewrite filter_app, length_app.
  cbn. now destruct (q x).
Qed.

(** C7. For an authenticated user and a paid recipe of which the user
    holds at most one purchase row, two purchase requests in a row both
    answer [purchased = True], the second with "Already purchased", and
    the store then holds exactly one purchase row for the pair. *)
Theorem purchase_twice_one_row (db : Db) (i1 i2 : string) (n1 n2 : Z)
    (rid token : string) (u : User.t) (r : Recipe.t) :
  let mine := fun p => eqs (Purchase.user_id p) (User.id u)
                       && eqs (Purchase.recipe_id p) rid in
  find_one (fun x => eqs (User.id x) token) (users db) = Some u ->
  find_one (fun x => eqs (Recipe.id x) rid) (recipes db) = Some r ->
  Recipe.is_paid r = true ->
  (count_documents mine (purchases db) <= 1)%nat ->
  exists m1 db1 db2,
    purchase_recipe i1 n1 rid token db = (Ok (true, m1), db1)
    /\ purchase_recipe i2 n2 rid token db1 = (Ok (true, "Already purchased"), db2)
    /\ count_documents mine (purchases db2) = 1%nat.
Proof.
  intros mine Hu Hr Hp Hle.
  unfold purchase_recipe. as_user Hu. rewrite Hr. cbn. rewrite Hp. cbn.
  fold mine.
  destruct (find_one mine (purchases db)) as [p|] eqn:Hf; cbn.
  - exists "Already purchased", db, db. split; [reflexivity|].
    rewrite Hu. cbn. rewrite Hr. cbn. rewrite Hp. cbn. fold mine.
    rewrite Hf. cbn. split; [reflexivity|].
    apply count_documents_found in Hf. lia.
  - eexists. eexists. eexists. split; [reflexivity|].
    cbn. rewrite Hu. cbn. rewrite Hr. cbn. rewrite Hp. cbn. fold mine.
    rewrite find_one_insert_one, Hf.
    assert (Hm : mine (Purchase.mk i1 (User.id u) rid (Recipe.price r) n1)
                 = true).
    { unfold mine. cbn. now rewrite !eqs_refl. }
    rewrite Hm. cbn. split; [reflexivity|]. cbn.
    rewrite count_documents_insert_one, Hm.
    now rewrite (count_documents_not_found _ _ Hf).
Qed.

Lemma purchase_twice_one_row_witness :
  exists m1 db1 db2,
    purchase_recipe "p-1" 9 "r-cake" "u-bob" demo_db = (Ok (true, m1), db1)
    /\ purchase_recipe "p-2" 10 "r-cake" "u-bob" db1
       = (Ok (true, "Already purchased"), db2)
    /\ List.length (purchases db2) = 1%nat.
Proof.
  destruct (purchase_twice_one_row demo_db "p-1" "p-2" 9 10 "r-cake" "u-bob"
              demo_bob demo_cake eq_refl eq_refl eq_refl (Nat.le_0_l 1))
    as (m1 & db1 & db2 & H1 & H2 & _).
  exists m1, db1, db2. split; [exact H1|]. split; [exact H2|].
  vm_compute in H1. injection H1 as _ <-.
  vm_compute in H2. injection H2 as <-. reflexivity.
Defined.

(** ** Registration *)

Lemma count_documents_all {A} (c : list A) :
  count_documents (fun _ => true) c = List.length c.
Proof.
  unfold count_documents. induction c as [|y c IH]; cbn; [reflexivity|].
  now rewrite IH.
Qed.

(** Destructs every lookup and test a handler branches on. *)
Ltac handler_cases :=
  unfold_monad; cbn;
  repeat match goal with
         | |- context [match ?x with _ => _ end] =>
           match type of x with
           | bool => destruct x eqn:?
           | option _ => destruct x eqn:?
           end; cbn
         end.

(** No request removes a user document. *)
Lemma users_length_handle (op : Op) (db : Db) :
  (List.length (users db) <= List.length (users (handle op db)))%nat.
Proof.
  destruct op; unfold handle;
    unfold register, update_user_role, update_profile, toggle_user_active,
      create_recipe, update_recipe, delete_recipe, like_recipe, save_recipe,
      create_comment, delete_comment, follow_user, purchase_recipe;
    handler_cases;
    rewrite ?length_update_one; unfold insert_one; rewrite ?length_app;
    cbn; lia.
Qed.

Lemma users_nonempty_run (ops : list Op) (db : Db) :
  users db <> [] -> users (run ops db) <> [].
Proof.
  revert db. induction ops as [|op ops IH]; intros db Hne; cbn; [exact Hne|].
  apply IH. pose proof (users_length_handle op db) as Hlen.
  destruct (users db); [congruence|].
  destruct (users (handle op db)); cbn in Hlen; [lia | discriminate].
Qed.

(** C8. A registration served while the users collection is empty
    succeeds and stores the new user, and returns it, with role admin.
    Once the collection is non-empty it stays so through any further
    requests, role changes included, and every registration that is then
    accepted appends one document to the users collection, the one it
    returns, with role user; the documents already stored are kept. *)
Theorem first_registration_admin_then_user :
  (forall db new_id now hashed user_data,
      users db = [] ->
      exists u db',
        register new_id now hashed user_data db = (Ok u, db')
        /\ User.role u = UserRole.ADMIN
        /\ users db' = [u])
  /\ (forall db ops new_id now hashed user_data u db',
      users db <> [] ->
      register new_id now hashed user_data (run ops db) = (Ok u, db') ->
      User.role u = UserRole.USER
      /\ users db' = (users (run ops db) ++ [u])%list).
Proof.
  split.
  - intros db new_id now hashed user_data He.
    unfold register. unfold_monad. cbn.
    unfold find_one, count_documents, insert_one. rewrite !He. cbn.
    rewrite !He. cbn.
    eexists. eexists. split; [reflexivity|]. cbn. rewrite He.
    split; reflexivity.
  - intros db ops new_id now hashed user_data u db' Hne Hreg.
    apply (users_nonempty_run ops) in Hne.
    revert Hne Hreg. generalize (run ops db) as db1. intros db1 Hne.
    unfold register. unfold_monad. cbn.
    destruct (find_one _ (users db1)); cbn; [discriminate|].
    destruct (find_one _ (users db1)); cbn; [discriminate|].
    rewrite count_documents_all.
    destruct (users db1) as [|v vs] eqn:Hus; [congruence|]. cbn.
    intros [= <- <-]. cbn. rewrite Hus. split; reflexivity.
Qed.

Lemma first_registration_admin_then_user_witness :
  (exists u db',
      register "u-alice" 1 "h1" alice empty_db = (Ok u, db')
      /\ User.role u = "admin")
  /\ (exists u db',
      register "u-carol" 9 "h3"
        (UserCreate.mk "carol@example.com" "carol" "Carol" "pw-c")
        (run [OpUpdateUserRole "u-alice" "user" "u-alice"] demo_db)
      = (Ok u, db')
      /\ User.role u = "user"
      /\ map User.role (users db') = ["user"; "user"; "user"]).
Proof.
  destruct first_registration_admin_then_user as [Hfirst Hnext].
  split.
  - destruct (Hfirst empty_db "u-alice" 1 "h1" alice eq_refl)
      as (u & db' & Hrun & Hrole & _).
    exists u, db'. split; [exact Hrun | exact Hrole].
  - eexists. eexists. split; [vm_compute; reflexivity|].
    assert (Hne : users demo_db <> []) by discriminate.
    destruct (Hnext demo_db [OpUpdateUserRole "u-alice" "user" "u-alice"]
                "u-carol" 9 "h3"
                (UserCreate.mk "carol@example.com" "carol" "Carol" "pw-c")
                _ _ Hne eq_refl) as [Hrole Hstored].
    split; [exact Hrole|]. exact (f_equal (map User.role) Hstored).
Defined.

(** ** The counters mirror the relation rows in every reachable store *)

Lemma fresh_not_in (db : Db) (i : string) :
  fresh db i = true -> ~ In i (ids_in db).
Proof.
  unfold fresh. intros H Hin. apply negb_true_iff in H.
  assert (He : existsb (eqs i) (ids_in db) = true).
  { apply existsb_exists. exists i. split; [assumption | apply eqs_refl]. }
  congruence.
Qed.

(** Closes [~ In i (map f (c db))] from the freshness of [i]. *)
Ltac by_freshness Hfresh :=
  let Hin := fresh "Hin" in
  intro Hin; apply (fresh_not_in _ _ Hfresh);
  unfold ids_in; rewrite !in_app_iff; tauto.

Lemma incl_map_delete_one {A K} (key : A -> K) (q : A -> bool) (c : list A) :
  incl (map key (delete_one q c)) (map key c).
Proof.
  intros k Hin. apply in_map_iff in Hin as (x & <- & Hin).
  apply in_map. now apply delete_one_incl in Hin.
Qed.

Lemma find_one_user_in (db : Db) (t : string) (u : User.t) :
  find_one (fun x => eqs (User.id x) t) (users db) = Some u ->
  User.id u = t /\ In t (map User.id (users db)).
Proof.
  intros H. apply find_one_in in H as [Hin Hq]. apply eqs_true in Hq.
  split; [assumption|]. rewrite <- Hq. now apply in_map.
Qed.

Lemma Forall_update_by_key {A} (key : A -> string) (k : string)
    (upd : A -> A) (P Q : A -> Prop) (c : list A) :
  NoDup (map key c) ->
  Forall P c ->
  (forall x, P x -> key x = k -> Q (upd x)) ->
  (forall x, P x -> key x <> k -> Q x) ->
  Forall Q (update_one (fun x => eqs (key x) k) upd c).
Proof.
  intros Hnd HP Hhit Hmiss. rewrite update_one_by_key by assumption.
  apply Forall_map. revert HP. apply Forall_impl. intros x Hx.
  destruct (eqs (key x) k) eqn:E.
  - apply Hhit; [assumption | now apply eqs_true].
  - apply Hmiss; [assumption | now apply eqs_false].
Qed.

Lemma Forall_delete_one {A} (q : A -> bool) (P : A -> Prop) (c : list A) :
  Forall P c -> Forall P (delete_one q c).
Proof.
  intros HP. apply Forall_forall. intros x Hin.
  apply delete_one_incl in Hin. revert x Hin. now apply Forall_forall.
Qed.

Lemma Forall_insert_one {A} (P : A -> Prop) (x : A) (c : list A) :
  Forall P c -> P x -> Forall P (insert_one x c).
Proof.
  intros HP Hx. unfold insert_one. apply Forall_app. split; [assumption|].
  now constructor.
Qed.

(** After [delete_one] by key on unique keys, no document has the key. *)
Lemma delete_one_key_gone {A} (key : A -> string) (k : string) (c : list A) :
  NoDup (map key c) ->
  forall x, In x (delete_one (fun y => eqs (key y) k) c) -> key x <> k.
Proof.
  unfold delete_one.
  induction c as [|y c IH]; cbn; intros Hnd x Hin; [contradiction|].
  fold (delete_one (A:=A)) in *.
  inversion Hnd as [|? ? Hy Hc]; subst.
  destruct (eqs (key y) k) eqn:E.
  - apply eqs_true in E. subst k. intros Hk. apply Hy. rewrite <- Hk.
    now apply in_map.
  - destruct Hin as [<-|Hin]; [now apply eqs_false | now apply IH].
Qed.

Lemma Forall_update_one {A} (q : A -> bool) (upd : A -> A) (P Q : A -> Prop)
    (c : list A) :
  (forall x, P x -> Q (upd x)) -> (forall x, P x -> Q x) ->
  Forall P c -> Forall Q (update_one q upd c).
Proof.
  intros Hu Hk HP. unfold update_one.
  induction HP as [|y c Hy HP IH]; [constructor|].
  fold (update_one (A:=A)) in *.
  destruct (q y); constructor; auto.
  revert HP. apply Forall_impl. exact Hk.
Qed.

Lemma set_update_fields_id p x : User.id (set_update_fields p x) = User.id x.
Proof.
  unfold set_update_fields.
  now destruct (UpdateProfile.full_name p), (UpdateProfile.bio p),
    (UpdateProfile.profile_image p).
Qed.

Lemma set_update_fields_counters p x :
  User.followers_count (set_update_fields p x) = User.followers_count x
  /\ User.following_count (set_update_fields p x) = User.following_count x
  /\ User.recipes_count (set_update_fields p x) = User.recipes_count x.
Proof.
  unfold set_update_fields.
  now destruct (UpdateProfile.full_name p), (UpdateProfile.bio p),
    (UpdateProfile.profile_image p).
Qed.

Ltac wf_easy :=
  cbn; rewrite ?map_update_one by reflexivity;
  first [ assumption
        | now apply NoDup_map_delete_one
        | now apply NoDup_map_delete_many ].

Ltac open_invariant H :=
  let Hwf := fresh "Hwf" in
  destruct H as [Hwf [Hrec Husr]];
  destruct Hwf as [Hui Hri Hli Hsi Hfi Hlk Hsk Hfk Hpk Hau].

Lemma invariant_register i now h d db :
  invariant db -> admissible (OpRegister i now h d) db = true ->
  invariant (handle (OpRegister i now h d) db).
Proof.
  intros Hinv Hadm. pose proof Hinv as Hinv0. open_invariant Hinv.
  unfold admissible, mints, handle, register in *. unfold_monad. cbn in *.
  destruct (find_one (fun u => eqs (User.email u) _) (users db)) eqn:He;
    cbn in *; [exact Hinv0|].
  destruct (find_one (fun u => eqs (User.username u) _) (users db)) eqn:Hn;
    cbn in *; [exact Hinv0|].
  destruct (count_documents _ _ =? 0)%nat;
    (split; [constructor; try wf_easy | split; cbn]).
  all: try exact Hrec.
  all: try (cbn; apply NoDup_map_insert_one; [assumption | by_freshness Hadm]).
  all: try (cbn; unfold insert_one; rewrite map_app; now apply incl_appl).
  all: apply Forall_insert_one; [exact Husr|];
    repeat split; cbn; rewrite count_by_absent; try reflexivity;
    by_freshness Hadm.
Qed.

Lemma invariant_update_user q upd db :
  (forall x, User.id (upd x) = User.id x) ->
  (forall x, User.followers_count (upd x) = User.followers_count x
             /\ User.following_count (upd x) = User.following_count x
             /\ User.recipes_count (upd x) = User.recipes_count x) ->
  invariant db -> invariant (with_users (update_one q upd) db).
Proof.
  intros Hid Hcnt Hinv. open_invariant Hinv.
  split; [constructor; cbn; rewrite ?map_update_one by assumption; assumption
         | split; cbn; [exact Hrec|]].
  revert Husr. apply Forall_update_one; [|tauto].
  intros x (H1 & H2 & H3). destruct (Hcnt x) as (E1 & E2 & E3).
  unfold user_counters_ok. cbn. rewrite Hid, E1, E2, E3. tauto.
Qed.

Lemma invariant_update_recipe q upd db :
  (forall x, Recipe.id (upd x) = Recipe.id x) ->
  (forall x, Recipe.author_id (upd x) = Recipe.author_id x) ->
  (forall x, Recipe.likes_count (upd x) = Recipe.likes_count x
             /\ Recipe.comments_count (upd x) = Recipe.comments_count x
             /\ Recipe.saves_count (upd x) = Recipe.saves_count x) ->
  invariant db -> invariant (with_recipes (update_one q upd) db).
Proof.
  intros Hid Hau' Hcnt Hinv. open_invariant Hinv.
  split; [constructor; cbn; rewrite ?map_update_one by assumption; assumption
         | split; cbn].
  - revert Hrec. apply Forall_update_one; [|tauto].
    intros x (H1 & H2 & H3). destruct (Hcnt x) as (E1 & E2 & E3).
    unfold recipe_counters_ok. cbn. rewrite Hid, E1, E2, E3. tauto.
  - revert Husr. apply Forall_impl. intros x (H1 & H2 & H3).
    repeat split; cbn; try assumption.
    now rewrite count_by_update_one by assumption.
Qed.

Lemma invariant_update_user_role u r t db :
  invariant db -> invariant (handle (OpUpdateUserRole u r t) db).
Proof.
  intros Hinv. unfold handle, update_user_role. handler_cases;
    try exact Hinv; now apply invariant_update_user.
Qed.

Lemma invariant_update_profile p t db :
  invariant db -> invariant (handle (OpUpdateProfile p t) db).
Proof.
  intros Hinv. unfold handle, update_profile. handler_cases;
    try exact Hinv;
    (apply invariant_update_user;
     [apply set_update_fields_id | apply set_update_fields_counters
     | exact Hinv]).
Qed.

Lemma invariant_toggle_user_active u t db :
  invariant db -> invariant (handle (OpToggleUserActive u t) db).
Proof.
  intros Hinv. unfold handle, toggle_user_active. handler_cases;
    try exact Hinv; now apply invariant_update_user.
Qed.

Lemma invariant_update_recipe_op now r d t db :
  invariant db -> invariant (handle (OpUpdateRecipe now r d t) db).
Proof.
  intros Hinv. unfold handle, update_recipe. handler_cases;
    try exact Hinv; now apply invariant_update_recipe.
Qed.

Lemma invariant_create_recipe i now d t db :
  invariant db -> admissible (OpCreateRecipe i now d t) db = true ->
  invariant (handle (OpCreateRecipe i now d t) db).
Proof.
  intros Hinv Hadm. pose proof Hinv as Hinv0. open_invariant Hinv.
  unfold admissible, mints, handle, create_recipe in *. unfold_monad.
  cbn in *.
  destruct (find_one (fun x => eqs (User.id x) t) (users db)) as [u|] eqn:Hu;
    cbn in *; [|exact Hinv0].
  destruct (find_one_user_in _ _ _ Hu) as [Hid Hin].
  destruct (encodable d); cbn; [|exact Hinv0].
  split; [constructor; try wf_easy | split; cbn].
  - cbn. apply NoDup_map_insert_one; [assumption | by_freshness Hadm].
  - cbn. rewrite map_update_one by reflexivity.
    unfold insert_one. rewrite map_app. apply incl_app; [assumption|].
    cbn. intros k [<-|[]]. now rewrite Hid.
  - apply Forall_insert_one; [exact Hrec|].
    repeat split; cbn; rewrite count_by_absent; try reflexivity;
      by_freshness Hadm.
  - apply (Forall_update_by_key User.id (User.id u) _ (user_counters_ok db));
      try assumption;
      intros x (H1 & H2 & H3) Hx; repeat split; cbn; try assumption;
      rewrite count_by_insert_one; cbn.
    + rewrite <- Hx, eqs_refl. lia.
    + rewrite (eqs_neq (User.id u) (User.id x)) by congruence. lia.
Qed.

Lemma invariant_delete_recipe r t db :
  invariant db -> invariant (handle (OpDeleteRecipe r t) db).
Proof.
  intros Hinv. pose proof Hinv as Hinv0. open_invariant Hinv.
  unfold handle, delete_recipe. unfold_monad. cbn.
  destruct (find_one (fun x => eqs (User.id x) t) (users db)) as [u|] eqn:Hu;
    cbn; [|exact Hinv0].
  destruct (find_one (fun x => eqs (Recipe.id x) r) (recipes db))
    as [recipe|] eqn:Hr; cbn; [|exact Hinv0].
  destruct (negb _ && negb _); cbn; [exact Hinv0|].
  split; [constructor; try wf_easy | split; cbn].
  - cbn. rewrite map_update_one by reflexivity.
    eapply incl_tran; [apply incl_map_delete_one | assumption].
  - apply Forall_forall. intros x Hin.
    pose proof (delete_one_key_gone Recipe.id r _ Hri x Hin) as Hne.
    apply delete_one_incl in Hin.
    destruct (proj1 (Forall_forall _ _) Hrec x Hin) as (H1 & H2 & H3).
    repeat split; cbn; rewrite count_by_delete_many;
      rewrite (eqs_neq r (Recipe.id x)) by congruence; assumption.
  - apply (Forall_update_by_key User.id (Recipe.author_id recipe) _
             (user_counters_ok db)); try assumption;
      intros x (H1 & H2 & H3) Hx; repeat split; cbn; try assumption;
      rewrite (count_by_delete_one _ _ _ _ _ Hr).
    + rewrite <- Hx, eqs_refl. lia.
    + rewrite (eqs_neq (Recipe.author_id recipe) (User.id x)) by congruence.
      lia.
Qed.

Lemma invariant_create_comment i now r x t db :
  invariant db -> invariant (handle (OpCreateComment i now r x t) db).
Proof.
  intros Hinv. pose proof Hinv as Hinv0. open_invariant Hinv.
  unfold handle, create_comment. unfold_monad. cbn.
  destruct (find_one (fun x => eqs (User.id x) t) (users db)) as [u|] eqn:Hu;
    cbn; [|exact Hinv0].
  split; [constructor; wf_easy | split; cbn].
  - apply (Forall_update_by_key Recipe.id r _ (recipe_counters_ok db));
      try assumption;
      intros y (H1 & H2 & H3) Hy; repeat split; cbn; try assumption;
      rewrite count_by_insert_one; cbn.
    + rewrite <- Hy, eqs_refl. lia.
    + rewrite (eqs_neq r (Recipe.id y)) by congruence. lia.
  - revert Husr. apply Forall_impl. intros y (H1 & H2 & H3).
    repeat split; cbn; try assumption.
    now rewrite count_by_update_one by reflexivity.
Qed.

Lemma invariant_delete_comment c t db :
  invariant db -> invariant (handle (OpDeleteComment c t) db).
Proof.
  intros Hinv. pose proof Hinv as Hinv0. open_invariant Hinv.
  unfold handle, delete_comment. unfold_monad. cbn.
  destruct (find_one (fun x => eqs (User.id x) t) (users db)) as [u|] eqn:Hu;
    cbn; [|exact Hinv0].
  destruct (find_one (fun x => eqs (Comment.id x) c) (comments db))
    as [comment|] eqn:Hc; cbn; [|exact Hinv0].
  destruct (negb _ && negb _); cbn; [exact Hinv0|].
  split; [constructor; wf_easy | split; cbn].
  - apply (Forall_update_by_key Recipe.id (Comment.recipe_id comment) _
             (recipe_counters_ok db)); try assumption;
      intros y (H1 & H2 & H3) Hy; repeat split; cbn; try assumption;
      rewrite (count_by_delete_one _ _ _ _ _ Hc).
    + rewrite <- Hy, eqs_refl. lia.
    + rewrite (eqs_neq (Comment.recipe_id comment) (Recipe.id y))
        by congruence. lia.
  - revert Husr. apply Forall_impl. intros y (H1 & H2 & H3).
    repeat split; cbn; try assumption.
    now rewrite count_by_update_one by reflexivity.
Qed.

Lemma invariant_purchase_recipe i now r t db :
  invariant db -> admissible (OpPurchaseRecipe i now r t) db = true ->
  invariant (handle (OpPurchaseRecipe i now r t) db).
Proof.
  intros Hinv Hadm. pose proof Hinv as Hinv0. open_invariant Hinv.
  unfold handle, purchase_recipe. unfold_monad. cbn.
  destruct (find_one (fun x => eqs (User.id x) t) (users db)) as [u|] eqn:Hu;
    cbn; [|exact Hinv0].
  destruct (find_one (fun x => eqs (Recipe.id x) r) (recipes db))
    as [recipe|] eqn:Hr; cbn; [|exact Hinv0].
  destruct (negb _); cbn; [exact Hinv0|].
  destruct (find_one _ (purchases db)) as [p|] eqn:Hp; cbn; [exact Hinv0|].
  split; [constructor; try wf_easy | split; cbn; assumption].
  cbn. apply NoDup_map_insert_one; [assumption|].
  apply (find_one_none_key purchase_key (User.id u, r) _ _) with (2 := Hp).
  intros y Hy. unfold purchase_key in Hy. injection Hy as -> ->.
  now rewrite !eqs_refl.
Qed.

Lemma invariant_follow_user i now x t db :
  invariant db -> admissible (OpFollowUser i now x t) db = true ->
  invariant (handle (OpFollowUser i now x t) db).
Proof.
  intros Hinv Hadm. pose proof Hinv as Hinv0. open_invariant Hinv.
  unfold admissible, mints, handle, follow_user in *. unfold_monad.
  cbn in *.
  destruct (find_one (fun y => eqs (User.id y) t) (users db)) as [u|] eqn:Hu;
    cbn in *; [|exact Hinv0].
  destruct (eqs x (User.id u)) eqn:Hself; cbn in *; [exact Hinv0|].
  destruct (find_one _ (follows db)) as [e|] eqn:He; cbn in *.
  - pose proof (find_one_in _ _ _ He) as [_ Hq].
    apply andb_true_iff in Hq as [Hq1 Hq2].
    apply eqs_true in Hq1, Hq2.
    split; [constructor; wf_easy | split; cbn; [exact Hrec|]].
    apply (Forall_update_by_key User.id x _
             (fun y => User.followers_count y
                       = count_by Follow.following_id (User.id y) (follows db)
                       /\ User.following_count y
                          = count_by Follow.follower_id (User.id y)
                              (delete_one
                                 (fun f => eqs (Follow.follower_id f) (User.id u)
                                           && eqs (Follow.following_id f) x)
                                 (follows db))
                       /\ User.recipes_count y
                          = count_by Recipe.author_id (User.id y) (recipes db))).
    + now rewrite map_update_one by reflexivity.
    + apply (Forall_update_by_key User.id (User.id u) _ (user_counters_ok db));
        try assumption;
        intros y (H1 & H2 & H3) Hy; repeat split; cbn; try assumption;
        rewrite (count_by_delete_one _ _ _ _ _ He), Hq1.
      * rewrite <- Hy, eqs_refl. lia.
      * rewrite (eqs_neq (User.id u) (User.id y)) by congruence. lia.
    + intros y (H1 & H2 & H3) Hy; repeat split; cbn;
        rewrite ?(delete_one_found Follow.id _ _ _ Hfi He); try assumption.
      rewrite (count_by_delete_one _ _ _ _ _ He), Hq2, <- Hy, eqs_refl. lia.
    + intros y (H1 & H2 & H3) Hy; repeat split; cbn;
        rewrite ?(delete_one_found Follow.id _ _ _ Hfi He); try assumption.
      rewrite (count_by_delete_one _ _ _ _ _ He), Hq2.
      rewrite (eqs_neq x (User.id y)) by congruence. lia.
  - split; [constructor; try wf_easy | split; cbn; [exact Hrec|]].
    + cbn. apply NoDup_map_insert_one; [assumption | by_freshness Hadm].
    + cbn. apply NoDup_map_insert_one; [assumption|].
      apply (find_one_none_key follow_key (User.id u, x) _ _) with (2 := He).
      intros y Hy. unfold follow_key in Hy. injection Hy as -> ->.
      now rewrite !eqs_refl.
    + set (follow := Follow.mk i (User.id u) x now).
      apply (Forall_update_by_key User.id x _
               (fun y => User.followers_count y
                         = count_by Follow.following_id (User.id y) (follows db)
                         /\ User.following_count y
                            = count_by Follow.follower_id (User.id y)
                                (insert_one follow (follows db))
                         /\ User.recipes_count y
                            = count_by Recipe.author_id (User.id y)
                                (recipes db))).
      * now rewrite map_update_one by reflexivity.
      * apply (Forall_update_by_key User.id (User.id u) _
                 (user_counters_ok db));
          try assumption;
          intros y (H1 & H2 & H3) Hy; repeat split; cbn; try assumption;
          rewrite count_by_insert_one; cbn.
        -- rewrite <- Hy, eqs_refl. lia.
        -- rewrite (eqs_neq (User.id u) (User.id y)) by congruence. lia.
      * intros y (H1 & H2 & H3) Hy; repeat split; cbn; try assumption.
        rewrite count_by_insert_one. cbn. rewrite <- Hy, eqs_refl. lia.
      * intros y (H1 & H2 & H3) Hy; repeat split; cbn; try assumption.
        rewrite count_by_insert_one. cbn.
        rewrite (eqs_neq x (User.id y)) by congruence. lia.
Qed.

(** The like and save toggles differ only in the collection they use. *)
Ltac recipe_toggle_invariant db Husr idf keyf Hids Hadm He u r :=
  match type of He with
  | _ = Some _ =>
    split; [constructor; wf_easy | split; cbn];
    [ apply (Forall_update_by_key Recipe.id r _ (recipe_counters_ok db));
      try assumption;
      intros y (Hl & Hc & Hs) Hy; repeat split; cbn; try assumption;
      rewrite (delete_one_found idf _ _ _ Hids He);
      rewrite (count_by_delete_one _ _ _ _ _ He);
      apply find_one_in in He as [_ Hq];
      apply andb_true_iff in Hq as [Hq _]; apply eqs_true in Hq; rewrite Hq;
      [ rewrite <- Hy, eqs_refl
      | rewrite (eqs_neq r (Recipe.id y)) by congruence ]; lia
    | revert Husr; apply Forall_impl; intros y (H1 & H2 & H3);
      repeat split; cbn; try assumption;
      now rewrite count_by_update_one by reflexivity ]
  | _ = None =>
    split; [constructor; try wf_easy | split; cbn];
    [ cbn; apply NoDup_map_insert_one; [assumption | by_freshness Hadm]
    | cbn; apply NoDup_map_insert_one; [assumption|];
      apply (find_one_none_key keyf (r, User.id u) _ _) with (2 := He);
      let y := fresh "y" in
      let Hy := fresh "Hy" in
      intros y Hy; unfold keyf in Hy; injection Hy as -> ->;
      now rewrite !eqs_refl
    | apply (Forall_update_by_key Recipe.id r _ (recipe_counters_ok db));
      try assumption;
      intros y (Hl & Hc & Hs) Hy; repeat split; cbn; try assumption;
      rewrite count_by_insert_one; cbn;
      [ rewrite <- Hy, eqs_refl
      | rewrite (eqs_neq r (Recipe.id y)) by congruence ]; lia
    | revert Husr; apply Forall_impl; intros y (H1 & H2 & H3);
      repeat split; cbn; try assumption;
      now rewrite count_by_update_one by reflexivity ]
  end.

Lemma invariant_like_recipe i now r t db :
  invariant db -> admissible (OpLikeRecipe i now r t) db = true ->
  invariant (handle (OpLikeRecipe i now r t) db).
Proof.
  intros Hinv Hadm. pose proof Hinv as Hinv0. open_invariant Hinv.
  unfold admissible, mints, handle, like_recipe in *. unfold_monad.
  cbn in *.
  destruct (find_one (fun x => eqs (User.id x) t) (users db)) as [u|] eqn:Hu;
    cbn in *; [|exact Hinv0].
  destruct (find_one _ (likes db)) as [e|] eqn:He; cbn in *;
    recipe_toggle_invariant db Husr Like.id like_key Hli Hadm He u r.
Qed.

Lemma invariant_save_recipe i now r t db :
  invariant db -> admissible (OpSaveRecipe i now r t) db = true ->
  invariant (handle (OpSaveRecipe i now r t) db).
Proof.
  intros Hinv Hadm. pose proof Hinv as Hinv0. open_invariant Hinv.
  unfold admissible, mints, handle, save_recipe in *. unfold_monad.
  cbn in *.
  destruct (find_one (fun x => eqs (User.id x) t) (users db)) as [u|] eqn:Hu;
    cbn in *; [|exact Hinv0].
  destruct (find_one _ (saves db)) as [e|] eqn:He; cbn in *;
    recipe_toggle_invariant db Husr Save.id save_key Hsi Hadm He u r.
Qed.

Lemma invariant_handle (op : Op) (db : Db) :
  invariant db -> admissible op db = true -> invariant (handle op db).
Proof.
  intros Hinv Hadm. destruct op.
  - now apply invariant_register.
  - now apply invariant_update_user_role.
  - now apply invariant_update_profile.
  - now apply invariant_toggle_user_active.
  - now apply invariant_create_recipe.
  - now apply invariant_update_recipe_op.
  - now apply invariant_delete_recipe.
  - now apply invariant_like_recipe.
  - now apply invariant_save_recipe.
  - now apply invariant_create_comment.
  - now apply invariant_delete_comment.
  - now apply invariant_follow_user.
  - now apply invariant_purchase_recipe.
Qed.

Lemma invariant_empty : invariant empty_db.
Proof.
  split; [constructor; cbn; try constructor; intros x [] | split; constructor].
Qed.

Lemma reachable_invariant (db : Db) : reachable db -> invariant db.
Proof.
  induction 1 as [|db op _ IH Hadm];
    [apply invariant_empty | now apply invariant_handle].
Qed.

Lemma reachable_run (ops : list Op) (db : Db) :
  reachable db -> admissible_run ops db = true -> reachable (run ops db).
Proof.
  revert db. induction ops as [|op ops IH]; intros db Hr Hadm; cbn in *;
    [exact Hr|].
  apply andb_true_iff in Hadm as [Hop Hrest].
  apply IH; [now constructor | exact Hrest].
Qed.

Lemma count_documents_unique_key {A K} (key : A -> K) (p : K)
    (q : A -> bool) (c : list A) :
  (forall x, q x = true -> key x = p) ->
  NoDup (map key c) -> (count_documents q c <= 1)%nat.
Proof.
  intros Hq. unfold count_documents.
  induction c as [|y c IH]; cbn; intros Hnd; [lia|].
  inversion Hnd as [|? ? Hy Hc]; subst.
  destruct (q y) eqn:E; [|now apply IH]. cbn.
  assert (Hz : filter q c = []).
  { destruct (filter q c) as [|z zs] eqn:F; [reflexivity|]. exfalso.
    assert (Hin : In z (filter q c)) by (rewrite F; now left).
    apply filter_In in Hin as [Hin Hqz]. apply Hy.
    rewrite (Hq _ E), <- (Hq _ Hqz). now apply in_map. }
  rewrite Hz. cbn. lia.
Qed.

(** A reachable store holds at most one purchase row per user and recipe. *)
Lemma purchase_rows_at_most_one (db : Db) (user_id recipe_id : string) :
  reachable db ->
  (count_documents (fun p => eqs (Purchase.user_id p) user_id
                             && eqs (Purchase.recipe_id p) recipe_id)
                   (purchases db) <= 1)%nat.
Proof.
  intros Hr. apply reachable_invariant in Hr as [Hwf _].
  apply (count_documents_unique_key purchase_key (user_id, recipe_id));
    [|apply Hwf].
  intros x Hx. apply andb_true_iff in Hx as [H1 H2].
  apply eqs_true in H1, H2. unfold purchase_key. congruence.
Qed.

(** C1. In every store reachable from the empty one by serving requests
    (registration, role, profile and activation changes, recipe creation,
    update and deletion, like, save and follow toggles, comment creation
    and deletion, purchases), each recipe's [likes_count], [comments_count]
    and [saves_count] equal the number of like, comment and save rows with
    its id, and each user's [followers_count], [following_count] and
    [recipes_count] equal the number of follow rows pointing to the user,
    of follow rows of the user, and of recipes the user authored. *)
Theorem counters_consistent_reachable (db : Db) :
  reachable db -> counters_consistent db.
Proof.
  intros Hr. now apply reachable_invariant in Hr as [_ Hc].
Qed.

Lemma counters_consistent_reachable_witness :
  reachable demo_db /\ counters_consistent demo_db.
Proof.
  assert (Hr : reachable demo_db).
  { apply (reachable_run demo_ops empty_db);
      [apply reachable_empty | vm_compute; reflexivity]. }
  split; [exact Hr | exact (counters_consistent_reachable demo_db Hr)].
Defined.

Lemma find_one_by_key_exists {A} (key : A -> string) (k : string) (c : list A) :
  In k (map key c) -> exists a, find_one (fun x => eqs (key x) k) c = Some a.
Proof.
  intros Hin. destruct (find_one (fun x => eqs (key x) k) c) as [a|] eqn:Hf;
    [now exists a|].
  exfalso. revert Hin. apply (find_one_none_key key k _ _) with (2 := Hf).
  intros x <-. apply eqs_refl.
Qed.

Lemma In_delete_many {A} (q : A -> bool) (c : list A) (x : A) :
  In x (delete_many q c) <-> In x c /\ q x = false.
Proof.
  unfold delete_many. rewrite filter_In. now rewrite negb_true_iff.
Qed.

(** ** Deleting a recipe *)

(** C4. In a reachable store, when an authorized actor deletes an existing
    recipe the request succeeds; afterwards the comment, like and save
    rows are exactly the former ones that do not reference the recipe
    (however many referenced it), the author's [recipes_count] is one
    less and no other user changed, and [get_recipe] on the id raises 404. *)
Theorem delete_recipe_cascades (db : Db) (rid token : string) (u : User.t)
    (r : Recipe.t) :
  reachable db ->
  find_one (fun x => eqs (User.id x) token) (users db) = Some u ->
  find_one (fun x => eqs (Recipe.id x) rid) (recipes db) = Some r ->
  canMutate u (Recipe.author_id r) = true ->
  exists db' a,
    delete_recipe rid token db = (Ok "Recipe deleted successfully", db')
    /\ (forall c, In c (comments db')
                  <-> In c (comments db) /\ Comment.recipe_id c <> rid)
    /\ (forall l, In l (likes db')
                  <-> In l (likes db) /\ Like.recipe_id l <> rid)
    /\ (forall s, In s (saves db')
                  <-> In s (saves db) /\ Save.recipe_id s <> rid)
    /\ find_one (fun x => eqs (User.id x) (Recipe.author_id r)) (users db)
       = Some a
    /\ find_one (fun x => eqs (User.id x) (Recipe.author_id r)) (users db')
       = Some (User.inc_recipes_count (-1) a)
    /\ User.recipes_count (User.inc_recipes_count (-1) a)
       = User.recipes_count a - 1
    /\ (forall k, k <> Recipe.author_id r ->
          find_one (fun x => eqs (User.id x) k) (users db')
          = find_one (fun x => eqs (User.id x) k) (users db))
    /\ get_recipe rid db' = (Raised (mkHTTP 404 "Recipe not found"), db').
Proof.
  intros Hreach Hu Hr Hc.
  apply reachable_invariant in Hreach as [Hwf _].
  destruct Hwf as [Hui Hri Hli Hsi Hfi Hlk Hsk Hfk Hpk Hau].
  destruct (find_one_by_key_exists User.id (Recipe.author_id r) (users db))
    as [a Ha].
  { apply Hau. apply in_map. now apply find_one_in in Hr. }
  eexists. exists a. split.
  { unfold delete_recipe. as_user Hu. rewrite Hr. cbn.
    rewrite canMutate_guard, Hc. cbn. reflexivity. }
  cbn.
  assert (Hneq : forall a b, eqs a b = false <-> a <> b).
  { intros x y. split; [apply eqs_false | apply eqs_neq]. }
  split; [intros c; rewrite In_delete_many, Hneq; reflexivity|].
  split; [intros c; rewrite In_delete_many, Hneq; reflexivity|].
  split; [intros c; rewrite In_delete_many, Hneq; reflexivity|].
  split; [exact Ha|].
  split; [rewrite find_one_update_one by reflexivity; now rewrite Ha|].
  split; [cbn; lia|].
  split; [intros k Hk; now apply (find_one_update_other User.id)|].
  unfold get_recipe. unfold_monad. cbn.
  rewrite (find_one_delete_one Recipe.id rid); [reflexivity | | assumption].
  intros x Hx. now apply eqs_true.
Qed.

Lemma delete_recipe_cascades_witness :
  exists db',
    delete_recipe "r-soup" "u-alice" demo_db
    = (Ok "Recipe deleted successfully", db')
    /\ likes db' = [] /\ comments db' = []
    /\ get_recipe "r-soup" db' = (Raised (mkHTTP 404 "Recipe not found"), db').
Proof.
  assert (Hr : reachable demo_db).
  { apply (reachable_run demo_ops empty_db);
      [apply reachable_empty | vm_compute; reflexivity]. }
  destruct (delete_recipe_cascades demo_db "r-soup" "u-alice" demo_alice
              demo_soup Hr eq_refl eq_refl eq_refl)
    as (db' & a & Hrun & _ & _ & _ & _ & _ & _ & _ & Hget).
  exists db'. split; [exact Hrun|].
  vm_compute in Hrun. injection Hrun as <-.
  split; [reflexivity|]. split; [reflexivity|]. vm_compute. reflexivity.
Defined.

(** ** Two toggles in a row *)

Lemma update_one_cons {A} (q : A -> bool) (upd : A -> A) (x : A) (c : list A) :
  update_one q upd (x :: c)
  = if q x then upd x :: c else x :: update_one q upd c.
Proof. reflexivity. Qed.

Lemma update_one_commute {A} (key : A -> string) (a b : string)
    (f g : A -> A) (c : list A) :
  (forall x, key (f x) = key x) -> (forall x, key (g x) = key x) -> a <> b ->
  update_one (fun x => eqs (key x) a) f (update_one (fun x => eqs (key x) b) g c)
  = update_one (fun x => eqs (key x) b) g (update_one (fun x => eqs (key x) a) f c).
Proof.
  intros Hf Hg Hab.
  induction c as [|y c IH]; [reflexivity|].
  rewrite !update_one_cons.
  destruct (eqs (key y) b) eqn:Eb, (eqs (key y) a) eqn:Ea;
    rewrite !update_one_cons, ?Hf, ?Hg, ?Ea, ?Eb.
  - apply eqs_true in Ea, Eb. congruence.
  - reflexivity.
  - reflexivity.
  - now rewrite IH.
Qed.

Lemma update_one_undo {A} (q : A -> bool) (f g : A -> A) (c : list A) :
  (forall x, q (f x) = q x) -> (forall x, g (f x) = x) ->
  update_one q g (update_one q f c) = c.
Proof.
  intros Hq Hgf. rewrite update_one_update_one by assumption.
  now apply update_one_id.
Qed.

Lemma inc_followers_undo d x :
  User.inc_followers_count (- d) (User.inc_followers_count d x) = x.
Proof. destruct x. unfold User.inc_followers_count. cbn. f_equal. lia. Qed.

Lemma inc_following_undo d x :
  User.inc_following_count (- d) (User.inc_following_count d x) = x.
Proof. destruct x. unfold User.inc_following_count. cbn. f_equal. lia. Qed.

(** Two like or save requests in a row for the same pair: the shared
    part of the argument, by the collection it is about. *)
Ltac toggle_twice_recipe db u target o1 idf recf usrf keyf mkf coll
     Hids Hkeys Hadm He incf :=
  match type of He with
  | _ = Some ?e =>
    let Hgone := fresh "Hgone" in
    assert (Hgone : find_one (fun l => eqs (recf l) target
                                       && eqs (usrf l) (User.id u))
                      (delete_one (fun l => eqs (idf l) (idf e)) coll)
                    = None);
    [ rewrite (delete_one_found idf _ _ _ Hids He);
      apply (find_one_delete_one keyf (target, User.id u)); [|assumption];
      let x := fresh "x" in
      let Hx := fresh "Hx" in
      let H1 := fresh "H1" in
      let H2 := fresh "H2" in
      intros x Hx; apply andb_true_iff in Hx as [H1 H2];
      apply eqs_true in H1, H2; unfold keyf; congruence
    | rewrite Hgone; cbn; rewrite find_one_insert_one, Hgone; cbn;
      rewrite !eqs_refl; cbn; repeat split;
      apply (update_one_undo _ (incf (-1))); [reflexivity|];
      let x := fresh "x" in intros x; destruct x; unfold incf; cbn;
      f_equal; lia ]
  | _ = None =>
    rewrite find_one_insert_one, He; cbn; rewrite !eqs_refl; cbn;
    let Hdel := fresh "Hdel" in
    assert (Hdel : delete_one (fun l => eqs (idf l) (fst o1))
                     (insert_one (mkf (fst o1) target (User.id u) (snd o1))
                                 coll)
                   = coll);
    [ apply delete_one_insert_one; [|apply eqs_refl];
      let z := fresh "z" in
      let Hz := fresh "Hz" in
      destruct (find_one (fun l => eqs (idf l) (fst o1)) coll)
        as [z|] eqn:Hz; [|reflexivity];
      exfalso;
      let Hin := fresh "Hin" in
      let Hq := fresh "Hq" in
      apply find_one_in in Hz as [Hin Hq]; apply eqs_true in Hq;
      let Hn := fresh "Hn" in
      assert (Hn : ~ In (fst o1) (map idf coll)) by by_freshness Hadm;
      apply Hn; rewrite <- Hq; now apply in_map
    | rewrite Hdel, He; repeat split;
      apply (update_one_undo _ (incf 1)); [reflexivity|];
      let x := fresh "x" in intros x; destruct x; unfold incf; cbn;
      f_equal; lia ]
  end.

Lemma toggle_twice_like o1 o2 target token db :
  invariant db ->
  admissible (toggle_op TLike target token o1) db = true ->
  let db2 := handle (toggle_op TLike target token o2)
               (handle (toggle_op TLike target token o1) db) in
  active TLike target token db2 = active TLike target token db
  /\ recipes db2 = recipes db /\ users db2 = users db.
Proof.
  intros Hinv Hadm. open_invariant Hinv.
  unfold admissible, mints, toggle_op, handle, like_recipe, active in *.
  unfold_monad. cbn in *.
  destruct (find_one (fun x => eqs (User.id x) token) (users db))
    as [u|] eqn:Hu; cbn in *.
  2:{ rewrite Hu. cbn. now repeat split. }
  destruct (find_one_user_in _ _ _ Hu) as [Hid _]. subst token.
  destruct (find_one _ (likes db)) as [e|] eqn:He; cbn in *; rewrite Hu; cbn;
    toggle_twice_recipe db u target o1 Like.id Like.recipe_id Like.user_id
      like_key Like.mk (likes db) Hli Hlk Hadm He Recipe.inc_likes_count.
Qed.

Lemma toggle_twice_save o1 o2 target token db :
  invariant db ->
  admissible (toggle_op TSave target token o1) db = true ->
  let db2 := handle (toggle_op TSave target token o2)
               (handle (toggle_op TSave target token o1) db) in
  active TSave target token db2 = active TSave target token db
  /\ recipes db2 = recipes db /\ users db2 = users db.
Proof.
  intros Hinv Hadm. open_invariant Hinv.
  unfold admissible, mints, toggle_op, handle, save_recipe, active in *.
  unfold_monad. cbn in *.
  destruct (find_one (fun x => eqs (User.id x) token) (users db))
    as [u|] eqn:Hu; cbn in *.
  2:{ rewrite Hu. cbn. now repeat split. }
  destruct (find_one_user_in _ _ _ Hu) as [Hid _]. subst token.
  destruct (find_one _ (saves db)) as [e|] eqn:He; cbn in *; rewrite Hu; cbn;
    toggle_twice_recipe db u target o1 Save.id Save.recipe_id Save.user_id
      save_key Save.mk (saves db) Hsi Hsk Hadm He Recipe.inc_saves_count.
Qed.

Lemma toggle_twice_follow o1 o2 target token db :
  invariant db ->
  admissible (toggle_op TFollow target token o1) db = true ->
  let db2 := handle (toggle_op TFollow target token o2)
               (handle (toggle_op TFollow target token o1) db) in
  active TFollow target token db2 = active TFollow target token db
  /\ recipes db2 = recipes db /\ users db2 = users db.
Proof.
  intros Hinv Hadm. open_invariant Hinv.
  unfold admissible, mints, toggle_op, handle, follow_user, active in *.
  unfold_monad. cbn in *.
  destruct (find_one (fun x => eqs (User.id x) token) (users db)) as [u|] eqn:Hu;
    cbn in *.
  2:{ rewrite Hu. cbn. now repeat split. }
  destruct (find_one_user_in _ _ _ Hu) as [Hid _]. subst token.
  destruct (eqs target (User.id u)) eqn:Hself; cbn in *.
  { rewrite Hu. cbn. rewrite Hself. cbn. now repeat split. }
  apply eqs_false in Hself.
  assert (Hu1 : forall d1 d2,
             find_one (fun x => eqs (User.id x) (User.id u))
               (update_one (fun x => eqs (User.id x) target)
                  (User.inc_followers_count d1)
                  (update_one (fun x => eqs (User.id x) (User.id u))
                     (User.inc_following_count d2) (users db)))
             = Some (User.inc_following_count d2 u)).
  { intros d1 d2. rewrite (find_one_update_other User.id) by (auto; congruence).
    rewrite find_one_update_one by reflexivity. now rewrite Hu. }
  assert (Hundo : forall d,
             update_one (fun x => eqs (User.id x) target)
               (User.inc_followers_count (- d))
               (update_one (fun x => eqs (User.id x) (User.id u))
                  (User.inc_following_count (- d))
                  (update_one (fun x => eqs (User.id x) target)
                     (User.inc_followers_count d)
                     (update_one (fun x => eqs (User.id x) (User.id u))
                        (User.inc_following_count d) (users db))))
             = users db).
  { intros d.
    rewrite (update_one_commute User.id (User.id u) target)
      by (auto; congruence).
    rewrite (update_one_undo _ (User.inc_followers_count d));
      [|reflexivity|apply inc_followers_undo].
    apply update_one_undo; [reflexivity|apply inc_following_undo]. }
  destruct (find_one _ (follows db)) as [e|] eqn:He; cbn in *;
    rewrite Hu1; cbn; apply eqs_neq in Hself; rewrite Hself; cbn.
  - assert (Hgone : find_one (fun f => eqs (Follow.follower_id f) (User.id u)
                                        && eqs (Follow.following_id f) target)
                      (delete_one (fun f => eqs (Follow.id f) (Follow.id e))
                                  (follows db)) = None).
    { rewrite (delete_one_found Follow.id _ _ _ Hfi He).
      apply (find_one_delete_one follow_key (User.id u, target));
        [|assumption].
      intros x Hx. apply andb_true_iff in Hx as [H1 H2].
      apply eqs_true in H1, H2. unfold follow_key. congruence. }
    rewrite Hgone. cbn. rewrite find_one_insert_one, Hgone. cbn.
    rewrite !eqs_refl. cbn. repeat split.
    apply (Hundo (-1)).
  - rewrite find_one_insert_one, He. cbn. rewrite !eqs_refl. cbn.
    assert (Hdel : delete_one (fun f => eqs (Follow.id f) (fst o1))
              (insert_one (Follow.mk (fst o1) (User.id u) target (snd o1))
                          (follows db))
            = follows db).
    { apply delete_one_insert_one; [|apply eqs_refl].
      destruct (find_one (fun f => eqs (Follow.id f) (fst o1)) (follows db))
        as [z|] eqn:Hz; [|reflexivity].
      exfalso. apply find_one_in in Hz as [Hin Hq]. apply eqs_true in Hq.
      assert (Hn : ~ In (fst o1) (map Follow.id (follows db)))
        by by_freshness Hadm.
      apply Hn. rewrite <- Hq. now apply in_map. }
    rewrite Hdel, He. repeat split.
    apply (Hundo 1).
Qed.

Lemma toggle_twice (k : Toggle) o1 o2 target token db :
  invariant db ->
  admissible (toggle_op k target token o1) db = true ->
  let db2 := handle (toggle_op k target token o2)
               (handle (toggle_op k target token o1) db) in
  active k target token db2 = active k target token db
  /\ recipes db2 = recipes db /\ users db2 = users db.
Proof.
  destruct k;
    [apply toggle_twice_like | apply toggle_twice_save
    | apply toggle_twice_follow].
Qed.

Lemma list_pair_ind {A} (P : list A -> Prop) :
  P [] -> (forall a, P [a]) -> (forall a b l, P l -> P (a :: b :: l)) ->
  forall l, P l.
Proof.
  intros H0 H1 H2.
  assert (H : forall l, P l /\ forall a, P (a :: l)).
  { induction l as [|x l [IHa IHb]]; split; auto. }
  intros l. apply H.
Qed.

(** ** Toggling an even number of times *)

(** C2. From a reachable store, serving the same toggle (like, save or
    follow) for the same actor and target an even number of times, each
    newly drawn identifier being fresh, leaves the relation row of the
    pair present if it was present and absent if it was absent, and every
    recipe and user document, hence every counter, as it was. *)
Theorem toggle_even_restores (k : Toggle) (target token : string)
    (oracles : list (string * Z)) (db : Db) :
  reachable db ->
  admissible_run (map (toggle_op k target token) oracles) db = true ->
  Nat.even (List.length oracles) = true ->
  let db' := run (map (toggle_op k target token) oracles) db in
  active k target token db' = active k target token db
  /\ recipes db' = recipes db
  /\ users db' = users db.
Proof.
  intros Hreach. apply reachable_invariant in Hreach. revert db Hreach.
  induction oracles as [|o|o1 o2 oracles IH] using list_pair_ind;
    intros db Hinv Hadm Heven; cbn in *.
  - now repeat split.
  - discriminate.
  - apply andb_true_iff in Hadm as [Ha1 Hadm].
    apply andb_true_iff in Hadm as [Ha2 Hadm].
    destruct (toggle_twice k o1 o2 target token db Hinv Ha1)
      as (Hact & Hrec & Husr).
    assert (Hinv2 : invariant (handle (toggle_op k target token o2)
                                 (handle (toggle_op k target token o1) db))).
    { apply invariant_handle; [apply invariant_handle|]; assumption. }
    destruct (IH _ Hinv2 Hadm Heven) as (Hact' & Hrec' & Husr').
    repeat split; etransitivity; eassumption.
Qed.

Lemma toggle_even_restores_witness :
  let oracles := [("l-2", 9); ("l-3", 10); ("l-4", 11); ("l-5", 12)] in
  let db' := run (map (toggle_op TLike "r-soup" "u-bob") oracles) demo_db in
  active TLike "r-soup" "u-bob" db' = true
  /\ recipes db' = recipes demo_db.
Proof.
  assert (Hr : reachable demo_db).
  { apply (reachable_run demo_ops empty_db);
      [apply reachable_empty | vm_compute; reflexivity]. }
  destruct (toggle_even_restores TLike "r-soup" "u-bob"
              [("l-2", 9); ("l-3", 10); ("l-4", 11); ("l-5", 12)]
              demo_db Hr eq_refl eq_refl) as (Ha & Hrec & _).
  split; [exact Ha | exact Hrec].
Defined.

(** ** The role of identifier freshness *)

(** The handlers never check that a recipe id exists before recording a
    like, so the counters rely on [uuid.uuid4()] never returning an
    identifier that a client has already used in a request: were a recipe
    created under such an id, its [likes_count] would start at zero with a
    like row already pointing to it.  Such a run is not [admissible_run]. *)
Remark stale_identifier_breaks_counters :
  let ops := [ OpRegister "u-1" 1 "h" alice;
               OpLikeRecipe "l-1" 2 "r-x" "u-1";
               OpCreateRecipe "r-x" 3 soup "u-1" ] in
  admissible_run ops empty_db = false
  /\ ~ counters_consistent (run ops empty_db).
Proof.
  split; [vm_compute; reflexivity|].
  intros [Hrec _]. apply Forall_inv in Hrec. destruct Hrec as [Hl _].
  vm_compute in Hl. discriminate Hl.
Qed.

(** * Further properties of the handlers *)

Lemma set_update_fields_keys p x :
  User.email (set_update_fields p x) = User.email x
  /\ User.username (set_update_fields p x) = User.username x
  /\ User.role (set_update_fields p x) = User.role x
  /\ User.is_active (set_update_fields p x) = User.is_active x
  /\ User.password_hash (set_update_fields p x) = User.password_hash x.
Proof.
  unfold set_update_fields.
  now destruct (UpdateProfile.full_name p), (UpdateProfile.bio p),
    (UpdateProfile.profile_image p).
Qed.

Lemma set_update_fields_role p x :
  User.role (set_update_fields p x) = User.role x.
Proof. apply set_update_fields_keys. Qed.

Lemma map_insert_one {A B} (g : A -> B) (x : A) (c : list A) :
  map g (insert_one x c) = (map g c ++ [g x])%list.
Proof. unfold insert_one. now rewrite map_app. Qed.

Lemma incl_snoc {B} (l m : list B) (x : B) :
  incl l m -> In x m -> incl (l ++ [x])%list m.
Proof. intros Hl Hx. apply incl_app; [assumption|]. now intros y [<-|[]]. Qed.

Lemma incl_map_delete_many {A K} (key : A -> K) (q : A -> bool) (c : list A) :
  incl (map key (delete_many q c)) (map key c).
Proof.
  intros k Hin. apply in_map_iff in Hin as (x & <- & Hin).
  apply in_map. now apply In_delete_many in Hin.
Qed.

Lemma Forall_update_one_same {A} (q : A -> bool) (upd : A -> A)
    (P : A -> Prop) (c : list A) :
  (forall x, P x -> P (upd x)) -> Forall P c -> Forall P (update_one q upd c).
Proof. intros Hu. apply Forall_update_one; auto. Qed.

Ltac users_same :=
  rewrite ?map_update_one
    by (intros; first [reflexivity | apply set_update_fields_id
                      | apply set_update_fields_keys]).

Ltac found_user :=
  match goal with
  | H : find_one (fun x => eqs (User.id x) _) (users _) = Some ?u |- In (User.id ?u) _ =>
    let H1 := fresh in let H2 := fresh in
    destruct (find_one_user_in _ _ _ H) as [H1 H2]; rewrite H1; exact H2
  end.

Ltac coherent_field :=
  cbn; rewrite ?map_insert_one; users_same;
  first
    [ assumption
    | now apply NoDup_map_delete_one
    | apply Forall_delete_one; assumption
    | eapply incl_tran; [apply incl_map_delete_one | assumption]
    | eapply incl_tran; [apply incl_map_delete_many | assumption]
    | apply incl_snoc; [assumption | cbn; found_user]
    | apply incl_appl; assumption
    | apply Forall_insert_one; [assumption | cbn; try reflexivity ]
    | repeat (apply Forall_update_one_same;
              [ let x := fresh "x" in
                let Hx := fresh "Hx" in
                intros x Hx; cbn;
                first [ exact Hx
                      | rewrite set_update_fields_role; exact Hx
                      | now apply negb_false_iff ] | ]);
      assumption ].

Lemma find_one_none_email (db : Db) (e : string) :
  find_one (fun u => eqs (User.email u) e) (users db) = None ->
  ~ In e (map User.email (users db)).
Proof.
  apply (find_one_none_key User.email e). intros x <-. apply eqs_refl.
Qed.

Lemma find_one_none_username (db : Db) (e : string) :
  find_one (fun u => eqs (User.username u) e) (users db) = None ->
  ~ In e (map User.username (users db)).
Proof.
  apply (find_one_none_key User.username e). intros x <-. apply eqs_refl.
Qed.

Lemma coherent_handle (op : Op) (db : Db) :
  coherent db -> coherent (handle op db).
Proof.
  intros Hco. pose proof Hco as Hco0.
  destruct Hco as [Hem Hun Hro Hsf Hlu Hsu Hcu Hfu Hpu].
  destruct op; unfold handle;
    unfold register, update_user_role, update_profile, toggle_user_active,
      create_recipe, update_recipe, delete_recipe, like_recipe, save_recipe,
      create_comment, delete_comment, follow_user, purchase_recipe;
    handler_cases; try exact Hco0; constructor; try coherent_field.
  all: try (cbn; apply NoDup_map_insert_one; [assumption|]; cbn;
            first [now apply find_one_none_email
                  | now apply find_one_none_username]).
  match goal with
  | H : eqs ?a ?b = false |- ?b <> ?a => apply eqs_false in H; congruence
  end.
Qed.

Lemma coherent_empty : coherent empty_db.
Proof. constructor; cbn; try constructor; intros x []. Qed.

Lemma reachable_coherent (db : Db) : reachable db -> coherent db.
Proof.
  induction 1 as [|db op _ IH _];
    [apply coherent_empty | now apply coherent_handle].
Qed.

Ltac all_handlers :=
  unfold register, update_user_role, update_profile, toggle_user_active,
    create_recipe, update_recipe, delete_recipe, like_recipe, save_recipe,
    create_comment, delete_comment, follow_user, purchase_recipe.

Lemma update_one_fixed {A} (q : A -> bool) (upd : A -> A) (c : list A) (x : A) :
  find_one q c = Some x -> upd x = x -> update_one q upd c = c.
Proof.
  unfold find_one. induction c as [|y c IH]; [discriminate|].
  rewrite update_one_cons. cbn. destruct (q y).
  - intros [= ->] Hx. now rewrite Hx.
  - intros Hf Hx. now rewrite IH.
Qed.

Lemma with_users_same (f : list User.t -> list User.t) (db : Db) :
  f (users db) = users db -> with_users f db = db.
Proof. destruct db. unfold with_users. cbn. now intros ->. Qed.

Lemma set_role_same (r : string) (u : User.t) :
  eqs (User.role u) r = true -> User.set_role r u = u.
Proof. intros H. apply eqs_true in H. subst r. now destruct u. Qed.

Lemma role_unmodified (user_id role : string) (db : Db) :
  role_modified_count user_id role db = 0%nat ->
  with_users (update_one (fun u => eqs (User.id u) user_id)
                         (User.set_role role)) db = db.
Proof.
  unfold role_modified_count. intros H. apply with_users_same.
  destruct (find_one _ (users db)) as [u|] eqn:Hu.
  - destruct (eqs (User.role u) role) eqn:Hr; [|discriminate].
    apply (update_one_fixed _ _ _ u Hu). now apply set_role_same.
  - now apply update_one_none.
Qed.

Lemma find_one_update_one_none {A} (q : A -> bool) (upd : A -> A) (c : list A) :
  (forall x, q (upd x) = q x) ->
  find_one q (update_one q upd c) = None -> find_one q c = None.
Proof.
  intros Hq. rewrite find_one_update_one by assumption.
  now destruct (find_one q c).
Qed.

(** The re-read of a document that was just updated cannot come back empty. *)
Ltac reread_found :=
  exfalso;
  match goal with
  | H : find_one ?q (update_one ?q _ _) = None |- _ =>
    apply find_one_update_one_none in H;
    [| intros; first [reflexivity | now rewrite set_update_fields_id]];
    try congruence;
    first
      [ match goal with
        | Hu : find_one (fun x => eqs (User.id x) ?t) _ = Some ?u |- _ =>
          let E := fresh in
          destruct (find_one_user_in _ _ _ Hu) as [E _];
          rewrite E in H; congruence
        end
      | match goal with
        | Hm : (role_modified_count _ _ _ =? 0)%nat = false |- _ =>
          unfold role_modified_count in Hm; rewrite H in Hm; discriminate Hm
        end ]
  end.

(** ** Requests that fail *)

(** X1. A request that is answered with an exception leaves the store exactly
    as it was, for every handler: all checks come before the first write,
    and the one handler that writes first ([update_user_role], which
    raises 404 when [modified_count] is zero) has then written nothing new. *)
Theorem failed_request_leaves_store (op : Op) (db : Db) (e : HTTPException) :
  outcome op db = Some e -> handle op db = db.
Proof.
  destruct op; unfold outcome, handle, raised; all_handlers; handler_cases;
    intros He; try discriminate He; try reflexivity; try reread_found.
  all: apply role_unmodified; now apply Nat.eqb_eq.
Qed.

(** X2. Every route that takes a bearer token answers 404 "User not found"
    and changes nothing when the token's user id matches no user. *)
Theorem unknown_bearer_rejected (op : Op) (db : Db) (t : string) :
  op_token op = Some t ->
  find_one (fun x => eqs (User.id x) t) (users db) = None ->
  outcome op db = Some (mkHTTP 404 "User not found") /\ handle op db = db.
Proof.
  intros Ht Hu.
  destruct op; cbn in Ht; try discriminate Ht; injection Ht as ->;
    unfold outcome, handle, raised; all_handlers; unfold_monad; cbn;
    rewrite Hu; cbn; split; reflexivity.
Qed.

Lemma role_in_admin (r : string) :
  role_in r [UserRole.ADMIN] = eqs r UserRole.ADMIN.
Proof. unfold role_in. cbn. apply orb_false_r. Qed.

(** ** Admin routes *)

(** X3. For an actor whose role is not admin (moderators included), changing
    a role, toggling an account and reading the admin statistics all raise
    403 "Insufficient permissions" and leave the store unchanged. *)
Theorem admin_only_routes (db : Db) (token : string) (u : User.t) :
  find_one (fun x => eqs (User.id x) token) (users db) = Some u ->
  User.role u <> UserRole.ADMIN ->
  let denied := (mkHTTP 403 "Insufficient permissions") in
  (forall user_id role,
      update_user_role user_id role token db = (Raised denied, db))
  /\ (forall user_id,
      toggle_user_active user_id token db = (Raised denied, db))
  /\ get_admin_stats token db = (Raised denied, db).
Proof.
  intros Hu Hr denied.
  assert (Hin : role_in (User.role u) [UserRole.ADMIN] = false).
  { rewrite role_in_admin. now apply eqs_neq. }
  repeat split; intros;
    unfold update_user_role, toggle_user_active, get_admin_stats;
    as_user Hu; now rewrite Hin.
Qed.

(** X4. For an admin actor, [update_user_role] raises 400 for a role outside
    the four known ones; raises 404 when the target does not exist and also
    when the target already has the requested role; and otherwise returns
    the target with the new role, changing that one user document only:
    recipes keep the [author_role] and [is_featured] they were created with. *)
Theorem update_user_role_outcomes (db : Db) (user_id role token : string)
    (a : User.t) :
  find_one (fun x => eqs (User.id x) token) (users db) = Some a ->
  User.role a = UserRole.ADMIN ->
  if negb (role_in role valid_roles) then
    update_user_role user_id role token db
    = (Raised (mkHTTP 400 "Invalid role"), db)
  else
    match find_one (fun x => eqs (User.id x) user_id) (users db) with
    | None =>
      update_user_role user_id role token db
      = (Raised (mkHTTP 404 "User not found"), db)
    | Some u =>
      if eqs (User.role u) role then
        update_user_role user_id role token db
        = (Raised (mkHTTP 404 "User not found"), db)
      else
        exists db',
          update_user_role user_id role token db
          = (Ok (User.set_role role u), db')
          /\ find_one (fun x => eqs (User.id x) user_id) (users db')
             = Some (User.set_role role u)
          /\ (forall k, k <> user_id ->
                find_one (fun x => eqs (User.id x) k) (users db')
                = find_one (fun x => eqs (User.id x) k) (users db))
          /\ recipes db' = recipes db /\ comments db' = comments db
    end.
Proof.
  intros Ha Hadmin.
  assert (Hin : role_in (User.role a) [UserRole.ADMIN] = true).
  { rewrite role_in_admin, Hadmin. apply eqs_refl. }
  unfold update_user_role. as_user Ha. rewrite Hin. cbn.
  destruct (negb (role_in role valid_roles)); cbn; [reflexivity|].
  pose proof (role_unmodified user_id role db) as Hsame.
  unfold role_modified_count in *.
  destruct (find_one (fun x => eqs (User.id x) user_id) (users db))
    as [u|] eqn:Hu; cbn.
  - destruct (eqs (User.role u) role) eqn:Hr; cbn.
    + now rewrite Hsame.
    + rewrite find_one_update_one by reflexivity. rewrite Hu. cbn.
      eexists. split; [reflexivity|]. cbn.
      split; [rewrite find_one_update_one by reflexivity; now rewrite Hu|].
      split; [|split; reflexivity].
      intros k Hk. now apply (find_one_update_other User.id).
  - now rewrite Hsame.
Qed.

Lemma set_is_active_twice (b : bool) (u : User.t) :
  User.set_is_active (User.is_active u) (User.set_is_active b u) = u.
Proof. now destruct u. Qed.

(** X5. Two [toggle_user_active] requests of an admin for the same existing
    user succeed with different messages and bring the store back to what
    it was, also when the admin toggles their own account. *)
Theorem toggle_user_active_twice (db : Db) (user_id token : string)
    (a u : User.t) :
  find_one (fun x => eqs (User.id x) token) (users db) = Some a ->
  User.role a = UserRole.ADMIN ->
  find_one (fun x => eqs (User.id x) user_id) (users db) = Some u ->
  exists m1 m2 db1,
    toggle_user_active user_id token db = (Ok m1, db1)
    /\ find_one (fun x => eqs (User.id x) user_id) (users db1)
       = Some (User.set_is_active (negb (User.is_active u)) u)
    /\ toggle_user_active user_id token db1 = (Ok m2, db)
    /\ m1 <> m2.
Proof.
  intros Ha Hadmin Hu.
  assert (Hin : role_in (User.role a) [UserRole.ADMIN] = true).
  { rewrite role_in_admin, Hadmin. apply eqs_refl. }
  set (b := negb (User.is_active u)).
  assert (Hu1 : find_one (fun x => eqs (User.id x) user_id)
                  (update_one (fun x => eqs (User.id x) user_id)
                              (User.set_is_active b) (users db))
                = Some (User.set_is_active b u)).
  { rewrite find_one_update_one by reflexivity. now rewrite Hu. }
  assert (Ha1 : exists a1,
             find_one (fun x => eqs (User.id x) token)
               (update_one (fun x => eqs (User.id x) user_id)
                           (User.set_is_active b) (users db))
             = Some a1 /\ User.role a1 = User.role a).
  { destruct (String.eqb_spec token user_id) as [->|Hne].
    - rewrite Hu1. exists (User.set_is_active b u). split; [reflexivity|].
      cbn. congruence.
    - rewrite (find_one_update_other User.id) by (auto; congruence).
      now exists a. }
  destruct Ha1 as (a1 & Ha1 & Hrole).
  eexists. eexists. eexists. split.
  { unfold toggle_user_active. as_user Ha. rewrite Hin. cbn. rewrite Hu. cbn.
    reflexivity. }
  split; [exact Hu1|]. split.
  { unfold toggle_user_active. unfold_monad. cbn. fold b. rewrite Ha1. cbn.
    rewrite Hrole, Hin. cbn. rewrite Hu1. cbn.
    f_equal. destruct db as [us rs cs ls ss fs ps]. unfold with_users. cbn in *.
    f_equal. rewrite update_one_update_one by reflexivity.
    apply (update_one_fixed _ _ _ u Hu). unfold b. now destruct u, is_active. }
  unfold b. now destruct (User.is_active u).
Qed.

(** ** Login and registration *)

(** X6. [login] never changes the store, and it returns a user only if that
    user is stored under the given email, the password verifies against
    the stored hash, and the account is active. *)
Theorem login_sound (verify_password : string -> string -> bool)
    (login_data : UserLogin.t) (db : Db) :
  snd (login verify_password login_data db) = db
  /\ forall u,
       fst (login verify_password login_data db) = Ok u ->
       In u (users db)
       /\ User.email u = UserLogin.email login_data
       /\ verify_password (UserLogin.password login_data)
                          (User.password_hash u) = true
       /\ User.is_active u = true.
Proof.
  unfold login. unfold_monad. cbn.
  destruct (find_one _ (users db)) as [v|] eqn:Hv; cbn;
    [|split; [reflexivity | discriminate]].
  destruct (verify_password _ _) eqn:Hp; cbn;
    [|split; [reflexivity | discriminate]].
  destruct (User.is_active v) eqn:Hact; cbn;
    [|split; [reflexivity | discriminate]].
  split; [reflexivity|]. intros u [= <-].
  apply find_one_in in Hv as [Hin Hq]. apply eqs_true in Hq. auto.
Qed.

Lemma find_one_unique_key {A} (key : A -> string) (c : list A) (x : A) :
  NoDup (map key c) -> In x c ->
  find_one (fun y => eqs (key y) (key x)) c = Some x.
Proof.
  unfold find_one. induction c as [|y c IH]; cbn; intros Hnd Hin; [tauto|].
  inversion Hnd as [|? ? Hy Hc]; subst.
  destruct Hin as [->|Hin]; [now rewrite eqs_refl|].
  destruct (eqs (key y) (key x)) eqn:E; [|now apply IH].
  exfalso. apply Hy. apply eqs_true in E. rewrite E. now apply in_map.
Qed.

Lemma In_update_one {A} (q : A -> bool) (upd : A -> A) (c : list A) (x : A) :
  find_one q c = Some x -> In (upd x) (update_one q upd c).
Proof.
  unfold find_one. induction c as [|y c IH]; [discriminate|].
  rewrite update_one_cons. cbn. destruct (q y).
  - intros [= ->]. now left.
  - intros Hf. right. now apply IH.
Qed.

(** X7. In a reachable store, once an admin has deactivated an active user,
    a login with that user's email fails whatever the password: 403
    "Account is deactivated" if the password verifies, 401 otherwise.  The
    user's token is still honoured: [get_me] keeps answering. *)
Theorem deactivated_account_cannot_login (db : Db) (user_id token : string)
    (a u : User.t) :
  reachable db ->
  find_one (fun x => eqs (User.id x) token) (users db) = Some a ->
  User.role a = UserRole.ADMIN ->
  find_one (fun x => eqs (User.id x) user_id) (users db) = Some u ->
  User.is_active u = true ->
  exists db',
    toggle_user_active user_id token db
    = (Ok "User deactivated successfully", db')
    /\ (forall verify_password password,
          login verify_password (UserLogin.mk (User.email u) password) db'
          = (Raised (mkHTTP (if verify_password password (User.password_hash u)
                             then 403 else 401)
                            (if verify_password password (User.password_hash u)
                             then "Account is deactivated"
                             else "Invalid credentials")), db'))
    /\ get_me user_id db' = (Ok (User.set_is_active false u), db').
Proof.
  intros Hreach Ha Hadmin Hu Hact.
  pose proof (reachable_coherent _ Hreach) as Hco.
  assert (Hin : role_in (User.role a) [UserRole.ADMIN] = true).
  { rewrite role_in_admin, Hadmin. apply eqs_refl. }
  eexists. split.
  { unfold toggle_user_active. as_user Ha. rewrite Hin. cbn. rewrite Hu. cbn.
    rewrite Hact. cbn. reflexivity. }
  assert (Hmail : find_one (fun x => eqs (User.email x) (User.email u))
                    (update_one (fun x => eqs (User.id x) user_id)
                                (User.set_is_active false) (users db))
                  = Some (User.set_is_active false u)).
  { apply (find_one_unique_key User.email _ (User.set_is_active false u)).
    - rewrite map_update_one by reflexivity. apply Hco.
    - now apply In_update_one. }
  split.
  - intros vp pw. unfold login. unfold_monad. cbn. rewrite Hmail. cbn.
    now destruct (vp pw (User.password_hash u)).
  - unfold get_me. unfold_monad. cbn.
    rewrite find_one_update_one by reflexivity. now rewrite Hu.
Qed.

(** X8. [register] raises 400 "Email already registered" when a stored user
    has the email, and raises 400 when a stored user has the username; the
    store is unchanged in both cases. *)
Theorem register_rejects_duplicates (db : Db) (new_id : string) (now : Z)
    (hashed : string) (user_data : UserCreate.t) (u : User.t) :
  In u (users db) ->
  (User.email u = UserCreate.email user_data ->
   register new_id now hashed user_data db
   = (Raised (mkHTTP 400 "Email already registered"), db))
  /\ (User.username u = UserCreate.username user_data ->
      exists detail,
        register new_id now hashed user_data db
        = (Raised (mkHTTP 400 detail), db)).
Proof.
  intros Hin.
  assert (Hex : forall (key : User.t -> string) k,
             key u = k ->
             find_one (fun x => eqs (key x) k) (users db) <> None).
  { intros key k Hk Hnone.
    apply (find_none _ _ Hnone) in Hin. rewrite Hk, eqs_refl in Hin.
    discriminate. }
  split; intros Heq; unfold register; unfold_monad; cbn.
  - destruct (find_one (fun x => eqs (User.email x) _) (users db)) eqn:He;
      [reflexivity|]. now apply (Hex User.email) in He.
  - destruct (find_one (fun x => eqs (User.email x) _) (users db)) eqn:He;
      cbn; [eexists; reflexivity|].
    destruct (find_one (fun x => eqs (User.username x) _) (users db)) eqn:Hn;
      cbn; [eexists; reflexivity|]. now apply (Hex User.username) in Hn.
Qed.

(** X9. After an accepted registration the new user is the one found by
    username and by email, and, when the drawn id is fresh, by id; it
    carries the given hash, is active and has all three counters at zero. *)
Theorem register_then_lookup (db db' : Db) (new_id : string) (now : Z)
    (hashed : string) (user_data : UserCreate.t) (u : User.t) :
  register new_id now hashed user_data db = (Ok u, db') ->
  get_user_by_username (UserCreate.username user_data) db' = (Ok u, db')
  /\ find_one (fun x => eqs (User.email x) (UserCreate.email user_data))
              (users db') = Some u
  /\ (fresh db new_id = true -> get_user new_id db' = (Ok u, db'))
  /\ User.id u = new_id /\ User.password_hash u = hashed
  /\ User.is_active u = true
  /\ User.followers_count u = 0 /\ User.following_count u = 0
  /\ User.recipes_count u = 0.
Proof.
  unfold register. unfold_monad. cbn.
  destruct (find_one (fun x => eqs (User.email x) _) (users db)) eqn:He;
    cbn; [discriminate|].
  destruct (find_one (fun x => eqs (User.username x) _) (users db)) eqn:Hn;
    cbn; [discriminate|].
  intros [= <- <-]. unfold get_user_by_username, get_user. unfold_monad. cbn.
  rewrite !find_one_insert_one, He, Hn.
  destruct (count_documents _ _ =? 0)%nat; cbn; rewrite !eqs_refl;
    (split; [reflexivity|]); (split; [reflexivity|]);
    (split; [|repeat split]); intros Hfresh;
    (destruct (find_one (fun x => eqs (User.id x) new_id) (users db))
       as [z|] eqn:Hz; [|reflexivity]);
    exfalso; apply find_one_in in Hz as [Hin Hq]; apply eqs_true in Hq;
    (assert (Hni : ~ In new_id (map User.id (users db)))
       by by_freshness Hfresh);
    apply Hni; rewrite <- Hq; now apply in_map.
Qed.

(** X10. In every reachable store no two users share an email and no two
    users share a username. *)
Theorem credentials_unique (db : Db) :
  reachable db ->
  NoDup (map User.email (users db)) /\ NoDup (map User.username (users db)).
Proof. intros Hr. apply reachable_coherent in Hr. split; apply Hr. Qed.

Lemma role_counts_partition (us : list User.t) :
  Forall (fun u => role_in (User.role u) valid_roles = true) us ->
  (count_documents (fun u => eqs (User.role u) UserRole.ADMIN) us
   + count_documents (fun u => eqs (User.role u) UserRole.MODERATOR) us
   + count_documents (fun u => eqs (User.role u) UserRole.CHEF) us
   + count_documents (fun u => eqs (User.role u) UserRole.USER) us
   = List.length us)%nat.
Proof.
  unfold count_documents.
  induction 1 as [|u us Hu _ IH]; cbn; [reflexivity|].
  unfold role_in, valid_roles in Hu. cbn in Hu.
  destruct (eqs (User.role u) UserRole.ADMIN) eqn:E1,
           (eqs (User.role u) UserRole.MODERATOR) eqn:E2,
           (eqs (User.role u) UserRole.CHEF) eqn:E3,
           (eqs (User.role u) UserRole.USER) eqn:E4;
    try discriminate Hu; cbn [List.length]; try lia;
    exfalso;
    repeat match goal with
           | H : eqs _ _ = true |- _ => apply eqs_true in H
           end;
    unfold UserRole.ADMIN, UserRole.MODERATOR, UserRole.CHEF, UserRole.USER
      in *; congruence.
Qed.

(** ** Roles *)

(** X11. In a reachable store the four role counts reported by
    [get_admin_stats] add up to its user count, and the user, recipe and
    comment counts are the sizes of the collections. *)
Theorem admin_stats_roles_add_up (db : Db) (token : string) (a : User.t) :
  reachable db ->
  find_one (fun x => eqs (User.id x) token) (users db) = Some a ->
  User.role a = UserRole.ADMIN ->
  exists stats,
    get_admin_stats token db = (Ok stats, db)
    /\ (AdminStats.role_admin stats + AdminStats.role_moderator stats
        + AdminStats.role_chef stats + AdminStats.role_user stats
        = AdminStats.users_count stats)%nat
    /\ AdminStats.users_count stats = List.length (users db)
    /\ AdminStats.recipes_count stats = List.length (recipes db)
    /\ AdminStats.comments_count stats = List.length (comments db).
Proof.
  intros Hreach Ha Hadmin.
  pose proof (reachable_coherent _ Hreach) as Hco.
  assert (Hin : role_in (User.role a) [UserRole.ADMIN] = true).
  { rewrite role_in_admin, Hadmin. apply eqs_refl. }
  eexists. split.
  { unfold get_admin_stats. as_user Ha. rewrite Hin. cbn. reflexivity. }
  cbn. rewrite !count_documents_all.
  split; [apply role_counts_partition, Hco | repeat split].
Qed.

(** X12. In every reachable store each user's role is one of admin,
    moderator, chef and user. *)
Theorem roles_stay_valid (db : Db) (u : User.t) :
  reachable db -> In u (users db) ->
  User.role u = UserRole.ADMIN \/ User.role u = UserRole.MODERATOR
  \/ User.role u = UserRole.CHEF \/ User.role u = UserRole.USER.
Proof.
  intros Hr Hin. apply reachable_coherent in Hr.
  pose proof (proj1 (Forall_forall _ _) (co_roles _ Hr) u Hin) as Hu.
  unfold role_in, valid_roles in Hu. cbn in Hu.
  repeat (apply orb_true_iff in Hu as [Hu|Hu];
          [apply eqs_true in Hu; tauto|]).
  discriminate Hu.
Qed.

(** ** References between collections *)

(** X13. No reachable store holds a follow row of a user to themselves. *)
Theorem no_self_follow_rows (db : Db) (f : Follow.t) :
  reachable db -> In f (follows db) ->
  Follow.follower_id f <> Follow.following_id f.
Proof.
  intros Hr Hin. apply reachable_coherent in Hr.
  exact (proj1 (Forall_forall _ _) (co_no_self_follow _ Hr) f Hin).
Qed.

(** X14. In every reachable store the user of every like, save, comment and
    purchase, the follower of every follow row and the author of every
    recipe is an existing user. *)
Theorem rows_made_by_existing_users (db : Db) :
  reachable db ->
  let exists_user i := In i (map User.id (users db)) in
  (forall l, In l (likes db) -> exists_user (Like.user_id l))
  /\ (forall s, In s (saves db) -> exists_user (Save.user_id s))
  /\ (forall c, In c (comments db) -> exists_user (Comment.user_id c))
  /\ (forall f, In f (follows db) -> exists_user (Follow.follower_id f))
  /\ (forall p, In p (purchases db) -> exists_user (Purchase.user_id p))
  /\ (forall r, In r (recipes db) -> exists_user (Recipe.author_id r)).
Proof.
  intros Hr. pose proof (reachable_coherent _ Hr) as Hco.
  apply reachable_invariant in Hr as [Hwf _]. cbn.
  repeat split; intros x Hin.
  - apply (co_like_users _ Hco). now apply in_map.
  - apply (co_save_users _ Hco). now apply in_map.
  - apply (co_comment_users _ Hco). now apply in_map.
  - apply (co_follow_users _ Hco). now apply in_map.
  - apply (co_purchase_users _ Hco). now apply in_map.
  - apply (wf_authors _ Hwf). now apply in_map.
Qed.

(** ** Toggles and their checks *)

(** X15. In a reachable store the flag a like, save or follow request
    answers with is what [check_liked], [check_saved] or [check_following]
    answers right after it, and it is the negation of the row's presence
    before the request. *)
Theorem toggle_answer_matches_check (db : Db) (new_id : string) (now : Z)
    (target token : string) (u : User.t) :
  reachable db ->
  find_one (fun x => eqs (User.id x) token) (users db) = Some u ->
  (exists b m db',
      like_recipe new_id now target token db = (Ok (b, m), db')
      /\ check_liked target token db' = (Ok b, db')
      /\ b = negb (is_some (find_one
                              (fun l => eqs (Like.recipe_id l) target
                                        && eqs (Like.user_id l) (User.id u))
                              (likes db))))
  /\ (exists b m db',
      save_recipe new_id now target token db = (Ok (b, m), db')
      /\ check_saved target token db' = (Ok b, db')
      /\ b = negb (is_some (find_one
                              (fun s => eqs (Save.recipe_id s) target
                                        && eqs (Save.user_id s) (User.id u))
                              (saves db))))
  /\ (target <> User.id u ->
      exists b m db',
        follow_user new_id now target token db = (Ok (b, m), db')
        /\ check_following target token db' = (Ok b, db')
        /\ b = negb (is_some (find_one
                                (fun f => eqs (Follow.follower_id f) (User.id u)
                                          && eqs (Follow.following_id f) target)
                                (follows db)))).
Proof.
  intros Hreach Hu. apply reachable_invariant in Hreach as [Hwf _].
  destruct Hwf as [Hui Hri Hli Hsi Hfi Hlk Hsk Hfk Hpk Hau].
  split; [|split].
  - unfold like_recipe, check_liked. as_user Hu.
    destruct (find_one _ (likes db)) as [e|] eqn:He; cbn;
      eexists; eexists; eexists; (split; [reflexivity|]); cbn; rewrite Hu; cbn.
    + rewrite (delete_one_found Like.id _ _ _ Hli He).
      rewrite (find_one_delete_one like_key (target, User.id u));
        [now split | | assumption].
      intros x Hx. apply andb_true_iff in Hx as [H1 H2].
      apply eqs_true in H1, H2. unfold like_key. congruence.
    + rewrite find_one_insert_one, He. cbn. rewrite !eqs_refl. now split.
  - unfold save_recipe, check_saved. as_user Hu.
    destruct (find_one _ (saves db)) as [e|] eqn:He; cbn;
      eexists; eexists; eexists; (split; [reflexivity|]); cbn; rewrite Hu; cbn.
    + rewrite (delete_one_found Save.id _ _ _ Hsi He).
      rewrite (find_one_delete_one save_key (target, User.id u));
        [now split | | assumption].
      intros x Hx. apply andb_true_iff in Hx as [H1 H2].
      apply eqs_true in H1, H2. unfold save_key. congruence.
    + rewrite find_one_insert_one, He. cbn. rewrite !eqs_refl. now split.
  - intros Hne. destruct (find_one_user_in _ _ _ Hu) as [Hid _].
    assert (Hu1 : forall d1 d2,
               find_one (fun x => eqs (User.id x) token)
                 (update_one (fun x => eqs (User.id x) target)
                    (User.inc_followers_count d1)
                    (update_one (fun x => eqs (User.id x) (User.id u))
                       (User.inc_following_count d2) (users db)))
               = Some (User.inc_following_count d2 u)).
    { intros d1 d2.
      rewrite (find_one_update_other User.id) by (auto; congruence).
      rewrite Hid. rewrite find_one_update_one by reflexivity.
      now rewrite Hu. }
    unfold follow_user, check_following. as_user Hu.
    rewrite (eqs_neq target (User.id u)) by assumption. cbn.
    destruct (find_one _ (follows db)) as [e|] eqn:He; cbn;
      eexists; eexists; eexists; (split; [reflexivity|]); cbn;
      rewrite Hu1; cbn.
    + rewrite (delete_one_found Follow.id _ _ _ Hfi He).
      rewrite (find_one_delete_one follow_key (User.id u, target));
        [now split | | assumption].
      intros x Hx. apply andb_true_iff in Hx as [H1 H2].
      apply eqs_true in H1, H2. unfold follow_key. congruence.
    + rewrite find_one_insert_one, He. cbn. rewrite !eqs_refl. now split.
Qed.

Lemma check_purchased_answer (db : Db) (recipe_id token : string)
    (u : User.t) (r : Recipe.t) :
  find_one (fun x => eqs (User.id x) token) (users db) = Some u ->
  find_one (fun x => eqs (Recipe.id x) recipe_id) (recipes db) = Some r ->
  check_purchased recipe_id token db
  = (Ok (isAccessible db u r, negb (Recipe.is_paid r)), db).
Proof.
  intros Hu Hr. unfold check_purchased, isAccessible. as_user Hu.
  rewrite Hr. cbn.
  assert (Hid : Recipe.id r = recipe_id).
  { apply find_one_in in Hr as [_ Hq]. now apply eqs_true. }
  rewrite Hid.
  destruct (Recipe.is_paid r); cbn; [|reflexivity].
  destruct (eqs (Recipe.author_id r) (User.id u)); cbn; [reflexivity|].
  now destruct (role_in (User.role u) elevated).
Qed.

(** ** Access to paid recipes *)

(** X16. For an authenticated user and an existing recipe, [check_purchased]
    answers purchased exactly when the recipe is free, or the user is its
    author, or has role admin or moderator, or holds a purchase row for
    it; [is_free] is the negation of [is_paid]. *)
Theorem check_purchased_isAccessible (db : Db) (recipe_id token : string)
    (u : User.t) (r : Recipe.t) :
  find_one (fun x => eqs (User.id x) token) (users db) = Some u ->
  find_one (fun x => eqs (Recipe.id x) recipe_id) (recipes db) = Some r ->
  check_purchased recipe_id token db
  = (Ok (isAccessible db u r, negb (Recipe.is_paid r)), db).
Proof.
  intros Hu Hr. unfold check_purchased, isAccessible. as_user Hu.
  rewrite Hr. cbn.
  assert (Hid : Recipe.id r = recipe_id).
  { apply find_one_in in Hr as [_ Hq]. now apply eqs_true. }
  rewrite Hid.
  destruct (Recipe.is_paid r); cbn; [|reflexivity].
  destruct (eqs (Recipe.author_id r) (User.id u)); cbn; [reflexivity|].
  now destruct (role_in (User.role u) elevated).
Qed.

(** X17. For an authenticated user, purchasing an existing paid recipe
    succeeds and [check_purchased] then answers purchased; a first
    purchase appends one row with the recipe's current price as amount and
    touches no user or recipe.  Purchasing a free recipe raises 400. *)
Theorem purchase_grants_access (db : Db) (new_id : string) (now : Z)
    (recipe_id token : string) (u : User.t) (r : Recipe.t) :
  find_one (fun x => eqs (User.id x) token) (users db) = Some u ->
  find_one (fun x => eqs (Recipe.id x) recipe_id) (recipes db) = Some r ->
  if Recipe.is_paid r then
    exists m db',
      purchase_recipe new_id now recipe_id token db = (Ok (true, m), db')
      /\ check_purchased recipe_id token db' = (Ok (true, false), db')
      /\ (find_one (fun p => eqs (Purchase.user_id p) (User.id u)
                             && eqs (Purchase.recipe_id p) recipe_id)
                   (purchases db) = None ->
          purchases db'
          = insert_one (Purchase.mk new_id (User.id u) recipe_id
                                    (Recipe.price r) now)
                       (purchases db))
      /\ users db' = users db /\ recipes db' = recipes db
  else
    purchase_recipe new_id now recipe_id token db
    = (Raised (mkHTTP 400 "This recipe is free"), db).
Proof.
  intros Hu Hr.
  destruct (Recipe.is_paid r) eqn:Hp.
  - assert (Hacc : forall db',
               users db' = users db -> recipes db' = recipes db ->
               is_some (find_one
                          (fun p => eqs (Purchase.user_id p) (User.id u)
                                    && eqs (Purchase.recipe_id p) recipe_id)
                          (purchases db')) = true ->
               check_purchased recipe_id token db' = (Ok (true, false), db')).
    { intros db' Hus Hrs Hrow.
      rewrite (check_purchased_answer db' recipe_id token u r)
        by congruence.
      unfold isAccessible. rewrite Hp.
      assert (Hid : Recipe.id r = recipe_id).
      { apply find_one_in in Hr as [_ Hq]. now apply eqs_true. }
      rewrite Hid, Hrow. now rewrite !orb_true_r. }
    unfold purchase_recipe. as_user Hu. rewrite Hr. cbn. rewrite Hp. cbn.
    destruct (find_one _ (purchases db)) as [p|] eqn:Hf; cbn;
      eexists; eexists; (split; [reflexivity|]).
    + split; [apply Hacc; try reflexivity; now rewrite Hf|].
      split; [discriminate | split; reflexivity].
    + split; [apply Hacc; try reflexivity|].
      * cbn. rewrite find_one_insert_one, Hf. cbn. now rewrite !eqs_refl.
      * split; [reflexivity | split; reflexivity].
  - unfold purchase_recipe. as_user Hu. rewrite Hr. cbn. now rewrite Hp.
Qed.

Lemma find_one_delete_other {A} (key : A -> string) (k k0 : string)
    (c : list A) :
  k <> k0 ->
  find_one (fun x => eqs (key x) k) (delete_one (fun x => eqs (key x) k0) c)
  = find_one (fun x => eqs (key x) k) c.
Proof.
  intros Hne. unfold find_one, delete_one.
  induction c as [|y c IH]; [reflexivity|]. cbn.
  destruct (eqs (key y) k0) eqn:E0.
  - apply eqs_true in E0. subst k0.
    now rewrite (eqs_neq (key y) k) by congruence.
  - cbn. destruct (eqs (key y) k); [reflexivity | exact IH].
Qed.

(** X18. A successful [delete_recipe] removes no purchase and no follow
    row, leaves every other recipe as it was, and keeps the like, save and
    comment rows of every other recipe. *)
Theorem delete_recipe_frame (db : Db) (rid token : string) (u : User.t)
    (r : Recipe.t) :
  find_one (fun x => eqs (User.id x) token) (users db) = Some u ->
  find_one (fun x => eqs (Recipe.id x) rid) (recipes db) = Some r ->
  canMutate u (Recipe.author_id r) = true ->
  let db' := snd (delete_recipe rid token db) in
  purchases db' = purchases db
  /\ follows db' = follows db
  /\ (forall k, k <> rid ->
        find_one (fun x => eqs (Recipe.id x) k) (recipes db')
        = find_one (fun x => eqs (Recipe.id x) k) (recipes db))
  /\ (forall k, k <> rid ->
        count_by Like.recipe_id k (likes db')
        = count_by Like.recipe_id k (likes db)
        /\ count_by Save.recipe_id k (saves db')
           = count_by Save.recipe_id k (saves db)
        /\ count_by Comment.recipe_id k (comments db')
           = count_by Comment.recipe_id k (comments db)).
Proof.
  intros Hu Hr Hc. unfold delete_recipe. as_user Hu. rewrite Hr. cbn.
  rewrite canMutate_guard, Hc. cbn.
  split; [reflexivity|]. split; [reflexivity|]. split.
  - intros k Hk. now apply find_one_delete_other.
  - intros k Hk. rewrite !count_by_delete_many.
    now rewrite (eqs_neq rid k) by congruence.
Qed.

(** ** Targets that do not exist *)

(** X19. Following an id that matches no user succeeds: a follow row is
    stored, the actor's [following_count] goes up by one, and no other
    user document changes, the target still not existing. *)
Theorem follow_missing_user_succeeds (db : Db) (new_id : string) (now : Z)
    (user_id token : string) (u : User.t) :
  find_one (fun x => eqs (User.id x) token) (users db) = Some u ->
  find_one (fun x => eqs (User.id x) user_id) (users db) = None ->
  find_one (fun f => eqs (Follow.follower_id f) (User.id u)
                     && eqs (Follow.following_id f) user_id)
           (follows db) = None ->
  exists db',
    follow_user new_id now user_id token db = (Ok (true, "Following"), db')
    /\ follows db'
       = insert_one (Follow.mk new_id (User.id u) user_id now) (follows db)
    /\ users db'
       = update_one (fun x => eqs (User.id x) (User.id u))
                    (User.inc_following_count 1) (users db)
    /\ find_one (fun x => eqs (User.id x) token) (users db')
       = Some (User.inc_following_count 1 u)
    /\ find_one (fun x => eqs (User.id x) user_id) (users db') = None.
Proof.
  intros Hu Hnone Hrow.
  destruct (find_one_user_in _ _ _ Hu) as [Hid _].
  assert (Hne : user_id <> User.id u).
  { intros ->. rewrite Hid in Hnone. congruence. }
  assert (Hnone' : find_one (fun x => eqs (User.id x) user_id)
                     (update_one (fun x => eqs (User.id x) (User.id u))
                                 (User.inc_following_count 1) (users db))
                   = None).
  { rewrite (find_one_update_other User.id) by (auto; congruence).
    exact Hnone. }
  unfold follow_user. as_user Hu. rewrite (eqs_neq _ _ Hne). cbn.
  rewrite Hrow. cbn. eexists. split; [reflexivity|]. cbn.
  rewrite (update_one_none _ _ _ Hnone').
  split; [reflexivity|]. split; [reflexivity|]. split; [|exact Hnone'].
  rewrite <- Hid. rewrite find_one_update_one by reflexivity.
  rewrite Hid, Hu. reflexivity.
Qed.


(** ** Profile updates *)

(** X21. [update_profile] succeeds for every authenticated user and returns
    the stored document: each of [full_name], [bio] and [profile_image] is
    the supplied value, or the old one where none was supplied; every other
    field, every other user, and the recipes and comments (with their
    copies of the author's name and image) are unchanged. *)
Theorem update_profile_frame (db : Db) (profile_data : UpdateProfile.t)
    (token : string) (u : User.t) :
  find_one (fun x => eqs (User.id x) token) (users db) = Some u ->
  exists u' db',
    update_profile profile_data token db = (Ok u', db')
    /\ find_one (fun x => eqs (User.id x) token) (users db') = Some u'
    /\ User.full_name u'
       = match UpdateProfile.full_name profile_data with
         | Some s => s | None => User.full_name u end
    /\ User.bio u'
       = match UpdateProfile.bio profile_data with
         | Some s => Some s | None => User.bio u end
    /\ User.profile_image u'
       = match UpdateProfile.profile_image profile_data with
         | Some s => Some s | None => User.profile_image u end
    /\ (User.id u' = User.id u /\ User.email u' = User.email u
        /\ User.username u' = User.username u /\ User.role u' = User.role u
        /\ User.is_active u' = User.is_active u
        /\ User.password_hash u' = User.password_hash u
        /\ User.created_at u' = User.created_at u
        /\ User.followers_count u' = User.followers_count u
        /\ User.following_count u' = User.following_count u
        /\ User.recipes_count u' = User.recipes_count u)
    /\ (forall k, k <> token ->
          find_one (fun x => eqs (User.id x) k) (users db')
          = find_one (fun x => eqs (User.id x) k) (users db))
    /\ recipes db' = recipes db /\ comments db' = comments db.
Proof.
  intros Hu. destruct (find_one_user_in _ _ _ Hu) as [Hid _].
  exists (set_update_fields profile_data u).
  assert (Hfields :
    User.full_name (set_update_fields profile_data u)
    = match UpdateProfile.full_name profile_data with
      | Some s => s | None => User.full_name u end
    /\ User.bio (set_update_fields profile_data u)
       = match UpdateProfile.bio profile_data with
         | Some s => Some s | None => User.bio u end
    /\ User.profile_image (set_update_fields profile_data u)
       = match UpdateProfile.profile_image profile_data with
         | Some s => Some s | None => User.profile_image u end
    /\ (User.id (set_update_fields profile_data u) = User.id u
        /\ User.email (set_update_fields profile_data u) = User.email u
        /\ User.username (set_update_fields profile_data u) = User.username u
        /\ User.role (set_update_fields profile_data u) = User.role u
        /\ User.is_active (set_update_fields profile_data u) = User.is_active u
        /\ User.password_hash (set_update_fields profile_data u)
           = User.password_hash u
        /\ User.created_at (set_update_fields profile_data u)
           = User.created_at u
        /\ User.followers_count (set_update_fields profile_data u)
           = User.followers_count u
        /\ User.following_count (set_update_fields profile_data u)
           = User.following_count u
        /\ User.recipes_count (set_update_fields profile_data u)
           = User.recipes_count u)).
  { unfold set_update_fields.
    destruct (UpdateProfile.full_name profile_data),
      (UpdateProfile.bio profile_data),
      (UpdateProfile.profile_image profile_data); cbn; repeat split. }
  subst token. unfold update_profile. as_user Hu.
  destruct (has_update_fields profile_data) eqn:Hh; cbn.
  - rewrite find_one_update_one by (intros; now rewrite set_update_fields_id).
    rewrite Hu. cbn. eexists. split; [reflexivity|]. cbn.
    split; [rewrite find_one_update_one
              by (intros; now rewrite set_update_fields_id); now rewrite Hu|].
    destruct Hfields as (H1 & H2 & H3 & H4).
    repeat (split; [assumption|]).
    split; [|split; reflexivity].
    intros k Hk. apply (find_one_update_other User.id); [|assumption].
    apply set_update_fields_id.
  - rewrite Hu. cbn.
    assert (Hsame : set_update_fields profile_data u = u).
    { unfold has_update_fields in Hh. unfold set_update_fields.
      destruct (UpdateProfile.full_name profile_data),
        (UpdateProfile.bio profile_data),
        (UpdateProfile.profile_image profile_data);
        try discriminate Hh; reflexivity. }
    rewrite Hsame in *. exists db. split; [reflexivity|].
    split; [exact Hu|].
    destruct Hfields as (H1 & H2 & H3 & H4).
    repeat (split; [assumption|]). repeat split.
Qed.

(** ** Recipe creation *)

(** X22. With a fresh id, [create_recipe] by an authenticated user with a
    payload whose integers fit the store's 64 bits stores a recipe that
    [get_recipe] returns: authored by the actor, approved, featured exactly
    when the actor is a chef, with zero counters and with price zero unless
    it is paid; the actor's [recipes_count] goes up by one.  With a payload
    the store cannot encode the request is answered with 500 and nothing
    is stored. *)
Theorem create_recipe_then_get (db : Db) (new_id : string) (now : Z)
    (recipe_data : RecipeCreate.t) (token : string) (u : User.t) :
  find_one (fun x => eqs (User.id x) token) (users db) = Some u ->
  fresh db new_id = true ->
  if encodable recipe_data then
    exists r db',
      create_recipe new_id now recipe_data token db = (Ok r, db')
      /\ get_recipe new_id db' = (Ok r, db')
      /\ Recipe.author_id r = User.id u
      /\ Recipe.author_username r = User.username u
      /\ Recipe.is_featured r = eqs (User.role u) UserRole.CHEF
      /\ Recipe.is_approved r = true
      /\ (Recipe.likes_count r = 0 /\ Recipe.comments_count r = 0
          /\ Recipe.saves_count r = 0)
      /\ Recipe.is_paid r = RecipeCreate.is_paid recipe_data
      /\ (RecipeCreate.is_paid recipe_data = false -> Recipe.price r = 0%float)
      /\ (RecipeCreate.is_paid recipe_data = true ->
          Recipe.price r = RecipeCreate.price recipe_data)
      /\ find_one (fun x => eqs (User.id x) token) (users db')
         = Some (User.inc_recipes_count 1 u)
  else
    create_recipe new_id now recipe_data token db
    = (Raised (mkHTTP 500 "Internal Server Error"), db).
Proof.
  intros Hu Hfresh. destruct (find_one_user_in _ _ _ Hu) as [Hid _].
  subst token. unfold create_recipe, get_recipe. as_user Hu.
  destruct (encodable recipe_data); cbn; [|reflexivity].
  eexists. eexists. split; [reflexivity|]. cbn.
  rewrite find_one_insert_one. cbn. rewrite eqs_refl.
  assert (Hnone : find_one (fun x => eqs (Recipe.id x) new_id) (recipes db)
                  = None).
  { destruct (find_one _ (recipes db)) as [z|] eqn:Hz; [|reflexivity].
    exfalso. apply find_one_in in Hz as [Hin Hq]. apply eqs_true in Hq.
    assert (Hni : ~ In new_id (map Recipe.id (recipes db)))
      by by_freshness Hfresh.
    apply Hni. rewrite <- Hq. now apply in_map. }
  rewrite Hnone. split; [reflexivity|].
  repeat split.
  - intros ->. reflexivity.
  - intros ->. reflexivity.
  - rewrite find_one_update_one by reflexivity. now rewrite Hu.
Qed.

Arguments find_many : simpl never.
Arguments to_list : simpl never.
Arguments id_in : simpl never.

(** X20. Like and save requests for a recipe id that matches no recipe
    succeed and change neither the recipes nor the users; when they answer
    true a row referring to that id has been stored. *)
Theorem toggles_ignore_missing_recipe (db : Db) (new_id : string) (now : Z)
    (recipe_id token : string) (u : User.t) :
  find_one (fun x => eqs (User.id x) token) (users db) = Some u ->
  find_one (fun x => eqs (Recipe.id x) recipe_id) (recipes db) = None ->
  (exists b m db',
      like_recipe new_id now recipe_id token db = (Ok (b, m), db')
      /\ recipes db' = recipes db /\ users db' = users db
      /\ (b = true ->
          likes db' = insert_one (Like.mk new_id recipe_id (User.id u) now)
                                 (likes db)))
  /\ (exists b m db',
      save_recipe new_id now recipe_id token db = (Ok (b, m), db')
      /\ recipes db' = recipes db /\ users db' = users db
      /\ (b = true ->
          saves db' = insert_one (Save.mk new_id recipe_id (User.id u) now)
                                 (saves db))).
Proof.
  intros Hu Hnone. split.
  - unfold like_recipe. as_user Hu.
    destruct (find_one _ (likes db)); cbn;
      eexists; eexists; eexists; (split; [reflexivity|]); cbn;
      rewrite (update_one_none _ _ _ Hnone); repeat split; discriminate.
  - unfold save_recipe. as_user Hu.
    destruct (find_one _ (saves db)); cbn;
      eexists; eexists; eexists; (split; [reflexivity|]); cbn;
      rewrite (update_one_none _ _ _ Hnone); repeat split; discriminate.
Qed.

Lemma In_to_list {A} (n : nat) (c : list A) (x : A) :
  In x (to_list n c) -> In x c.
Proof.
  unfold to_list. intros Hin. rewrite <- (firstn_skipn n c).
  apply in_or_app. now left.
Qed.

Lemma to_list_all {A} (n : nat) (c : list A) :
  (List.length c <= n)%nat -> to_list n c = c.
Proof. apply firstn_all2. Qed.

Lemma length_find_many {A} (q : A -> bool) (c : list A) :
  (List.length (find_many q c) <= List.length c)%nat.
Proof.
  unfold find_many. induction c as [|y c IH]; cbn; [lia|].
  destruct (q y); cbn; lia.
Qed.

Lemma id_in_In (ids : list string) (i : string) :
  id_in ids i = true <-> In i ids.
Proof.
  unfold id_in. rewrite existsb_exists. split.
  - intros (j & Hj & E). apply eqs_true in E. now subst.
  - intros Hin. exists i. split; [assumption | apply eqs_refl].
Qed.

(** The two-stage listing: rows selected by [q], then the documents whose
    key is among the [g]-projections of those rows. *)
Lemma listing_sound {A B} (key : A -> string) (g : B -> string)
    (q : B -> bool) (n m : nat) (rows : list B) (c : list A) (v : A) :
  In v (to_list n
          (find_many (fun x => id_in (map g (to_list m (find_many q rows)))
                                     (key x)) c)) ->
  In v c /\ exists f, In f rows /\ q f = true /\ g f = key v.
Proof.
  intros Hin. apply In_to_list in Hin. unfold find_many in Hin.
  apply filter_In in Hin as [Hv Hid]. split; [assumption|].
  apply id_in_In in Hid. apply in_map_iff in Hid as (f & Hg & Hf).
  apply In_to_list in Hf. apply filter_In in Hf as [Hf Hq]. now exists f.
Qed.

Lemma listing_complete {A B} (key : A -> string) (g : B -> string)
    (q : B -> bool) (n m : nat) (rows : list B) (c : list A) (v : A) :
  (List.length rows <= m)%nat -> (List.length c <= n)%nat ->
  In v c -> (exists f, In f rows /\ q f = true /\ g f = key v) ->
  In v (to_list n
          (find_many (fun x => id_in (map g (to_list m (find_many q rows)))
                                     (key x)) c)).
Proof.
  intros Hm Hn Hv (f & Hf & Hq & Hg).
  rewrite (to_list_all m) by (pose proof (length_find_many q rows); lia).
  rewrite (to_list_all n)
    by (pose proof (length_find_many
                      (fun x => id_in (map g (find_many q rows)) (key x)) c);
        lia).
  unfold find_many. apply filter_In. split; [assumption|].
  apply id_in_In. rewrite <- Hg. apply in_map. now apply filter_In.
Qed.

(** ** Listings *)

(** X23. [get_followers] and [get_following] never change the store and
    list only existing users that have the matching follow row; when the
    follows and users collections hold at most 1000 documents each, they
    list every such user. *)
Theorem follow_listings_exact (db : Db) (user_id : string) :
  exists followers following,
    get_followers user_id db = (Ok followers, db)
    /\ get_following user_id db = (Ok following, db)
    /\ (forall v, In v followers ->
          In v (users db)
          /\ exists f, In f (follows db)
                       /\ Follow.following_id f = user_id
                       /\ Follow.follower_id f = User.id v)
    /\ (forall v, In v following ->
          In v (users db)
          /\ exists f, In f (follows db)
                       /\ Follow.follower_id f = user_id
                       /\ Follow.following_id f = User.id v)
    /\ ((List.length (follows db) <= 1000)%nat ->
        (List.length (users db) <= 1000)%nat ->
        forall v f,
          In v (users db) -> In f (follows db) ->
          (Follow.following_id f = user_id ->
           Follow.follower_id f = User.id v -> In v followers)
          /\ (Follow.follower_id f = user_id ->
              Follow.following_id f = User.id v -> In v following)).
Proof.
  unfold get_followers, get_following. unfold_monad. cbn.
  eexists. eexists. split; [reflexivity|]. split; [reflexivity|].
  split; [|split].
  - intros v Hin. apply listing_sound in Hin as (Hv & f & Hf & Hq & Hg).
    split; [assumption|]. exists f. apply eqs_true in Hq. auto.
  - intros v Hin. apply listing_sound in Hin as (Hv & f & Hf & Hq & Hg).
    split; [assumption|]. exists f. apply eqs_true in Hq. auto.
  - intros Hm Hn v f Hv Hf. split; intros H1 H2;
      apply listing_complete; try assumption; exists f;
      (split; [assumption|]); (split; [|assumption]);
      rewrite H1; apply eqs_refl.
Qed.

Lemma NoDup_map_find_many {A K} (key : A -> K) (q : A -> bool) (c : list A) :
  NoDup (map key c) -> NoDup (map key (find_many q c)).
Proof.
  unfold find_many.
  induction c as [|y c IH]; cbn; intros Hnd; [constructor|].
  inversion Hnd as [|? ? Hy Hc]; subst.
  destruct (q y); [|now apply IH]. cbn. constructor; [|now apply IH].
  intros Hin. apply Hy. apply in_map_iff in Hin as (x & Hx & Hin).
  apply in_map_iff. exists x. split; [assumption|].
  now apply filter_In in Hin.
Qed.

(** Among the rows sharing one component of a unique pair key, the other
    component is unique. *)
Lemma NoDup_other_component {A K} (pk : A -> K) (k1 k2 : A -> string)
    (x : string) (c : list A) :
  (forall a b, k1 a = k1 b -> k2 a = k2 b -> pk a = pk b) ->
  NoDup (map pk c) ->
  NoDup (map k2 (find_many (fun f => eqs (k1 f) x) c)).
Proof.
  intros Hpk. unfold find_many.
  induction c as [|y c IH]; cbn; intros Hnd; [constructor|].
  inversion Hnd as [|? ? Hy Hc]; subst.
  destruct (eqs (k1 y) x) eqn:E; [|now apply IH]. cbn.
  constructor; [|now apply IH].
  intros Hin. apply Hy. apply in_map_iff in Hin as (z & Hz & Hin).
  apply filter_In in Hin as [Hin Hq]. apply eqs_true in E, Hq.
  apply in_map_iff. exists z. split; [apply Hpk; congruence | assumption].
Qed.

Lemma length_listing_le {A} (key : A -> string) (ids : list string)
    (c : list A) :
  NoDup (map key c) ->
  (List.length (find_many (fun x => id_in ids (key x)) c)
   <= List.length ids)%nat.
Proof.
  intros Hc. rewrite <- (length_map key (find_many _ c)).
  apply NoDup_incl_length; [now apply NoDup_map_find_many|].
  intros k Hk. apply in_map_iff in Hk as (x & <- & Hx).
  apply filter_In in Hx as [_ Hx]. now apply id_in_In.
Qed.

Lemma length_listing {A} (key : A -> string) (ids : list string)
    (c : list A) :
  NoDup ids -> NoDup (map key c) -> incl ids (map key c) ->
  List.length (find_many (fun x => id_in ids (key x)) c) = List.length ids.
Proof.
  intros Hids Hc Hincl.
  rewrite <- (length_map key (find_many _ c)).
  apply Nat.le_antisymm.
  - apply NoDup_incl_length; [now apply NoDup_map_find_many|].
    intros k Hk. apply in_map_iff in Hk as (x & <- & Hx).
    apply filter_In in Hx as [_ Hx]. now apply id_in_In.
  - apply NoDup_incl_length; [assumption|].
    intros k Hk. pose proof (Hincl k Hk) as Hin.
    apply in_map_iff in Hin as (x & <- & Hx). apply in_map.
    apply filter_In. split; [assumption | now apply id_in_In].
Qed.

Lemma count_by_find_many {A} (key : A -> string) (k : string) (c : list A) :
  count_by key k c
  = Z.of_nat (List.length (find_many (fun x => eqs (key x) k) c)).
Proof. reflexivity. Qed.

(** X24. In a reachable store with at most 1000 follow rows and 1000 users,
    the number of users listed by [get_followers] for an existing user is
    that user's [followers_count]; the number listed by [get_following] is
    at most the [following_count] (followed ids need not exist). *)
Theorem follow_listings_match_counters (db : Db) (user_id : string)
    (u : User.t) :
  reachable db ->
  (List.length (follows db) <= 1000)%nat ->
  (List.length (users db) <= 1000)%nat ->
  find_one (fun x => eqs (User.id x) user_id) (users db) = Some u ->
  exists followers following,
    get_followers user_id db = (Ok followers, db)
    /\ get_following user_id db = (Ok following, db)
    /\ Z.of_nat (List.length followers) = User.followers_count u
    /\ Z.of_nat (List.length following) <= User.following_count u.
Proof.
  intros Hreach Hm Hn Hu.
  pose proof (reachable_coherent _ Hreach) as Hco.
  apply reachable_invariant in Hreach as [Hwf [_ Hcnt]].
  destruct (find_one_in _ _ _ Hu) as [Hin Hid]. apply eqs_true in Hid.
  destruct (proj1 (Forall_forall _ _) Hcnt u Hin) as (H1 & H2 & _).
  rewrite Hid in H1, H2.
  unfold get_followers, get_following. unfold_monad. cbn.
  eexists. eexists. split; [reflexivity|]. split; [reflexivity|].
  rewrite !(to_list_all 1000 (find_many _ (follows db)))
    by (match goal with
        | |- (List.length (find_many ?q ?c) <= _)%nat =>
          pose proof (length_find_many q c); lia
        end).
  rewrite !(to_list_all 1000 (find_many _ (users db)))
    by (match goal with
        | |- (List.length (find_many ?q ?c) <= _)%nat =>
          pose proof (length_find_many q c); lia
        end).
  rewrite H1, H2, !count_by_find_many. split.
  - f_equal. rewrite length_listing.
    + apply length_map.
    + apply (NoDup_other_component follow_key Follow.following_id
               Follow.follower_id); [|apply Hwf].
      intros a b E1 E2. unfold follow_key. congruence.
    + apply Hwf.
    + intros i Hi. apply (co_follow_users _ Hco).
      apply in_map_iff in Hi as (f & <- & Hf). apply in_map.
      now apply filter_In in Hf.
  - apply inj_le.
    rewrite <- (length_map Follow.following_id
                  (find_many (fun f => eqs (Follow.follower_id f) user_id)
                             (follows db))).
    apply length_listing_le, Hwf.
Qed.

(** X25. [get_users] answers with the first 1000 users for an admin or a
    moderator and raises 403 otherwise.  Saved recipes of another user are
    refused to everyone, admins included; purchases of another user are
    refused to everyone but admins. *)
Theorem listing_gates (db : Db) (token : string) (u : User.t) :
  find_one (fun x => eqs (User.id x) token) (users db) = Some u ->
  (get_users token db
   = (if role_in (User.role u) elevated
      then Ok (to_list 1000 (users db))
      else Raised (mkHTTP 403 "Insufficient permissions"), db))
  /\ (forall user_id,
        user_id <> User.id u ->
        get_saved_recipes user_id token db
        = (Raised (mkHTTP 403 "Can only view your own saved recipes"), db)
        /\ (User.role u <> UserRole.ADMIN ->
            get_user_purchases user_id token db
            = (Raised (mkHTTP 403 "Can only view your own purchases"), db))
        /\ (User.role u = UserRole.ADMIN ->
            is_ok (fst (get_user_purchases user_id token db)) = true)).
Proof.
  intros Hu. split.
  - unfold get_users. as_user Hu. fold elevated.
    now destruct (role_in (User.role u) elevated).
  - intros user_id Hne. apply eqs_neq in Hne. repeat split.
    + unfold get_saved_recipes. as_user Hu. now rewrite Hne.
    + intros Hr. apply eqs_neq in Hr.
      unfold get_user_purchases. as_user Hu. now rewrite Hne, Hr.
    + intros Hr. unfold get_user_purchases. as_user Hu.
      rewrite Hne, Hr, eqs_refl. reflexivity.
Qed.

(** X26. A user's own saved and purchased listings succeed, change nothing
    and hold only existing recipes with a save or purchase row of that
    user; within the 1000-document caps they hold every such recipe. *)
Theorem own_listings_exact (db : Db) (token : string) (u : User.t) :
  find_one (fun x => eqs (User.id x) token) (users db) = Some u ->
  exists saved bought,
    get_saved_recipes (User.id u) token db = (Ok saved, db)
    /\ get_user_purchases (User.id u) token db = (Ok bought, db)
    /\ (forall r, In r saved ->
          In r (recipes db)
          /\ exists s, In s (saves db) /\ Save.user_id s = User.id u
                       /\ Save.recipe_id s = Recipe.id r)
    /\ (forall r, In r bought ->
          In r (recipes db)
          /\ exists p, In p (purchases db) /\ Purchase.user_id p = User.id u
                       /\ Purchase.recipe_id p = Recipe.id r)
    /\ ((List.length (recipes db) <= 1000)%nat ->
        forall r, In r (recipes db) ->
          ((List.length (saves db) <= 1000)%nat ->
           forall s, In s (saves db) -> Save.user_id s = User.id u ->
                     Save.recipe_id s = Recipe.id r -> In r saved)
          /\ ((List.length (purchases db) <= 1000)%nat ->
              forall p, In p (purchases db) ->
                        Purchase.user_id p = User.id u ->
                        Purchase.recipe_id p = Recipe.id r -> In r bought)).
Proof.
  intros Hu. unfold get_saved_recipes, get_user_purchases. as_user Hu.
  rewrite eqs_refl. cbn.
  eexists. eexists. split; [reflexivity|]. split; [reflexivity|].
  split; [|split].
  - intros r Hin. apply listing_sound in Hin as (Hr & s & Hs & Hq & Hg).
    split; [assumption|]. exists s. apply eqs_true in Hq. auto.
  - intros r Hin. apply listing_sound in Hin as (Hr & p & Hp & Hq & Hg).
    split; [assumption|]. exists p. apply eqs_true in Hq. auto.
  - intros Hn r Hr. split; intros Hm x Hx H1 H2;
      apply listing_complete; try assumption; exists x;
      (split; [assumption|]); (split; [|assumption]);
      rewrite H1; apply eqs_refl.
Qed.

(** ** The statements above on the sample run *)

Lemma reachable_demo_db : reachable demo_db.
Proof.
  apply (reachable_run demo_ops empty_db);
    [apply reachable_empty | vm_compute; reflexivity].
Qed.

Lemma failed_request_leaves_store_witness :
  outcome (OpDeleteRecipe "r-soup" "u-bob") demo_db
  = Some (mkHTTP 403 "Not authorized to delete this recipe")
  /\ handle (OpDeleteRecipe "r-soup" "u-bob") demo_db = demo_db.
Proof.
  split; [reflexivity|].
  apply (failed_request_leaves_store (OpDeleteRecipe "r-soup" "u-bob") demo_db
           (mkHTTP 403 "Not authorized to delete this recipe")).
  reflexivity.
Defined.

Lemma unknown_bearer_rejected_witness :
  outcome (OpLikeRecipe "l-9" 9 "r-soup" "u-nobody") demo_db
  = Some (mkHTTP 404 "User not found").
Proof.
  apply (unknown_bearer_rejected (OpLikeRecipe "l-9" 9 "r-soup" "u-nobody")
           demo_db "u-nobody"); reflexivity.
Defined.

Lemma admin_only_routes_witness :
  toggle_user_active "u-alice" "u-bob" demo_db
  = (Raised (mkHTTP 403 "Insufficient permissions"), demo_db).
Proof.
  apply (admin_only_routes demo_db "u-bob" demo_bob); [reflexivity|].
  discriminate.
Defined.

Lemma update_user_role_outcomes_witness :
  exists db',
    update_user_role "u-bob" "chef" "u-alice" demo_db
    = (Ok (User.set_role "chef" demo_bob), db')
    /\ recipes db' = recipes demo_db.
Proof.
  pose proof (update_user_role_outcomes demo_db "u-bob" "chef" "u-alice"
                demo_alice eq_refl eq_refl) as H.
  cbn in H. destruct H as (db' & Hrun & _ & _ & Hrec & _).
  exists db'. split; [exact Hrun | exact Hrec].
Defined.

Lemma toggle_user_active_twice_witness :
  exists m1 m2 db1,
    toggle_user_active "u-bob" "u-alice" demo_db = (Ok m1, db1)
    /\ toggle_user_active "u-bob" "u-alice" db1 = (Ok m2, demo_db).
Proof.
  destruct (toggle_user_active_twice demo_db "u-bob" "u-alice" demo_alice
              demo_bob eq_refl eq_refl eq_refl)
    as (m1 & m2 & db1 & H1 & _ & H2 & _).
  exists m1, m2, db1. split; [exact H1 | exact H2].
Defined.

Lemma login_sound_witness :
  snd (login (fun _ _ => true) (UserLogin.mk "bob@example.com" "pw-b") demo_db)
  = demo_db
  /\ User.is_active demo_bob = true.
Proof.
  destruct (login_sound (fun _ _ => true)
              (UserLogin.mk "bob@example.com" "pw-b") demo_db) as [Hs Hok].
  split; [exact Hs|].
  apply (Hok demo_bob). reflexivity.
Defined.

Lemma deactivated_account_cannot_login_witness :
  exists db',
    toggle_user_active "u-bob" "u-alice" demo_db
    = (Ok "User deactivated successfully", db')
    /\ login (fun _ _ => true) (UserLogin.mk "bob@example.com" "pw-b") db'
       = (Raised (mkHTTP 403 "Account is deactivated"), db').
Proof.
  destruct (deactivated_account_cannot_login demo_db "u-bob" "u-alice"
              demo_alice demo_bob reachable_demo_db eq_refl eq_refl eq_refl
              eq_refl) as (db' & Hrun & Hlogin & _).
  exists db'. split; [exact Hrun|].
  exact (Hlogin (fun _ _ => true) "pw-b").
Defined.

Lemma register_rejects_duplicates_witness :
  In demo_bob (users demo_db)
  /\ register "u-9" 9 "h9" bob demo_db
     = (Raised (mkHTTP 400 "Email already registered"), demo_db).
Proof.
  assert (Hin : In demo_bob (users demo_db)) by (right; left; reflexivity).
  split; [exact Hin|].
  apply (register_rejects_duplicates demo_db "u-9" 9 "h9" bob demo_bob Hin).
  reflexivity.
Defined.

Lemma register_then_lookup_witness :
  exists u db',
    register "u-alice" 1 "h1" alice empty_db = (Ok u, db')
    /\ get_user_by_username "alice" db' = (Ok u, db')
    /\ get_user "u-alice" db' = (Ok u, db').
Proof.
  eexists. eexists. split; [vm_compute; reflexivity|].
  pose proof (register_then_lookup empty_db _ "u-alice" 1 "h1" alice _
                eq_refl) as (Hname & _ & Hid & _).
  split; [exact Hname | exact (Hid eq_refl)].
Defined.

Lemma credentials_unique_witness :
  NoDup (map User.email (users demo_db)).
Proof. apply (credentials_unique demo_db reachable_demo_db). Defined.

Lemma admin_stats_roles_add_up_witness :
  exists stats,
    get_admin_stats "u-alice" demo_db = (Ok stats, demo_db)
    /\ AdminStats.users_count stats = 2%nat.
Proof.
  destruct (admin_stats_roles_add_up demo_db "u-alice" demo_alice
              reachable_demo_db eq_refl eq_refl)
    as (stats & Hrun & _ & Hn & _).
  exists stats. split; [exact Hrun | exact Hn].
Defined.

Lemma roles_stay_valid_witness :
  User.role demo_bob = UserRole.ADMIN \/ User.role demo_bob = UserRole.MODERATOR
  \/ User.role demo_bob = UserRole.CHEF \/ User.role demo_bob = UserRole.USER.
Proof.
  apply (roles_stay_valid demo_db demo_bob reachable_demo_db).
  right; left; reflexivity.
Defined.

Lemma no_self_follow_rows_witness :
  Follow.follower_id (Follow.mk "f-1" "u-bob" "u-alice" 8)
  <> Follow.following_id (Follow.mk "f-1" "u-bob" "u-alice" 8).
Proof.
  apply (no_self_follow_rows demo_db _ reachable_demo_db).
  left; reflexivity.
Defined.

Lemma rows_made_by_existing_users_witness :
  In (Like.user_id (Like.mk "l-1" "r-soup" "u-bob" 5))
     (map User.id (users demo_db)).
Proof.
  apply (rows_made_by_existing_users demo_db reachable_demo_db).
  left. reflexivity.
Defined.

Lemma toggle_answer_matches_check_witness :
  exists b m db',
    like_recipe "l-9" 9 "r-soup" "u-bob" demo_db = (Ok (b, m), db')
    /\ check_liked "r-soup" "u-bob" db' = (Ok b, db')
    /\ b = false.
Proof.
  destruct (toggle_answer_matches_check demo_db "l-9" 9 "r-soup" "u-bob"
              demo_bob reachable_demo_db eq_refl)
    as ((b & m & db' & Hrun & Hcheck & Hb) & _).
  exists b, m, db'. split; [exact Hrun|]. split; [exact Hcheck | exact Hb].
Defined.

Lemma check_purchased_isAccessible_witness :
  check_purchased "r-cake" "u-bob" demo_db = (Ok (false, false), demo_db).
Proof.
  apply (check_purchased_isAccessible demo_db "r-cake" "u-bob" demo_bob
           demo_cake); reflexivity.
Defined.

Lemma purchase_grants_access_witness :
  exists m db',
    purchase_recipe "p-1" 9 "r-cake" "u-bob" demo_db = (Ok (true, m), db')
    /\ check_purchased "r-cake" "u-bob" db' = (Ok (true, false), db').
Proof.
  pose proof (purchase_grants_access demo_db "p-1" 9 "r-cake" "u-bob"
                demo_bob demo_cake eq_refl eq_refl) as H.
  cbn in H. destruct H as (m & db' & Hrun & Hcheck & _).
  exists m, db'. split; [exact Hrun | exact Hcheck].
Defined.

Lemma delete_recipe_frame_witness :
  purchases (snd (delete_recipe "r-soup" "u-alice" demo_db))
  = purchases demo_db.
Proof.
  apply (delete_recipe_frame demo_db "r-soup" "u-alice" demo_alice demo_soup);
    reflexivity.
Defined.

Lemma follow_missing_user_succeeds_witness :
  exists db',
    follow_user "f-9" 9 "u-nobody" "u-bob" demo_db
    = (Ok (true, "Following"), db')
    /\ find_one (fun x => eqs (User.id x) "u-nobody") (users db') = None.
Proof.
  destruct (follow_missing_user_succeeds demo_db "f-9" 9 "u-nobody" "u-bob"
              demo_bob eq_refl eq_refl eq_refl)
    as (db' & Hrun & _ & _ & _ & Hnone).
  exists db'. split; [exact Hrun | exact Hnone].
Defined.

Lemma toggles_ignore_missing_recipe_witness :
  exists b m db',
    like_recipe "l-9" 9 "r-none" "u-bob" demo_db = (Ok (b, m), db')
    /\ recipes db' = recipes demo_db.
Proof.
  destruct (toggles_ignore_missing_recipe demo_db "l-9" 9 "r-none" "u-bob"
              demo_bob eq_refl eq_refl)
    as ((b & m & db' & Hrun & Hrec & _) & _).
  exists b, m, db'. split; [exact Hrun | exact Hrec].
Defined.

Lemma update_profile_frame_witness :
  exists u' db',
    update_profile (UpdateProfile.mk None (Some "I bake") None) "u-bob" demo_db
    = (Ok u', db')
    /\ User.bio u' = Some "I bake"
    /\ User.full_name u' = "Bob".
Proof.
  destruct (update_profile_frame demo_db
              (UpdateProfile.mk None (Some "I bake") None) "u-bob" demo_bob
              eq_refl)
    as (u' & db' & Hrun & _ & Hname & Hbio & _).
  exists u', db'. split; [exact Hrun|]. split; [exact Hbio | exact Hname].
Defined.

Lemma create_recipe_then_get_witness :
  (exists r db',
      create_recipe "r-9" 9 soup "u-bob" demo_db = (Ok r, db')
      /\ get_recipe "r-9" db' = (Ok r, db'))
  /\ create_recipe "r-9" 9
       (RecipeCreate.mk "Soup" "A soup" "img" [] [] 10 9223372036854775808
                        "easy" "Soup" [] false 0%float)
       "u-bob" demo_db
     = (Raised (mkHTTP 500 "Internal Server Error"), demo_db).
Proof.
  split.
  - pose proof (create_recipe_then_get demo_db "r-9" 9 soup "u-bob" demo_bob
                  eq_refl eq_refl) as H.
    change (encodable soup) with true in H. cbn iota in H.
    destruct H as (r & db' & Hrun & Hget & _).
    exists r, db'. split; [exact Hrun | exact Hget].
  - exact (create_recipe_then_get demo_db "r-9" 9
             (RecipeCreate.mk "Soup" "A soup" "img" [] [] 10
                              9223372036854775808 "easy" "Soup" [] false
                              0%float)
             "u-bob" demo_bob eq_refl eq_refl).
Defined.

Lemma follow_listings_match_counters_witness :
  exists followers following,
    get_followers "u-alice" demo_db = (Ok followers, demo_db)
    /\ get_following "u-alice" demo_db = (Ok following, demo_db)
    /\ Z.of_nat (List.length followers) = 1.
Proof.
  destruct (follow_listings_match_counters demo_db "u-alice" demo_alice
              reachable_demo_db
              (proj1 (Nat.leb_le (List.length (follows demo_db)) 1000) eq_refl)
              (proj1 (Nat.leb_le (List.length (users demo_db)) 1000) eq_refl)
              eq_refl)
    as (l1 & l2 & H1 & H2 & Hn & _).
  exists l1, l2. split; [exact H1|]. split; [exact H2 | exact Hn].
Defined.

Lemma listing_gates_witness :
  get_saved_recipes "u-bob" "u-alice" demo_db
  = (Raised (mkHTTP 403 "Can only view your own saved recipes"), demo_db).
Proof.
  apply (listing_gates demo_db "u-alice" demo_alice eq_refl). discriminate.
Defined.

Lemma own_listings_exact_witness :
  exists saved bought,
    get_saved_recipes (User.id demo_bob) "u-bob" demo_db = (Ok saved, demo_db)
    /\ get_user_purchases (User.id demo_bob) "u-bob" demo_db
       = (Ok bought, demo_db)
    /\ In demo_cake saved.
Proof.
  destruct (own_listings_exact demo_db "u-bob" demo_bob eq_refl)
    as (saved & bought & H1 & H2 & _ & _ & Hcomplete).
  exists saved, bought. split; [exact H1|]. split; [exact H2|].
  apply (Hcomplete
           (proj1 (Nat.leb_le (List.length (recipes demo_db)) 1000) eq_refl)
           demo_cake
           (or_intror (or_introl eq_refl)))
    with (s := Save.mk "s-1" "r-cake" "u-bob" 6).
  - apply Nat.leb_le. reflexivity.
  - left. reflexivity.
  - reflexivity.
  - reflexivity.
Defined.
